(** * Asset handlers: a shallow embedding of the HTTP functions

    The repository is a set of HTTP-triggered functions (create, get, list,
    update, delete) over three managed services: a relational table
    [file_metadata], a document container keyed by [id], and a blob
    container.  The embedding keeps the shape of the Python code:

    - Python values that travel through the handlers are [py.value];
      dictionaries are [gmap string value], with [dict.update] as the
      left-biased union of stdpp taken with the updating dictionary on the
      left.
    - Every function that can raise or touch a service lives in the monad
      [M]: a state over [World] with Python exceptions as results.
    - Every call that leaves the process is recorded in [calls] together
      with its outcome; whether a call fails is decided by the [oracle] of
      the world, so that each failure pattern of the services is an input. *)

From stdpp Require Import gmap strings list fin_maps sorting pretty.
From Stdlib Require Import ZArith Ascii String.

Set Warnings "-register-all".
Local Open Scope Z_scope.
Local Open Scope string_scope.

(** ** Python values, truthiness and [int()] *)

Module py.

(** A float is not-a-number, an infinity, or the finite number [m * 2^e]. *)
Inductive pyfloat :=
| FNan
| FInf (negative : bool)
| FFinite (m e : Z).

(** Values produced by [json.loads] (and handed back by the stores). *)
Inductive value :=
| VNone
| VBool (b : bool)
| VInt (z : Z)
| VFloat (f : pyfloat)
| VStr (s : string)
| VList (l : list value)
| VDict (d : gmap string value).

Inductive exn :=
| AuthenticationError (msg : string)
| ValueError (msg : string)
| TypeError
| OverflowError
| AttributeError
| CosmosResourceNotFoundError
| ServiceError (msg : string).

Inductive result (A : Type) :=
| Ok (a : A)
| Raise (e : exn).
Arguments Ok {A} a.
Arguments Raise {A} e.

(** [str(e)] *)
Definition exn_str (e : exn) : string :=
  match e with
  | AuthenticationError m | ValueError m | ServiceError m => m
  | TypeError => "TypeError"
  | OverflowError => "OverflowError"
  | AttributeError => "AttributeError"
  | CosmosResourceNotFoundError => "NotFound"
  end.

(** [bool(v)]: what [not v], [v or d] and [all([...])] look at. *)
Definition truthy (v : value) : bool :=
  match v with
  | VNone => false
  | VBool b => b
  | VInt z => negb (Z.eqb z 0)
  | VFloat FNan => true
  | VFloat (FInf _) => true
  | VFloat (FFinite m _) => negb (Z.eqb m 0)
  | VStr s => negb (String.eqb s "")
  | VList l => match l with [] => false | _ => true end
  | VDict d => negb (bool_decide (size d = 0%nat))
  end.

(** [bool(s)] for an optional string such as [os.getenv(..)]. *)
Definition str_truthy (o : option string) : bool :=
  match o with
  | Some s => negb (String.eqb s "")
  | None => false
  end.

(** [all(l)] on a list of values *)
Definition all (l : list value) : bool := forallb truthy l.

(** *** [int(s)] on text (ASCII): surrounding white space, an optional
    sign, decimal digits with single underscores between digits. *)

Definition is_space (c : ascii) : bool :=
  let n := nat_of_ascii c in
  ((9 <=? n) && (n <=? 13) || (28 <=? n) && (n <=? 32))%nat.

Definition is_digit (c : ascii) : bool :=
  let n := nat_of_ascii c in ((48 <=? n) && (n <=? 57))%nat.

Definition digit_val (c : ascii) : Z := Z.of_nat (nat_of_ascii c) - 48.

Fixpoint lstrip (l : list ascii) : list ascii :=
  match l with
  | c :: l' => if is_space c then lstrip l' else l
  | [] => []
  end.

Definition strip (l : list ascii) : list ascii :=
  rev (lstrip (rev (lstrip l))).

Fixpoint digits (acc : Z) (after_digit : bool) (l : list ascii) : option Z :=
  match l with
  | [] => if after_digit then Some acc else None
  | c :: l' =>
      if is_digit c then digits (10 * acc + digit_val c) true l'
      else if Ascii.eqb c "_"
           then (if after_digit then digits acc false l' else None)
           else None
  end.

Definition int_of_text (s : string) : option Z :=
  match strip (list_ascii_of_string s) with
  | c :: l =>
      if Ascii.eqb c "-" then Z.opp <$> digits 0 false l
      else if Ascii.eqb c "+" then digits 0 false l
      else digits 0 false (c :: l)
  | [] => None
  end.

(** [int(f)] on a float truncates towards zero; infinities overflow. *)
Definition int_of_float (f : pyfloat) : result Z :=
  match f with
  | FNan => Raise (ValueError "cannot convert float NaN to integer")
  | FInf _ => Raise OverflowError
  | FFinite m e =>
      if Z.leb 0 e then Ok (m * 2 ^ e) else Ok (Z.quot m (2 ^ (- e)))
  end.

(** [int(v)] *)
Definition int (v : value) : result Z :=
  match v with
  | VBool b => Ok (if b then 1 else 0)
  | VInt z => Ok z
  | VFloat f => int_of_float f
  | VStr s =>
      match int_of_text s with
      | Some z => Ok z
      | None => Raise (ValueError "invalid literal for int() with base 10")
      end
  | VNone | VList _ | VDict _ => Raise TypeError
  end.

(** [d.get(k)] on a dictionary: [None] when the key is absent. *)
Definition dict_get (d : gmap string value) (k : string) : value :=
  default VNone (d !! k).

(** [d.update(e)]: the entries of [e] replace those of [d]. *)
Definition dict_update (d e : gmap string value) : gmap string value := e ∪ d.

(** [bool(d)] for a dictionary *)
Definition dict_truthy (d : gmap string value) : bool :=
  negb (bool_decide (size d = 0%nat)).

(** [o or {}] / [o or d] for an optional dictionary *)
Definition dict_or (o : option (gmap string value)) (d : gmap string value)
  : gmap string value :=
  match o with
  | Some x => if dict_truthy x then x else d
  | None => d
  end.

End py.
Export py.

(** ** What the embedding takes from outside the repository *)

(** Pure library functions whose results the handlers only pass along. *)
Class Platform := {
  (** [str(v)] as used by f-strings *)
  py_str : value → string;
  (** [str(uuid.uuid4())], by number of draws made so far *)
  uuid4 : nat → string;
  (** [datetime.isoformat()] of a time in seconds *)
  isoformat : Z → string;
  (** [generate_blob_sas(account, container, blob, key, expiry)] with the
      create/write/add permission the code asks for *)
  generate_blob_sas : string → string → string → string → Z → string;
  (** the value the SQL driver hands back for a [created_at] cell; the
      table definition is not part of the repository, the cell is taken
      to come back as a value [json.dumps] accepts *)
  datetime_cell : Z → value;
}.

(** ** The relational table *)

Module sql.

Record Row := mkRow {
  r_id : string;
  r_user_id : value;
  r_file_name : value;
  r_file_type : value;
  r_file_size : value;
  r_blob_url : value;
  r_status : value;
  r_created_at : Z;
}.

(** The five statements the handlers send, bind parameters apart. *)
Inductive stmt :=
| INSERT_file_metadata
    (* INSERT INTO file_metadata (id, user_id, file_name, file_type,
       file_size, blob_url, status, created_at) VALUES (:id, NULL,
       :file_name, :file_type, :file_size, :blob_url, 'pending',
       SYSUTCDATETIME()) *)
| UPDATE_file_metadata (sets : list (string * string))
    (* UPDATE file_metadata SET col = :param, ... WHERE id = :id *)
| DELETE_file_metadata
    (* DELETE FROM file_metadata WHERE id = :id *)
| SELECT_by_id
    (* SELECT id, file_name AS fileName, ..., created_at AS uploadDate
       FROM file_metadata WHERE id = :id *)
| SELECT_all_desc.
    (* SELECT ... FROM file_metadata ORDER BY created_at DESC *)

Definition param_str (params : gmap string value) (k : string) : option string :=
  match params !! k with
  | Some (VStr s) => Some s
  | _ => None
  end.

(** [SET col = v] on one row; [None] when the column does not exist or
    the value does not fit it. *)
Definition set_column (col : string) (v : value) (r : Row) : option Row :=
  if String.eqb col "id" then
    match v with
    | VStr s => Some (mkRow s (r_user_id r) (r_file_name r) (r_file_type r)
                        (r_file_size r) (r_blob_url r) (r_status r) (r_created_at r))
    | _ => None
    end
  else if String.eqb col "user_id" then
    Some (mkRow (r_id r) v (r_file_name r) (r_file_type r)
            (r_file_size r) (r_blob_url r) (r_status r) (r_created_at r))
  else if String.eqb col "file_name" then
    Some (mkRow (r_id r) (r_user_id r) v (r_file_type r)
            (r_file_size r) (r_blob_url r) (r_status r) (r_created_at r))
  else if String.eqb col "file_type" then
    Some (mkRow (r_id r) (r_user_id r) (r_file_name r) v
            (r_file_size r) (r_blob_url r) (r_status r) (r_created_at r))
  else if String.eqb col "file_size" then
    Some (mkRow (r_id r) (r_user_id r) (r_file_name r) (r_file_type r)
            v (r_blob_url r) (r_status r) (r_created_at r))
  else if String.eqb col "blob_url" then
    Some (mkRow (r_id r) (r_user_id r) (r_file_name r) (r_file_type r)
            (r_file_size r) v (r_status r) (r_created_at r))
  else if String.eqb col "status" then
    Some (mkRow (r_id r) (r_user_id r) (r_file_name r) (r_file_type r)
            (r_file_size r) (r_blob_url r) v (r_created_at r))
  else if String.eqb col "created_at" then
    match v with
    | VInt t => Some (mkRow (r_id r) (r_user_id r) (r_file_name r) (r_file_type r)
                        (r_file_size r) (r_blob_url r) (r_status r) t)
    | _ => None
    end
  else None.

(** The [SET] list, left to right; a parameter that is not bound fails. *)
Fixpoint apply_sets (sets : list (string * string)) (params : gmap string value)
    (r : Row) : option Row :=
  match sets with
  | [] => Some r
  | (col, p) :: rest =>
      match params !! p with
      | Some v =>
          match set_column col v r with
          | Some r' => apply_sets rest params r'
          | None => None
          end
      | None => None
      end
  end.

(** [UPDATE ... WHERE id = :id] over the table *)
Fixpoint update_where (i : string) (sets : list (string * string))
    (params : gmap string value) (t : list Row) : option (list Row) :=
  match t with
  | [] => Some []
  | r :: t' =>
      match update_where i sets params t' with
      | Some u =>
          if String.eqb (r_id r) i
          then match apply_sets sets params r with
               | Some r' => Some (r' :: u)
               | None => None
               end
          else Some (r :: u)
      | None => None
      end
  end.

Definition newest_first (a b : Row) : Prop :=
  (r_created_at b ≤ r_created_at a)%Z.

#[global] Instance newest_first_dec a b : Decision (newest_first a b).
Proof. unfold newest_first. apply _. Defined.

(** The column list of both SELECT statements, with its aliases. *)
Definition row_dict `{Platform} (r : Row) : gmap string value :=
  {[ "id" := VStr (r_id r);
     "fileName" := r_file_name r;
     "fileType" := r_file_type r;
     "fileSize" := r_file_size r;
     "blobUrl" := r_blob_url r;
     "status" := r_status r;
     "uploadDate" := datetime_cell (r_created_at r) ]}.

(** A statement that changes the table: the new table, or [None] when the
    server rejects the statement. *)
Definition exec (s : stmt) (params : gmap string value) (now : Z)
    (t : list Row) : option (list Row) :=
  match s with
  | INSERT_file_metadata =>
      match param_str params "id", params !! "file_name", params !! "file_type",
            params !! "file_size", params !! "blob_url" with
      | Some i, Some n, Some ty, Some sz, Some u =>
          Some (t ++ [mkRow i VNone n ty sz u (VStr "pending") now])%list
      | _, _, _, _, _ => None
      end
  | UPDATE_file_metadata sets =>
      match param_str params "id" with
      | Some i => update_where i sets params t
      | None => None
      end
  | DELETE_file_metadata =>
      match param_str params "id" with
      | Some i => Some (filter (λ r, r_id r ≠ i) t)
      | None => None
      end
  | SELECT_by_id | SELECT_all_desc => None
  end.

(** A statement that returns rows. *)
Definition query (s : stmt) (params : gmap string value) (t : list Row)
  : option (list Row) :=
  match s with
  | SELECT_by_id =>
      match param_str params "id" with
      | Some i => Some (filter (λ r, r_id r = i) t)
      | None => None
      end
  | SELECT_all_desc => Some (merge_sort newest_first t)
  | _ => None
  end.

End sql.

(** ** The world of one request *)

Inductive Op :=
| CosmosOpen (db container : string)
| CosmosUpsert (doc : gmap string value)
| CosmosRead (item : string)
| CosmosDelete (item : string)
| SqlExecute (s : sql.stmt) (params : gmap string value)
| SqlFetch (s : sql.stmt) (params : gmap string value)
| BlobList (container prefix : string)
| BlobDelete (container name : string).

Inductive outcome :=
| Succeeded
| Failed (e : exn).

Inductive level := INFO | WARNING | ERROR.

Record World := mkWorld {
  (** [os.environ] *)
  environ : gmap string string;
  (** the services: [Some msg] makes the call number [n] fail *)
  oracle : nat → Op → option string;
  (** every call made to a service, oldest first, with its outcome *)
  calls : list (Op * outcome);
  (** every call made to a logger, oldest first *)
  logs : list (level * string);
  (** the module globals of the two clients *)
  _CONTAINER : bool;
  _db_engine : option string;
  (** the contents of the three stores *)
  file_metadata : list sql.Row;
  items : gmap string (gmap string value);
  blobs : list (string * string);
  (** clocks of the process and of the database server, draws of uuid4 *)
  clock : Z;
  db_clock : Z;
  draws : nat;
}.

Definition with_calls (c : list (Op * outcome)) (w : World) : World :=
  mkWorld (environ w) (oracle w) c (logs w) (_CONTAINER w) (_db_engine w)
    (file_metadata w) (items w) (blobs w) (clock w) (db_clock w) (draws w).
Definition with_logs (l : list (level * string)) (w : World) : World :=
  mkWorld (environ w) (oracle w) (calls w) l (_CONTAINER w) (_db_engine w)
    (file_metadata w) (items w) (blobs w) (clock w) (db_clock w) (draws w).
Definition with_CONTAINER (b : bool) (w : World) : World :=
  mkWorld (environ w) (oracle w) (calls w) (logs w) b (_db_engine w)
    (file_metadata w) (items w) (blobs w) (clock w) (db_clock w) (draws w).
Definition with_db_engine (e : option string) (w : World) : World :=
  mkWorld (environ w) (oracle w) (calls w) (logs w) (_CONTAINER w) e
    (file_metadata w) (items w) (blobs w) (clock w) (db_clock w) (draws w).
Definition with_file_metadata (t : list sql.Row) (w : World) : World :=
  mkWorld (environ w) (oracle w) (calls w) (logs w) (_CONTAINER w) (_db_engine w)
    t (items w) (blobs w) (clock w) (db_clock w) (draws w).
Definition with_items (m : gmap string (gmap string value)) (w : World) : World :=
  mkWorld (environ w) (oracle w) (calls w) (logs w) (_CONTAINER w) (_db_engine w)
    (file_metadata w) m (blobs w) (clock w) (db_clock w) (draws w).
Definition with_blobs (b : list (string * string)) (w : World) : World :=
  mkWorld (environ w) (oracle w) (calls w) (logs w) (_CONTAINER w) (_db_engine w)
    (file_metadata w) (items w) b (clock w) (db_clock w) (draws w).
Definition with_draws (n : nat) (w : World) : World :=
  mkWorld (environ w) (oracle w) (calls w) (logs w) (_CONTAINER w) (_db_engine w)
    (file_metadata w) (items w) (blobs w) (clock w) (db_clock w) n.

(** ** The monad of the handlers: state and exceptions *)

Definition M (A : Type) : Type := World → result A * World.

Definition ret {A} (a : A) : M A := λ w, (Ok a, w).

Definition raise {A} (e : exn) : M A := λ w, (Raise e, w).

Definition bind {A B} (m : M A) (f : A → M B) : M B :=
  λ w, match m w with
       | (Ok a, w') => f a w'
       | (Raise e, w') => (Raise e, w')
       end.

(** The body [m] of a [try:], its result or its exception handed to the
    [except] clauses that follow *)
Definition attempt {A} (m : M A) : M (result A) :=
  λ w, let '(r, w') := m w in (Ok r, w').

Notation "'let*' x ':=' m 'in' k" := (bind m (λ x, k))
  (at level 10, x name, m at level 100, k at level 200).

Definition getenv (k : string) : M (option string) :=
  λ w, (Ok (environ w !! k), w).

Definition getenv_default (k d : string) : M string :=
  λ w, (Ok (default d (environ w !! k)), w).

Definition log (l : level) (msg : string) : M unit :=
  λ w, (Ok tt, with_logs (logs w ++ [(l, msg)])%list w).

Definition outcome_of {A} (r : result A) : outcome :=
  match r with
  | Ok _ => Succeeded
  | Raise e => Failed e
  end.

(** One call to a service: the oracle may fail it before it reaches the
    store; otherwise [run] is what the store does. *)
Definition remote {A} (op : Op) (run : World → result A * World) : M A :=
  λ w, match oracle w (List.length (calls w)) op with
       | Some msg =>
           (Raise (ServiceError msg),
            with_calls (calls w ++ [(op, Failed (ServiceError msg))])%list w)
       | None =>
           let '(r, w') := run w in
           (r, with_calls (calls w' ++ [(op, outcome_of r)])%list w')
       end.

Definition of_result {A} (r : result A) : M A := λ w, (r, w).

(** [for x in l: body(x)] *)
Fixpoint for_each {A} (l : list A) (body : A → M unit) : M unit :=
  match l with
  | [] => ret tt
  | x :: l' => let* _ := body x in for_each l' body
  end.

Definition utcnow : M Z := λ w, (Ok (clock w), w).

Definition draw_uuid4 `{Platform} : M string :=
  λ w, (Ok (uuid4 (draws w)), with_draws (S (draws w)) w).

(** [s.replace(a, b)] for single characters *)
Fixpoint replace_char (a b : ascii) (s : string) : string :=
  match s with
  | EmptyString => EmptyString
  | String c s' => String (if Ascii.eqb c a then b else c) (replace_char a b s')
  end.

(** ** shared/auth.py *)

Module auth.

Definition validate_api_key (api_key : option string) : M bool :=
  let* configured_key := getenv "API_KEY" in
  if negb (str_truthy configured_key) then ret true
  else if negb (str_truthy api_key) then ret false
  else ret (bool_decide (api_key = configured_key)).

Definition require_api_key (api_key : option string) : M unit :=
  let* valid := validate_api_key api_key in
  if negb valid then raise (AuthenticationError "Invalid or missing API key")
  else ret tt.

End auth.

(** ** shared/sql_client.py *)

Module sql_client.

Definition _construct_connection_string : M string :=
  let* server := getenv "SQL_SERVER" in
  let* database := getenv "SQL_DATABASE" in
  let* username := getenv "SQL_USERNAME" in
  let* password := getenv "SQL_PASSWORD" in
  let* encrypt := getenv_default "SQL_ENCRYPT" "true" in
  let* driver := getenv_default "SQL_DRIVER" "ODBC Driver 18 for SQL Server" in
  if negb (str_truthy server && str_truthy database
           && str_truthy username && str_truthy password)
  then raise (ValueError "SQL connection parameters are incomplete")
  else
    let driver_encoded := replace_char " " "+" driver in
    ret ("mssql+pyodbc://" +:+ default "" username +:+ ":" +:+ default "" password
         +:+ "@" +:+ default "" server +:+ ":1433/" +:+ default "" database
         +:+ "?driver=" +:+ driver_encoded +:+ "&Encrypt=" +:+ encrypt
         +:+ "&TrustServerCertificate=no").

Definition get_database_engine : M string :=
  let* engine := (λ w, (Ok (_db_engine w), w)) in
  match engine with
  | Some e => ret e
  | None =>
      let* made := attempt _construct_connection_string in
      match made with
      | Ok conn_str =>
          let* _ := (λ w, (Ok tt, with_db_engine (Some conn_str) w)) in
          ret conn_str
      | Raise e =>
          let* _ := log ERROR ("Failed to initialize SQL database engine: " +:+ exn_str e) in
          raise e
      end
  end.

Definition fetch_all_records `{Platform} (query : sql.stmt)
    (parameters : option (gmap string value)) : M (list (gmap string value)) :=
  let* _ := get_database_engine in
  let params := dict_or parameters ∅ in
  remote (SqlFetch query params)
    (λ w, match sql.query query params (file_metadata w) with
          | Some rows => (Ok (sql.row_dict <$> rows), w)
          | None => (Raise (ServiceError "statement rejected"), w)
          end).

Definition execute_update (query : sql.stmt)
    (parameters : option (gmap string value)) : M unit :=
  let* _ := get_database_engine in
  let params := dict_or parameters ∅ in
  remote (SqlExecute query params)
    (λ w, match sql.exec query params (db_clock w) (file_metadata w) with
          | Some t => (Ok tt, with_file_metadata t w)
          | None => (Raise (ServiceError "statement rejected"), w)
          end).

End sql_client.

(** ** shared/cosmos_client.py *)

Module cosmos_client.

Definition get_container : M unit :=
  let* container := (λ w, (Ok (_CONTAINER w), w)) in
  if container then ret tt
  else
    let* made := attempt (
      let* endpoint := getenv "COSMOS_ENDPOINT" in
      let* key := getenv "COSMOS_KEY" in
      if negb (str_truthy endpoint) || negb (str_truthy key)
      then raise (ValueError "COSMOS_ENDPOINT and COSMOS_KEY must be set")
      else
        let* db_name := getenv_default "COSMOS_DB_NAME" "media-platform" in
        let* container_name := getenv_default "COSMOS_CONTAINER" "assets" in
        let* _ := remote (CosmosOpen db_name container_name) (λ w, (Ok tt, w)) in
        (λ w, (Ok tt, with_CONTAINER true w))) in
    match made with
    | Ok _ => ret tt
    | Raise e =>
        let* _ := log ERROR ("Failed to initialize Cosmos DB container: " +:+ exn_str e) in
        raise e
    end.

Definition upsert_asset_doc (doc : gmap string value) : M (gmap string value) :=
  let* _ := get_container in
  remote (CosmosUpsert doc)
    (λ w, match doc !! "id" with
          | Some (VStr i) => (Ok doc, with_items (<[i := doc]> (items w)) w)
          | _ => (Raise (ServiceError "the document has no id"), w)
          end).

Definition get_asset_doc (asset_id : string) : M (option (gmap string value)) :=
  let* _ := get_container in
  let* read := attempt (remote (CosmosRead asset_id)
    (λ w, match items w !! asset_id with
          | Some d => (Ok d, w)
          | None => (Raise CosmosResourceNotFoundError, w)
          end)) in
  match read with
  | Ok d => ret (Some d)
  | Raise CosmosResourceNotFoundError => ret None
  | Raise e => raise e
  end.

Definition delete_asset_doc (asset_id : string) : M unit :=
  let* _ := get_container in
  let* deleted := attempt (remote (CosmosDelete asset_id)
    (λ w, match items w !! asset_id with
          | Some _ => (Ok tt, with_items (delete asset_id (items w)) w)
          | None => (Raise CosmosResourceNotFoundError, w)
          end)) in
  match deleted with
  | Ok _ => ret tt
  | Raise CosmosResourceNotFoundError => ret tt
  | Raise e => raise e
  end.

End cosmos_client.

(** ** shared/storage.py *)

Module storage.

(** [s.split(sep)] *)
Fixpoint split (sep : ascii) (l : list ascii) : list (list ascii) :=
  match l with
  | [] => [[]]
  | c :: l' =>
      if Ascii.eqb c sep then [] :: split sep l'
      else match split sep l' with
           | h :: t => (c :: h) :: t
           | [] => [[c]]
           end
  end.

(** [s.split(sep, 1)] when [sep in s] *)
Fixpoint split_once (sep : ascii) (l : list ascii)
  : option (list ascii * list ascii) :=
  match l with
  | [] => None
  | c :: l' =>
      if Ascii.eqb c sep then Some ([], l')
      else match split_once sep l' with
           | Some (k, v) => Some (c :: k, v)
           | None => None
           end
  end.

Definition _parse_connection_string (conn_str : string) : gmap string string :=
  if String.eqb conn_str "" then ∅
  else
    foldl (λ parts item,
             match split_once "=" item with
             | Some (key, value) =>
                 <[string_of_list_ascii (strip key) :=
                     string_of_list_ascii (strip value)]> parts
             | None => parts
             end)
          ∅ (split ";" (list_ascii_of_string conn_str)).

(** The client is its connection string. *)
Definition create_blob_client : M string :=
  let* connection_string := getenv "AZURE_STORAGE_CONNECTION_STRING" in
  if negb (str_truthy connection_string)
  then raise (ValueError "AZURE_STORAGE_CONNECTION_STRING environment variable is required")
  else ret (default "" connection_string).

Definition get_storage_container : M string :=
  getenv_default "AZURE_STORAGE_CONTAINER" "assets".

Definition create_sas_token `{Platform} (container blob_name : string)
    (expiration_hours : Z) : M string :=
  let* account_name := getenv "AZURE_STORAGE_ACCOUNT" in
  let* connection_string := getenv_default "AZURE_STORAGE_CONNECTION_STRING" "" in
  let account_key :=
    default "" (_parse_connection_string connection_string !! "AccountKey") in
  if negb (str_truthy account_name) || String.eqb account_key ""
  then raise (ValueError "Storage account name and key are required for SAS generation")
  else
    let* now := utcnow in
    let expiry_time := (now + expiration_hours * 3600)%Z in
    let sas_token :=
      generate_blob_sas (default "" account_name) container blob_name
        account_key expiry_time in
    ret sas_token.

Definition build_blob_url (container blob_name : string) : M string :=
  let* account_name := getenv "AZURE_STORAGE_ACCOUNT" in
  if negb (str_truthy account_name)
  then raise (ValueError "AZURE_STORAGE_ACCOUNT environment variable is required")
  else ret ("https://" +:+ default "" account_name +:+ ".blob.core.windows.net/"
            +:+ container +:+ "/" +:+ blob_name).

(** [container_client.list_blobs(name_starts_with=prefix)], names only *)
Definition list_blobs (container prefix : string) : M (list string) :=
  remote (BlobList container prefix)
    (λ w, (Ok (snd <$> filter (λ b, b.1 = container ∧ String.prefix prefix b.2 = true)
                         (blobs w)), w)).

(** [container_client.delete_blob(name)] *)
Definition delete_blob (container name : string) : M unit :=
  remote (BlobDelete container name)
    (λ w, if bool_decide ((container, name) ∈ blobs w)
          then (Ok tt, with_blobs (filter (λ b, b ≠ (container, name)) (blobs w)) w)
          else (Raise (ServiceError "The specified blob does not exist."), w)).

End storage.

(** ** Requests and responses *)

Record HttpRequest := mkRequest {
  (** header names in lower case *)
  headers : gmap string string;
  route_params : gmap string string;
  (** the body as [json.loads] reads it; [None] when it is not JSON *)
  json_body : option value;
}.

Inductive Body :=
| Text (s : string)
| Json (v : value).   (* [json.dumps(v)] *)

Record HttpResponse := mkResponse {
  body : Body;
  status_code : Z;
  mimetype : string;
}.

Definition get_json (req : HttpRequest) : M value :=
  match json_body req with
  | Some v => ret v
  | None => raise (ValueError "HTTP request does not contain valid JSON data")
  end.

(** [v.get(k)]: only a dictionary has the method. *)
Definition method_get (v : value) (k : string) : M value :=
  match v with
  | VDict d => ret (dict_get d k)
  | _ => raise AttributeError
  end.

(** [v.items()]: only a dictionary has the method. *)
Definition method_items (v : value) : M (gmap string value) :=
  match v with
  | VDict d => ret d
  | _ => raise AttributeError
  end.

(** ** assets_create/__init__.py *)

Module assets_create.
Section handler.
Context `{Platform}.

Definition main (req : HttpRequest) : M HttpResponse :=
  (* Authenticate request *)
  let* authenticated := attempt (
    let api_key := headers req !! "x-api-key" in
    auth.require_api_key api_key) in
  match authenticated with
  | Raise (AuthenticationError _) =>
      let* _ := log WARNING "Unauthorized access attempt" in
      ret (mkResponse (Text "Unauthorized") 401 "text/plain")
  | Raise e => raise e
  | Ok _ =>
  (* Parse request body *)
  let* parsed := attempt (get_json req) in
  match parsed with
  | Raise (ValueError _) =>
      let* _ := log ERROR "Invalid JSON in request body" in
      ret (mkResponse (Text "Invalid JSON format") 400 "text/plain")
  | Raise e => raise e
  | Ok request_data =>
  (* Validate required fields *)
  let* file_name := method_get request_data "fileName" in
  let* file_type := method_get request_data "fileType" in
  let* file_size := method_get request_data "fileSize" in
  if negb (all [file_name; file_type; file_size]) then
    let* _ := log ERROR "Missing required fields in request" in
    ret (mkResponse (Text "Missing required fields: fileName, fileType, fileSize")
           400 "text/plain")
  else
  let* converted := attempt (of_result (int file_size)) in
  match converted with
  | Raise (ValueError _) | Raise TypeError =>
      let* _ := log ERROR ("Invalid fileSize: " +:+ py_str file_size) in
      ret (mkResponse (Text "fileSize must be a valid integer") 400 "text/plain")
  | Raise e => raise e
  | Ok file_size =>
  (* Generate unique asset ID *)
  let* asset_id := draw_uuid4 in
  let* container_name := storage.get_storage_container in
  let blob_path := asset_id +:+ "/" +:+ py_str file_name in
  (* Generate SAS token for upload *)
  let* sas_token := storage.create_sas_token container_name blob_path 2 in
  let* blob_url := storage.build_blob_url container_name blob_path in
  let upload_url := blob_url +:+ "?" +:+ sas_token in
  (* Save to Cosmos DB *)
  let* saved := attempt (
    let* now := utcnow in
    let now_iso := isoformat now in
    let cosmos_doc : gmap string value :=
      {[ "id" := VStr asset_id;
         "fileName" := file_name;
         "fileType" := file_type;
         "uploadDate" := VStr now_iso;
         "fileSize" := VInt file_size;
         "blobUrl" := VStr blob_url ]} in
    cosmos_client.upsert_asset_doc cosmos_doc) in
  let* _ := match saved with
            | Raise e => log WARNING ("Failed to save to Cosmos DB: " +:+ exn_str e)
            | Ok _ => ret tt
            end in
  (* Save to SQL Database *)
  let* inserted := attempt (
    sql_client.execute_update sql.INSERT_file_metadata
      (Some {[ "id" := VStr asset_id;
               "file_name" := file_name;
               "file_type" := file_type;
               "file_size" := VInt file_size;
               "blob_url" := VStr blob_url ]})) in
  match inserted with
  | Raise e =>
      let* _ := log ERROR ("Failed to save to SQL Database: " +:+ exn_str e) in
      ret (mkResponse (Text "Failed to save asset metadata") 500 "text/plain")
  | Ok _ =>
  (* Prepare response *)
  let response_data : gmap string value :=
    {[ "id" := VStr asset_id;
       "blobUrl" := VStr blob_url;
       "uploadUrl" := VStr upload_url ]} in
  let* _ := log INFO ("Created asset " +:+ asset_id +:+ " for file " +:+ py_str file_name) in
  ret (mkResponse (Json (VDict response_data)) 201 "application/json")
  end end end end.

End handler.
End assets_create.

(** ** assets_get/__init__.py *)

Module assets_get.
Section handler.
Context `{Platform}.

Definition main (req : HttpRequest) : M HttpResponse :=
  (* Authenticate request *)
  let* authenticated := attempt (
    let api_key := headers req !! "x-api-key" in
    auth.require_api_key api_key) in
  match authenticated with
  | Raise (AuthenticationError _) =>
      let* _ := log WARNING "Unauthorized access attempt" in
      ret (mkResponse (Text "Unauthorized") 401 "text/plain")
  | Raise e => raise e
  | Ok _ =>
  (* Get asset ID from route parameters *)
  let asset_id := route_params req !! "id" in
  if negb (str_truthy asset_id) then
    let* _ := log ERROR "Missing asset ID in route" in
    ret (mkResponse (Text "Asset ID is required") 400 "text/plain")
  else
  let asset_id := default "" asset_id in
  (* Get from Cosmos DB and SQL Database (merge results) *)
  let* merged := attempt (
    (* Try to get from Cosmos DB first *)
    let* cosmos_doc := cosmos_client.get_asset_doc asset_id in
    (* Get from SQL Database *)
    let* sql_results :=
      sql_client.fetch_all_records sql.SELECT_by_id
        (Some {[ "id" := VStr asset_id ]}) in
    (* Merge Cosmos and SQL data (Cosmos takes precedence) *)
    let result := dict_or cosmos_doc ∅ in
    let result :=
      match sql_results with
      | row :: _ => dict_update result row
      | [] => result
      end in
    if negb (dict_truthy result) then
      let* _ := log INFO ("Asset " +:+ asset_id +:+ " not found") in
      ret (inl (mkResponse (Text "Not Found") 404 "text/plain"))
    else ret (inr result)) in
  match merged with
  | Raise e =>
      let* _ := log ERROR ("Failed to query databases: " +:+ exn_str e) in
      ret (mkResponse (Text "Internal server error") 500 "text/plain")
  | Ok (inl response) => ret response
  | Ok (inr result) =>
  let* _ := log INFO ("Retrieved asset " +:+ asset_id) in
  ret (mkResponse (Json (VDict result)) 200 "application/json")
  end end.

End handler.
End assets_get.

(** ** assets_list/__init__.py *)

Module assets_list.
Section handler.
Context `{Platform}.

Definition main (req : HttpRequest) : M HttpResponse :=
  (* Authenticate request *)
  let* authenticated := attempt (
    let api_key := headers req !! "x-api-key" in
    auth.require_api_key api_key) in
  match authenticated with
  | Raise (AuthenticationError _) =>
      let* _ := log WARNING "Unauthorized access attempt to list assets" in
      ret (mkResponse (Text "Unauthorized") 401 "text/plain")
  | Raise e => raise e
  | Ok _ =>
  (* Query all assets from SQL Database *)
  let* fetched := attempt (sql_client.fetch_all_records sql.SELECT_all_desc None) in
  match fetched with
  | Raise e =>
      let* _ := log ERROR ("Failed to fetch assets from database: " +:+ exn_str e) in
      ret (mkResponse (Text "Internal server error") 500 "text/plain")
  | Ok assets =>
  let* _ := log INFO ("Retrieved " +:+ py_str (VInt (Z.of_nat (List.length assets)))
                      +:+ " assets") in
  ret (mkResponse (Json (VList (VDict <$> assets))) 200 "application/json")
  end end.

End handler.
End assets_list.

(** ** assets_delete/__init__.py *)

Module assets_delete.
Section handler.
Context `{Platform}.

Definition main (req : HttpRequest) : M HttpResponse :=
  (* Authenticate request *)
  let* authenticated := attempt (
    let api_key := headers req !! "x-api-key" in
    auth.require_api_key api_key) in
  match authenticated with
  | Raise (AuthenticationError _) =>
      let* _ := log WARNING "Unauthorized access attempt" in
      ret (mkResponse (Text "Unauthorized") 401 "text/plain")
  | Raise e => raise e
  | Ok _ =>
  (* Get asset ID from route *)
  let asset_id := route_params req !! "id" in
  if negb (str_truthy asset_id) then
    let* _ := log ERROR "Missing asset ID in route" in
    ret (mkResponse (Text "Asset ID is required") 400 "text/plain")
  else
  let asset_id := default "" asset_id in
  (* Delete blob files from storage *)
  let* swept := attempt (
    let* blob_client := storage.create_blob_client in
    let* container_name := storage.get_storage_container in
    (* Find all blobs with this asset ID prefix *)
    let* blobs_to_delete := storage.list_blobs container_name (asset_id +:+ "/") in
    (* Delete each blob *)
    for_each blobs_to_delete (λ blob_name,
      let* removed := attempt (storage.delete_blob container_name blob_name) in
      match removed with
      | Ok _ => log INFO ("Deleted blob: " +:+ blob_name)
      | Raise e =>
          log WARNING ("Failed to delete blob " +:+ blob_name +:+ ": " +:+ exn_str e)
      end)) in
  let* _ := match swept with
            | Raise e => log ERROR ("Failed to delete blobs from storage: " +:+ exn_str e)
            | Ok _ => ret tt
            end in
  (* Delete from SQL Database *)
  let* deleted := attempt (
    let* _ := sql_client.execute_update sql.DELETE_file_metadata
                (Some {[ "id" := VStr asset_id ]}) in
    log INFO ("Deleted asset " +:+ asset_id +:+ " from SQL Database")) in
  match deleted with
  | Raise e =>
      let* _ := log ERROR ("Failed to delete from SQL Database: " +:+ exn_str e) in
      ret (mkResponse (Text "Failed to delete asset from database") 500 "text/plain")
  | Ok _ =>
  (* Delete from Cosmos DB *)
  let* mirrored := attempt (
    let* _ := cosmos_client.delete_asset_doc asset_id in
    log INFO ("Deleted asset " +:+ asset_id +:+ " from Cosmos DB")) in
  let* _ := match mirrored with
            | Raise e => log WARNING ("Failed to delete from Cosmos DB: " +:+ exn_str e)
            | Ok _ => ret tt
            end in
  let response_data : gmap string value :=
    {[ "deleted" := VBool true; "id" := VStr asset_id ]} in
  let* _ := log INFO ("Successfully deleted asset " +:+ asset_id) in
  ret (mkResponse (Json (VDict response_data)) 200 "application/json")
  end end.

End handler.
End assets_delete.

(** ** assets_update/__init__.py *)

Module assets_update.
Section handler.
Context `{Platform}.

Definition allowed_fields : list string :=
  ["fileName"; "fileType"; "fileSize"; "blobUrl"; "status"].

Definition field_mapping : gmap string string :=
  {[ "fileName" := "file_name";
     "fileType" := "file_type";
     "fileSize" := "file_size";
     "blobUrl" := "blob_url" ]}.

(** One turn of the loop that builds the [SET] list and its parameters. *)
Definition add_field (field : string) (value : value)
    (acc : list (string * string) * gmap string py.value)
  : list (string * string) * gmap string py.value :=
  let '(sql_updates, sql_params) := acc in
  match field_mapping !! field with
  | Some sql_field =>
      ((sql_updates ++ [(sql_field, sql_field)])%list,
       <[sql_field := value]> sql_params)
  | None =>
      if String.eqb field "status"
      then ((sql_updates ++ [("status", "status")])%list,
            <["status" := value]> sql_params)
      else (sql_updates, sql_params)
  end.

(** The loop over [fields_to_update.items()], started from no assignment
    and the [id] parameter.  The order in which a dictionary is walked only
    shows in the order of the [SET] list. *)
Definition build_update (asset_id : string) (fields_to_update : gmap string value)
  : list (string * string) * gmap string value :=
  map_fold add_field ([], {[ "id" := VStr asset_id ]}) fields_to_update.

(** [{'id': asset_id, **fields_to_update}] *)
Definition echo (asset_id : string) (fields_to_update : gmap string value)
  : gmap string value :=
  dict_update {[ "id" := VStr asset_id ]} fields_to_update.

Definition main (req : HttpRequest) : M HttpResponse :=
  (* Authenticate request *)
  let* authenticated := attempt (
    let api_key := headers req !! "x-api-key" in
    auth.require_api_key api_key) in
  match authenticated with
  | Raise (AuthenticationError _) =>
      let* _ := log WARNING "Unauthorized access attempt" in
      ret (mkResponse (Text "Unauthorized") 401 "text/plain")
  | Raise e => raise e
  | Ok _ =>
  (* Get asset ID from route *)
  let asset_id := route_params req !! "id" in
  if negb (str_truthy asset_id) then
    let* _ := log ERROR "Missing asset ID in route" in
    ret (mkResponse (Text "Asset ID is required") 400 "text/plain")
  else
  let asset_id := default "" asset_id in
  (* Parse request body *)
  let* parsed := attempt (
    let* data := get_json req in
    ret (if truthy data then data else VDict ∅)) in
  match parsed with
  | Raise (ValueError _) =>
      let* _ := log ERROR "Invalid JSON in request body" in
      ret (mkResponse (Text "Invalid JSON format") 400 "text/plain")
  | Raise e => raise e
  | Ok update_data =>
  (* Allowed fields for update *)
  let* update_items := method_items update_data in
  let fields_to_update : gmap string value :=
    filter (λ kv, kv.1 ∈ allowed_fields) update_items in
  if negb (dict_truthy fields_to_update) then
    let* _ := log WARNING ("No valid fields to update for asset " +:+ asset_id) in
    ret (mkResponse (Text "No valid fields provided for update") 400 "text/plain")
  else
  (* Update Cosmos DB *)
  let* mirrored := attempt (
    let* found := cosmos_client.get_asset_doc asset_id in
    let doc := dict_or found {[ "id" := VStr asset_id ]} in
    let doc := dict_update doc fields_to_update in
    cosmos_client.upsert_asset_doc doc) in
  let* _ := match mirrored with
            | Raise e => log WARNING ("Failed to update Cosmos DB: " +:+ exn_str e)
            | Ok _ => ret tt
            end in
  (* Update SQL Database *)
  let* updated := attempt (
    (* Build SQL update statement dynamically *)
    let '(sql_updates, sql_params) := build_update asset_id fields_to_update in
    match sql_updates with
    | _ :: _ =>
        sql_client.execute_update (sql.UPDATE_file_metadata sql_updates)
          (Some sql_params)
    | [] => log WARNING ("No SQL fields to update for asset " +:+ asset_id)
    end) in
  match updated with
  | Raise e =>
      let* _ := log ERROR ("Failed to update SQL Database: " +:+ exn_str e) in
      ret (mkResponse (Text "Failed to update asset") 500 "text/plain")
  | Ok _ =>
  (* Fetch updated record to return (merge Cosmos and SQL data) *)
  let* reread := attempt (
    (* Try to get from Cosmos DB first *)
    let* cosmos_doc := cosmos_client.get_asset_doc asset_id in
    (* Get from SQL Database *)
    let* sql_results :=
      sql_client.fetch_all_records sql.SELECT_by_id
        (Some {[ "id" := VStr asset_id ]}) in
    (* Merge Cosmos and SQL data (Cosmos takes precedence) *)
    let updated_doc := dict_or cosmos_doc ∅ in
    let updated_doc :=
      match sql_results with
      | row :: _ => dict_update updated_doc row
      | [] => updated_doc
      end in
    if negb (dict_truthy updated_doc)
    then ret (echo asset_id fields_to_update)
    else ret updated_doc) in
  let* updated_doc :=
    match reread with
    | Ok d => ret d
    | Raise e =>
        let* _ := log WARNING ("Failed to fetch updated record: " +:+ exn_str e) in
        ret (echo asset_id fields_to_update)
    end in
  let* _ := log INFO ("Updated asset " +:+ asset_id +:+ " with fields: "
                      +:+ py_str (VList (VStr <$> (map_to_list fields_to_update).*1))) in
  ret (mkResponse (Json (VDict updated_doc)) 200 "application/json")
  end end end.

End handler.
End assets_update.

(** ** Vocabulary of the statements *)

(** The request gate lets the request through. *)
Definition authenticated (req : HttpRequest) (w : World) : Prop :=
  auth.validate_api_key (headers req !! "x-api-key") w = (Ok true, w).

(** The gate as the specification words it: open when no expected value is
    configured, otherwise the supplied value must be the configured one. *)
Definition gate_allows (configured supplied : option string) : bool :=
  negb (str_truthy configured) || bool_decide (supplied = configured).

Definition unauthorized : HttpResponse :=
  mkResponse (Text "Unauthorized") 401 "text/plain".

(** The calls a run has added to the record of the world. *)
Definition new_calls (w w' : World) : list (Op * outcome) :=
  drop (List.length (calls w)) (calls w').

(** No service was called and no store has changed. *)
Definition untouched (w w' : World) : Prop :=
  calls w' = calls w ∧ file_metadata w' = file_metadata w
  ∧ items w' = items w ∧ blobs w' = blobs w.

(** ** Sample data for the examples *)

Definition sample_platform : Platform := {|
  py_str v := match v with VStr s => s | VInt z => pretty z | _ => "?" end;
  uuid4 n := "asset-" +:+ pretty n;
  isoformat t := "T" +:+ pretty t;
  generate_blob_sas account container blob key expiry := "sig=" +:+ pretty expiry;
  datetime_cell t := VInt t;
|}.

Definition sample_environ : gmap string string :=
  {[ "API_KEY" := "s3cret";
     "AZURE_STORAGE_ACCOUNT" := "acct";
     "AZURE_STORAGE_CONNECTION_STRING" := "AccountName=acct; AccountKey = k3y ;X=1";
     "COSMOS_ENDPOINT" := "https://cosmos";
     "COSMOS_KEY" := "ck";
     "SQL_SERVER" := "srv";
     "SQL_DATABASE" := "db";
     "SQL_USERNAME" := "u";
     "SQL_PASSWORD" := "p" ]}.

Definition never_fails : nat → Op → option string := λ _ _, None.

Definition sample_row (i : string) (status : string) (t : Z) : sql.Row :=
  sql.mkRow i VNone (VStr "a.jpg") (VStr "image/jpeg") (VInt 10)
    (VStr "https://acct/a.jpg") (VStr status) t.

Definition sample_world (fails : nat → Op → option string) : World :=
  mkWorld sample_environ fails [] [] false None
    [sample_row "a1" "pending" 5; sample_row "a2" "done" 9; sample_row "a3" "pending" 7]
    {[ "a1" := {[ "id" := VStr "a1"; "status" := VStr "mirror"; "note" := VStr "n" ]};
       "c9" := {[ "id" := VStr "c9"; "fileName" := VStr "only-here.png" ]} ]}
    [("assets", "a1/a.jpg"); ("assets", "a1/b.jpg"); ("assets", "a2/a.jpg")]
    1000 2000 0.

Definition sample_request (key : option string) (id : option string)
    (json : option value) : HttpRequest :=
  mkRequest (match key with Some k => {[ "x-api-key" := k ]} | None => ∅ end)
    (match id with Some i => {[ "id" := i ]} | None => ∅ end) json.

(** ** Footprints *)

Inductive service := Documents | Relational | Blobs.

#[export] Instance service_eq_dec : EqDecision service.
Proof. solve_decision. Defined.

Definition service_of (op : Op) : service :=
  match op with
  | CosmosOpen _ _ | CosmosUpsert _ | CosmosRead _ | CosmosDelete _ => Documents
  | SqlExecute _ _ | SqlFetch _ _ => Relational
  | BlobList _ _ | BlobDelete _ _ => Blobs
  end.

(** [within allowed w w']: from [w] to [w'] only services in [allowed]
    were called, and only their stores and clients may differ; the log has
    only grown. *)
Definition within (allowed : service → bool) (w w' : World) : Prop :=
  environ w' = environ w ∧ oracle w' = oracle w
  ∧ clock w' = clock w ∧ db_clock w' = db_clock w
  ∧ (∃ l, calls w' = (calls w ++ l)%list
          ∧ Forall (λ c, allowed (service_of c.1) = true) l)
  ∧ (∃ l, logs w' = (logs w ++ l)%list)
  ∧ (allowed Relational = false →
       file_metadata w' = file_metadata w ∧ _db_engine w' = _db_engine w)
  ∧ (allowed Documents = false →
       items w' = items w ∧ _CONTAINER w' = _CONTAINER w)
  ∧ (allowed Blobs = false → blobs w' = blobs w).

Definition only (s : service) : service → bool := λ s', bool_decide (s' = s).


(** A computation that stays inside a relation between worlds. *)
Definition keeps {A} (R : relation World) (m : M A) : Prop :=
  ∀ w, R w (m w).2.

(** Relations that computations can be chained through; logging and
    drawing identifiers never leave them. *)
Class Frame (R : relation World) := {
  frame_refl : ∀ w, R w w;
  frame_trans : ∀ a b c, R a b → R b c → R a c;
  frame_logs : ∀ w e, R w (with_logs (logs w ++ [e]) w);
  frame_draws : ∀ w n, R w (with_draws n w);
}.

(** The three stores hold what they held. *)
Definition same_stores (w w' : World) : Prop :=
  file_metadata w' = file_metadata w ∧ items w' = items w ∧ blobs w' = blobs w.

(** No call was made and nothing outside the process has changed. *)
Definition quiet (w w' : World) : Prop :=
  environ w' = environ w ∧ oracle w' = oracle w
  ∧ clock w' = clock w ∧ db_clock w' = db_clock w
  ∧ calls w' = calls w ∧ same_stores w w'.

(** ** Responses named in the statements *)

Definition missing_fields : HttpResponse :=
  mkResponse (Text "Missing required fields: fileName, fileType, fileSize")
    400 "text/plain".

Definition invalid_size : HttpResponse :=
  mkResponse (Text "fileSize must be a valid integer") 400 "text/plain".

Definition not_found : HttpResponse :=
  mkResponse (Text "Not Found") 404 "text/plain".

Definition ok_json (v : value) : HttpResponse :=
  mkResponse (Json v) 200 "application/json".

Definition by_id (i : string) : gmap string value := {[ "id" := VStr i ]}.

Definition deleted_response (i : string) : HttpResponse :=
  ok_json (VDict {[ "deleted" := VBool true; "id" := VStr i ]}).

Definition delete_failed : HttpResponse :=
  mkResponse (Text "Failed to delete asset from database") 500 "text/plain".


Definition no_valid_fields : HttpResponse :=
  mkResponse (Text "No valid fields provided for update") 400 "text/plain".

(** The services answer every call. *)
Definition healthy (w : World) : Prop := ∀ n op, oracle w n op = None.

(** The request with its JSON object replaced by another. *)
Definition with_json (d : gmap string value) (req : HttpRequest) : HttpRequest :=
  mkRequest (headers req) (route_params req) (Some (VDict d)).

(** The accepted part of an update body. *)
Definition accepted (d : gmap string value) : gmap string value :=
  filter (λ kv, kv.1 ∈ assets_update.allowed_fields) d.

(** A row after an update, as the specification words it: each column
    mapped from an accepted field takes the submitted value, every other
    column keeps its value. *)
Definition patch_row (fields : gmap string value) (r : sql.Row) : sql.Row :=
  sql.mkRow (sql.r_id r) (sql.r_user_id r)
    (default (sql.r_file_name r) (fields !! "fileName"))
    (default (sql.r_file_type r) (fields !! "fileType"))
    (default (sql.r_file_size r) (fields !! "fileSize"))
    (default (sql.r_blob_url r) (fields !! "blobUrl"))
    (default (sql.r_status r) (fields !! "status"))
    (sql.r_created_at r).

(** The table after an update of asset [i]. *)
Definition patch_table (i : string) (fields : gmap string value)
    (t : list sql.Row) : list sql.Row :=
  (λ r, if String.eqb (sql.r_id r) i then patch_row fields r else r) <$> t.

(** The value a column has after a [SET] list was applied. *)
Definition pick (sets : list (string * string)) (params : gmap string value)
    (col : string) (old : value) : value :=
  if decide ((col, col) ∈ sets) then default old (params !! col) else old.

(** The columns an update may set, and the fields they come from. *)
Definition settable : list string :=
  ["file_name"; "file_type"; "file_size"; "blob_url"; "status"].

Definition field_columns : list (string * string) :=
  [("fileName", "file_name"); ("fileType", "file_type");
   ("fileSize", "file_size"); ("blobUrl", "blob_url"); ("status", "status")].

(** What the loop over the accepted fields has built. *)
Definition built (i : string) (acc : list (string * string) * gmap string value)
    (m : gmap string value) : Prop :=
  acc.2 !! "id" = Some (VStr i)
  ∧ Forall (λ cp : string * string,
              cp.2 = cp.1 ∧ cp.1 ∈ settable ∧ is_Some (acc.2 !! cp.1)) acc.1
  ∧ Forall (λ kc : string * string,
              acc.2 !! kc.2 = m !! kc.1
              ∧ ((kc.2, kc.2) ∈ acc.1 ↔ is_Some (m !! kc.1))) field_columns.

(** ** Sample requests for the examples *)

Definition sample_key : option string := Some "s3cret".

Definition create_body (size : value) : gmap string value :=
  {[ "fileName" := VStr "a.jpg"; "fileType" := VStr "image/jpeg";
     "fileSize" := size ]}.

Definition sample_create (size : value) : HttpRequest :=
  sample_request sample_key None (Some (VDict (create_body size))).

Definition update_body : gmap string value :=
  {[ "status" := VStr "done"; "owner" := VStr "eve" ]}.

Definition unknown_body : gmap string value :=
  {[ "owner" := VStr "eve"; "id" := VStr "zz" ]}.

Definition sample_update (d : gmap string value) : HttpRequest :=
  sample_request sample_key (Some "a1") (Some (VDict d)).

Definition sample_by_id (i : string) : HttpRequest :=
  sample_request sample_key (Some i) None.

Definition sample_list : HttpRequest := sample_request sample_key None None.

Definition healthy_world : World := sample_world never_fails.

(** The response of a run, 401 standing in when the handler raised. *)
Definition response_of (x : result HttpResponse * World) : HttpResponse :=
  match x.1 with
  | Ok r => r
  | Raise _ => unauthorized
  end.

(** ** What a computation returns *)

(** [returns P m]: every value [m] returns satisfies [P]. *)
Definition returns {A} (P : A → Prop) (m : M A) : Prop :=
  ∀ w a w', m w = (Ok a, w') → P a.

(** A response by the kind of its body: JSON goes with the success codes
    [ok], text with the codes [err]. *)
Definition shaped (ok err : list Z) (r : HttpResponse) : Prop :=
  match body r with
  | Json _ => status_code r ∈ ok ∧ mimetype r = "application/json"
  | Text _ => status_code r ∈ err ∧ mimetype r = "text/plain"
  end.

(** Every service but the blob container. *)
Definition no_blobs : service → bool := λ s, bool_decide (s ≠ Blobs).

(** The calls that only read. *)
Definition is_read (op : Op) : bool :=
  match op with
  | CosmosOpen _ _ | CosmosRead _ | SqlFetch _ _ | BlobList _ _ => true
  | CosmosUpsert _ | CosmosDelete _ | SqlExecute _ _ | BlobDelete _ _ => false
  end.

(** From [w] to [w'] only reading calls were made and the stores hold what
    they held. *)
Definition reads_only (w w' : World) : Prop :=
  same_stores w w'
  ∧ ∃ l, calls w' = (calls w ++ l)%list ∧ Forall (λ c, is_read c.1 = true) l.

Definition id_required : HttpResponse :=
  mkResponse (Text "Asset ID is required") 400 "text/plain".

Definition invalid_json : HttpResponse :=
  mkResponse (Text "Invalid JSON format") 400 "text/plain".


(** The blob container the handlers work in. *)
Definition storage_container (w : World) : string :=
  default "assets" (environ w !! "AZURE_STORAGE_CONTAINER").


(** The settings of the document store and of the relational store are in
    the environment. *)
Definition cosmos_configured (w : World) : bool :=
  str_truthy (environ w !! "COSMOS_ENDPOINT") && str_truthy (environ w !! "COSMOS_KEY").

Definition sql_configured (w : World) : bool :=
  str_truthy (environ w !! "SQL_SERVER") && str_truthy (environ w !! "SQL_DATABASE")
  && str_truthy (environ w !! "SQL_USERNAME") && str_truthy (environ w !! "SQL_PASSWORD").

(** A store can be reached and answers every call: its settings are in the
    environment and no call to it fails. *)
Definition answers (s : service) (w : World) : Prop :=
  ∀ n op, service_of op = s → oracle w n op = None.

Definition documents_serving (w : World) : Prop :=
  cosmos_configured w = true ∧ answers Documents w.

Definition relational_serving (w : World) : Prop :=
  sql_configured w = true ∧ answers Relational w.

Definition serving (w : World) : Prop :=
  documents_serving w ∧ relational_serving w.

(** A store that fails every call. *)
Definition failing (s : service) (w : World) : Prop :=
  ∀ n op, service_of op = s → is_Some (oracle w n op).

Definition update_failed : HttpResponse :=
  mkResponse (Text "Failed to update asset") 500 "text/plain".

Definition internal_error : HttpResponse :=
  mkResponse (Text "Internal server error") 500 "text/plain".

(** ** What a create leaves behind *)

Section created.
Context `{Platform}.








(** The answer of a get for asset [i] when both reads are answered: the
    document overlaid with the first row of that id, 404 when that is
    empty. *)
Definition merged_record (i : string) (w : World) : gmap string value :=
  dict_update (default ∅ (items w !! i))
    (default ∅ (head (sql.row_dict <$> filter (λ r, sql.r_id r = i) (file_metadata w)))).

Definition get_response (i : string) (w : World) : HttpResponse :=
  if dict_truthy (merged_record i w) then ok_json (VDict (merged_record i w))
  else not_found.

End created.

(** The document an update of asset [i] writes: the stored document, or
    [{id: i}] when there is none, with the accepted fields laid over it. *)
Definition updated_document (i : string) (fields : gmap string value) (w : World)
  : gmap string value :=
  dict_update (dict_or (items w !! i) {[ "id" := VStr i ]}) fields.

(** ** The blobs of an asset *)

(** The blobs a delete of asset [i] goes after: those of the container
    whose name starts with [i/]. *)
Definition asset_blob (w : World) (i : string) (b : string * string) : Prop :=
  b.1 = storage_container w ∧ String.prefix (i +:+ "/") b.2 = true.

#[global] Instance asset_blob_dec w i b : Decision (asset_blob w i b).
Proof. unfold asset_blob. apply _. Defined.

(** The body of the loop of the delete handler over the listed blobs, and
    the [try] block around the listing and the loop. *)
Definition delete_one (container_name blob_name : string) : M unit :=
  let* removed := attempt (storage.delete_blob container_name blob_name) in
  match removed with
  | Ok _ => log INFO ("Deleted blob: " +:+ blob_name)
  | Raise e =>
      log WARNING ("Failed to delete blob " +:+ blob_name +:+ ": " +:+ exn_str e)
  end.

Definition sweep (asset_id : string) : M unit :=
  let* blob_client := storage.create_blob_client in
  let* container_name := storage.get_storage_container in
  let* blobs_to_delete := storage.list_blobs container_name (asset_id +:+ "/") in
  for_each blobs_to_delete (delete_one container_name).

(** From [w] to [w'] blobs were only removed, and only blobs of container
    [c] whose name starts with [p]. *)
Definition removes (c p : string) (w w' : World) : Prop :=
  (∀ b, b ∈ blobs w' → b ∈ blobs w)
  ∧ (∀ b, b ∈ blobs w → b ∉ blobs w' → b.1 = c ∧ String.prefix p b.2 = true).

(** ** The text of a connection string *)

(** A connection string is a sequence of segments joined with [;]: the
    settings [key=value] and whatever else stands between two [;]. *)
Inductive segment :=
| Setting (key value : list ascii)
| Other (text : list ascii).

Definition segment_text (s : segment) : list ascii :=
  match s with
  | Setting key value => (key ++ "="%char :: value)%list
  | Other text => text
  end.

(** [sep.join(l)] *)
Fixpoint join (sep : ascii) (l : list (list ascii)) : list ascii :=
  match l with
  | [] => []
  | [x] => x
  | x :: l' => (x ++ sep :: join sep l')%list
  end.

Definition connection_text (l : list segment) : string :=
  string_of_list_ascii (join ";" (segment_text <$> l)).

(** A key holds neither [;] nor [=], a value no [;], and another segment
    neither. *)
Definition plain_segment (s : segment) : Prop :=
  match s with
  | Setting key value =>
      (";"%char ∉ key) ∧ ("="%char ∉ key) ∧ (";"%char ∉ value)
  | Other text => (";"%char ∉ text) ∧ ("="%char ∉ text)
  end.

(** The settings of a sequence of segments, a later one replacing an
    earlier one of the same key. *)
Definition settings_of (l : list segment) : gmap string string :=
  foldl (λ parts s,
           match s with
           | Setting key value =>
               <[string_of_list_ascii (strip key) :=
                   string_of_list_ascii (strip value)]> parts
           | Other _ => parts
           end) ∅ l.

(** ** More sample data *)

(** The relational store fails every call, the other services answer. *)
Definition relational_down : nat → Op → option string :=
  λ _ op, match op with
          | SqlExecute _ _ | SqlFetch _ _ => Some "down"
          | _ => None
          end.

(** The document store fails every call, the other services answer. *)
Definition documents_down : nat → Op → option string :=
  λ _ op, match op with
          | CosmosOpen _ _ | CosmosUpsert _ | CosmosRead _ | CosmosDelete _ =>
              Some "down"
          | _ => None
          end.

Definition sample_segments : list segment :=
  [ Setting (list_ascii_of_string "AccountName") (list_ascii_of_string "acct");
    Other (list_ascii_of_string " ");
    Setting (list_ascii_of_string " AccountKey ") (list_ascii_of_string " k3y== ");
    Setting (list_ascii_of_string "AccountName") (list_ascii_of_string "other");
    Other [] ].

(** A request without the route parameter. *)
Definition sample_no_id (json : option value) : HttpRequest :=
  sample_request sample_key None json.


Definition sample_array : HttpRequest :=
  sample_request sample_key (Some "a1") (Some (VList [VInt 1])).

Definition sample_null : HttpRequest :=
  sample_request sample_key (Some "a1") (Some VNone).

Definition sample_unknown : HttpRequest :=
  sample_request sample_key (Some "zz") (Some (VDict update_body)).

(** * Properties *)

#[local] Set Warnings "-clear-no-such-hyp".

(** ** Python's [int] on sample values *)

Example int_abc :
  int (VStr "abc") = Raise (ValueError "invalid literal for int() with base 10").
Proof. reflexivity. Qed.

Example int_padded : int (VStr " -1_000 ") = Ok (-1000).
Proof. reflexivity. Qed.

Example int_double_underscore : int_of_text "1__0" = None.
Proof. reflexivity. Qed.

Example int_half : int (VFloat (FFinite (-7) (-1))) = Ok (-3).
Proof. reflexivity. Qed.

Example int_infinity : int (VFloat (FInf false)) = Raise OverflowError.
Proof. reflexivity. Qed.

Example parse_connection_string :
  storage._parse_connection_string "AccountName=acct; AccountKey = k3y ;X=1"
  !! "AccountKey" = Some "k3y".
Proof. vm_compute. reflexivity. Qed.


(** ** Chaining computations inside a frame *)

Section frames.
Context (R : relation World) `{!Frame R}.

Lemma keeps_ret {A} (a : A) : keeps R (ret a).
Proof. intros w. apply frame_refl. Qed.

Lemma keeps_raise {A} (e : exn) : keeps R (raise (A:=A) e).
Proof. intros w. apply frame_refl. Qed.

Lemma keeps_of_result {A} (r : result A) : keeps R (of_result r).
Proof. intros w. apply frame_refl. Qed.

Lemma keeps_getenv k : keeps R (getenv k).
Proof. intros w. apply frame_refl. Qed.

Lemma keeps_getenv_default k d : keeps R (getenv_default k d).
Proof. intros w. apply frame_refl. Qed.

Lemma keeps_utcnow : keeps R utcnow.
Proof. intros w. apply frame_refl. Qed.

Lemma keeps_log l msg : keeps R (log l msg).
Proof. intros w. apply frame_logs. Qed.

Lemma keeps_draw `{Platform} : keeps R draw_uuid4.
Proof. intros w. apply frame_draws. Qed.

Lemma keeps_bind {A B} (m : M A) (f : A → M B) :
  keeps R m → (∀ a, keeps R (f a)) → keeps R (bind m f).
Proof.
  intros Hm Hf w. unfold bind. specialize (Hm w).
  destruct (m w) as [[a|e] w1]; simpl in *; [|done].
  eapply frame_trans; [done|]. apply Hf.
Qed.

Lemma keeps_attempt {A} (m : M A) : keeps R m → keeps R (attempt m).
Proof.
  intros Hm w. unfold attempt. specialize (Hm w). by destruct (m w).
Qed.

Lemma keeps_for_each {A} (l : list A) (body : A → M unit) :
  (∀ a, keeps R (body a)) → keeps R (for_each l body).
Proof.
  intros Hb. induction l as [|a l IH]; simpl.
  - apply keeps_ret.
  - apply keeps_bind; [apply Hb|]. intros _. apply IH.
Qed.

End frames.

Lemma within_calls allowed w w' c :
  allowed (service_of c.1) = true →
  within allowed w w' → within allowed w (with_calls (calls w' ++ [c]) w').
Proof.
  intros Hc (He&Ho&Hk&Hd&(l&Hl&Hall)&Hg&Hs&Hi&Hb).
  split_and!; simpl; try done.
  exists (l ++ [c])%list. rewrite Hl, (assoc_L (++)). split; [done|].
  apply Forall_app. split; [done|]. by apply Forall_singleton.
Qed.

#[export] Instance within_frame allowed : Frame (within allowed).
Proof.
  split.
  - intros w. split_and!; try done; exists []; by rewrite app_nil_r.
  - intros a b c (He1&Ho1&Hk1&Hd1&(l1&Hl1&H1)&(g1&Hg1)&Hs1&Hi1&Hb1)
                 (He2&Ho2&Hk2&Hd2&(l2&Hl2&H2)&(g2&Hg2)&Hs2&Hi2&Hb2).
    split_and!; try congruence.
    + exists (l1 ++ l2)%list. rewrite Hl2, Hl1, (assoc_L (++)). split; [done|].
      by apply Forall_app.
    + exists (g1 ++ g2)%list. by rewrite Hg2, Hg1, (assoc_L (++)).
    + intros E. destruct (Hs1 E), (Hs2 E). split; congruence.
    + intros E. destruct (Hi1 E), (Hi2 E). split; congruence.
    + intros E. rewrite (Hb2 E). by apply Hb1.
  - intros w e. split_and!; try done; [exists []; by rewrite app_nil_r|by eexists].
  - intros w n. split_and!; try done; exists []; by rewrite app_nil_r.
Qed.

Lemma keeps_remote {A} allowed op (run : World → result A * World) :
  allowed (service_of op) = true →
  (∀ w, within allowed w (run w).2) →
  keeps (within allowed) (remote op run).
Proof.
  intros Hop Hrun w. unfold remote.
  destruct (oracle w _ op) as [msg|].
  - apply (within_calls allowed w w (op, _)); [done|]. apply frame_refl.
  - specialize (Hrun w). destruct (run w) as [r w1]. simpl in *.
    by apply (within_calls allowed w w1 (op, _)).
Qed.

Lemma keeps_read (R : relation World) `{!Frame R} {A} (f : World → A) :
  keeps R (λ w, (Ok (f w), w)).
Proof. intros w. apply frame_refl. Qed.

Ltac frame_apply lem := apply lem; try (solve [typeclasses eauto]).

Ltac keeps_step :=
  first
    [ frame_apply keeps_ret | frame_apply keeps_raise | frame_apply keeps_of_result
    | frame_apply keeps_getenv | frame_apply keeps_getenv_default
    | frame_apply keeps_utcnow | frame_apply keeps_log | frame_apply keeps_draw
    | frame_apply keeps_read
    | frame_apply keeps_attempt
    | frame_apply keeps_for_each; intros ?
    | frame_apply keeps_bind; [| intros ?]
    | match goal with
      | |- keeps _ (match ?x with _ => _ end) => destruct x
      end ].

Ltac solve_keeps := repeat keeps_step; try done.

(** A step that makes no call and changes only what the frame lets go. *)
Ltac within_local :=
  unfold within; simpl; split_and!; try done;
  [ by (exists []; rewrite app_nil_r) | by (exists []; rewrite app_nil_r)
  | try (intros ?; congruence) .. ].

(** ** The gate *)

Lemma validate_api_key_run supplied w :
  auth.validate_api_key supplied w
  = (Ok (gate_allows (environ w !! "API_KEY") supplied), w).
Proof.
  unfold auth.validate_api_key, bind, getenv, ret, gate_allows.
  destruct (str_truthy (environ w !! "API_KEY")) eqn:Hc; [|done].
  cbn [negb orb].
  destruct (str_truthy supplied) eqn:Hs; cbn [negb].
  - done.
  - case_bool_decide as E; [|done]. congruence.
Qed.

Lemma require_api_key_run supplied w :
  auth.require_api_key supplied w
  = (if gate_allows (environ w !! "API_KEY") supplied
     then Ok tt else Raise (AuthenticationError "Invalid or missing API key"), w).
Proof.
  unfold auth.require_api_key, bind. rewrite validate_api_key_run.
  by destruct (gate_allows _ _).
Qed.

Lemma authenticated_allows req w :
  authenticated req w ↔
  gate_allows (environ w !! "API_KEY") (headers req !! "x-api-key") = true.
Proof.
  unfold authenticated. rewrite validate_api_key_run. split; [congruence|].
  by intros ->.
Qed.

Lemma require_authenticated req w :
  authenticated req w →
  auth.require_api_key (headers req !! "x-api-key") w = (Ok tt, w).
Proof.
  intros Ha%authenticated_allows. by rewrite require_api_key_run, Ha.
Qed.

(** ** Footprints of the adapters *)

Section adapters.
Context `{Platform}.
Context (allowed : service → bool).

Lemma keeps_get_database_engine :
  allowed Relational = true →
  keeps (within allowed) sql_client.get_database_engine.
Proof.
  intros Ha. unfold sql_client.get_database_engine, sql_client._construct_connection_string.
  solve_keeps.
  intros w. within_local.
Qed.

Lemma keeps_fetch_all_records q p :
  allowed Relational = true →
  keeps (within allowed) (sql_client.fetch_all_records q p).
Proof.
  intros Ha. unfold sql_client.fetch_all_records.
  frame_apply keeps_bind; [by apply keeps_get_database_engine|]. intros _.
  apply keeps_remote; [done|]. intros w.
  destruct (sql.query _ _ _); apply frame_refl.
Qed.

Lemma keeps_execute_update q p :
  allowed Relational = true →
  keeps (within allowed) (sql_client.execute_update q p).
Proof.
  intros Ha. unfold sql_client.execute_update.
  frame_apply keeps_bind; [by apply keeps_get_database_engine|]. intros _.
  apply keeps_remote; [done|]. intros w.
  destruct (sql.exec _ _ _ _); [|apply frame_refl].
  within_local.
Qed.

Lemma keeps_get_container :
  allowed Documents = true →
  keeps (within allowed) cosmos_client.get_container.
Proof.
  intros Ha. unfold cosmos_client.get_container.
  solve_keeps.
  - apply keeps_remote; [done|]. intros w. apply frame_refl.
  - intros w. within_local.
Qed.

Lemma keeps_upsert_asset_doc doc :
  allowed Documents = true →
  keeps (within allowed) (cosmos_client.upsert_asset_doc doc).
Proof.
  intros Ha. unfold cosmos_client.upsert_asset_doc.
  frame_apply keeps_bind; [by apply keeps_get_container|]. intros _.
  apply keeps_remote; [done|]. intros w.
  destruct (doc !! "id") as [[]|]; try apply frame_refl.
  within_local.
Qed.

Lemma keeps_get_asset_doc i :
  allowed Documents = true →
  keeps (within allowed) (cosmos_client.get_asset_doc i).
Proof.
  intros Ha. unfold cosmos_client.get_asset_doc.
  frame_apply keeps_bind; [by apply keeps_get_container|]. intros _.
  frame_apply keeps_bind.
  - frame_apply keeps_attempt. apply keeps_remote; [done|]. intros w.
    destruct (items w !! i); apply frame_refl.
  - intros r. solve_keeps.
Qed.

Lemma keeps_delete_asset_doc i :
  allowed Documents = true →
  keeps (within allowed) (cosmos_client.delete_asset_doc i).
Proof.
  intros Ha. unfold cosmos_client.delete_asset_doc.
  frame_apply keeps_bind; [by apply keeps_get_container|]. intros _.
  frame_apply keeps_bind.
  - frame_apply keeps_attempt. apply keeps_remote; [done|]. intros w.
    destruct (items w !! i); [|apply frame_refl].
    within_local.
  - intros r. solve_keeps.
Qed.

Lemma keeps_list_blobs c p :
  allowed Blobs = true → keeps (within allowed) (storage.list_blobs c p).
Proof.
  intros Ha. apply keeps_remote; [done|]. intros w. apply frame_refl.
Qed.

Lemma keeps_delete_blob c n :
  allowed Blobs = true → keeps (within allowed) (storage.delete_blob c n).
Proof.
  intros Ha. apply keeps_remote; [done|]. intros w.
  case_bool_decide; [|apply frame_refl].
  within_local.
Qed.

Lemma keeps_create_blob_client : keeps (within allowed) storage.create_blob_client.
Proof. unfold storage.create_blob_client. solve_keeps. Qed.

Lemma keeps_get_storage_container :
  keeps (within allowed) storage.get_storage_container.
Proof. unfold storage.get_storage_container. solve_keeps. Qed.

Lemma keeps_create_sas_token c b h :
  keeps (within allowed) (storage.create_sas_token c b h).
Proof. unfold storage.create_sas_token. solve_keeps. Qed.

Lemma keeps_build_blob_url c b :
  keeps (within allowed) (storage.build_blob_url c b).
Proof. unfold storage.build_blob_url. solve_keeps. Qed.

End adapters.

#[export] Instance same_stores_frame : Frame same_stores.
Proof.
  split; unfold same_stores.
  - done.
  - intros a b c (F1&I1&B1) (F2&I2&B2). split_and!; congruence.
  - done.
  - done.
Qed.

#[export] Instance quiet_frame : Frame quiet.
Proof.
  split; unfold quiet, same_stores.
  - done.
  - intros a b c (E1&O1&K1&D1&C1&F1&I1&B1) (E2&O2&K2&D2&C2&F2&I2&B2).
    split_and!; congruence.
  - done.
  - done.
Qed.

Lemma same_stores_remote {A} op (run : World → result A * World) :
  (∀ w, same_stores w (run w).2) → keeps same_stores (remote op run).
Proof.
  intros Hrun w. unfold remote. destruct (oracle w _ op); [done|].
  specialize (Hrun w). by destruct (run w).
Qed.

Lemma quiet_untouched w w' : quiet w w' → untouched w w'.
Proof. unfold quiet, same_stores, untouched. naive_solver. Qed.

Lemma new_calls_app w w' l : calls w' = (calls w ++ l)%list → new_calls w w' = l.
Proof. intros E. unfold new_calls. rewrite E. apply drop_app_length. Qed.


(** ** What the relational adapter does *)

Section relational.
Context `{Platform}.

Lemma get_database_engine_quiet : keeps quiet sql_client.get_database_engine.
Proof.
  unfold sql_client.get_database_engine, sql_client._construct_connection_string.
  solve_keeps.
Qed.

Lemma get_database_engine_cached w e :
  _db_engine w = Some e → sql_client.get_database_engine w = (Ok e, w).
Proof.
  intros E. unfold sql_client.get_database_engine, bind. by rewrite E.
Qed.

Lemma execute_update_outcome q p w r w' :
  sql_client.execute_update q p w = (r, w') →
  within (only Relational) w w'
  ∧ items w' = items w ∧ blobs w' = blobs w
  ∧ ((r = Ok tt
      ∧ calls w' = (calls w ++ [(SqlExecute q (dict_or p ∅), Succeeded)])%list
      ∧ sql.exec q (dict_or p ∅) (db_clock w) (file_metadata w)
        = Some (file_metadata w'))
     ∨ (∃ e, r = Raise e ∧ file_metadata w' = file_metadata w
        ∧ (calls w' = calls w
           ∨ calls w' = (calls w ++ [(SqlExecute q (dict_or p ∅), Failed e)])%list))).
Proof.
  intros E.
  assert (within (only Relational) w w') as Hw.
  { pose proof (keeps_execute_update (only Relational) q p eq_refl w) as K.
    by rewrite E in K. }
  split; [done|]. destruct Hw as (_&_&_&_&_&_&_&Hi&Hb).
  split; [apply Hi; done|]. split; [apply Hb; done|].
  revert E. unfold sql_client.execute_update, bind.
  pose proof (get_database_engine_quiet w) as Q.
  destruct (sql_client.get_database_engine w) as [[e|e] w0]; simpl in Q;
    destruct Q as (_&Ho&_&Hd&Hc&Hf&_&_).
  - unfold remote. rewrite Ho, Hc.
    destruct (oracle w _ _) as [msg|].
    + intros [= <- <-]. right. eexists. split; [done|]. simpl.
      rewrite ?Hc, ?Hf. split; [done|]. by right.
    + rewrite Hd, Hf.
      destruct (sql.exec _ _ _ _) as [t|]; intros [= <- <-]; simpl;
        rewrite ?Hc, ?Hf.
      * left. done.
      * right. eexists. split; [done|]. split; [done|]. by right.
  - intros [= <- <-]. right. exists e. split; [done|]. split; [done|]. by left.
Qed.

Lemma execute_update_healthy q p w e t :
  _db_engine w = Some e →
  oracle w (List.length (calls w)) (SqlExecute q (dict_or p ∅)) = None →
  sql.exec q (dict_or p ∅) (db_clock w) (file_metadata w) = Some t →
  ∃ w', sql_client.execute_update q p w = (Ok tt, w')
        ∧ file_metadata w' = t.
Proof.
  intros He Ho Hx. unfold sql_client.execute_update, bind.
  rewrite (get_database_engine_cached w e He). unfold remote.
  rewrite Ho, Hx. by eexists.
Qed.

Lemma fetch_all_records_outcome q p w rows w' :
  sql_client.fetch_all_records q p w = (Ok rows, w') →
  within (only Relational) w w' ∧ same_stores w w'
  ∧ calls w' = (calls w ++ [(SqlFetch q (dict_or p ∅), Succeeded)])%list
  ∧ ∃ rs, sql.query q (dict_or p ∅) (file_metadata w) = Some rs
          ∧ rows = sql.row_dict <$> rs.
Proof.
  intros E.
  assert (within (only Relational) w w') as Hw.
  { pose proof (keeps_fetch_all_records (only Relational) q p eq_refl w) as K.
    by rewrite E in K. }
  split; [done|].
  revert E. unfold sql_client.fetch_all_records, bind.
  pose proof (get_database_engine_quiet w) as Q.
  destruct (sql_client.get_database_engine w) as [[e|e] w0]; simpl in Q;
    destruct Q as (_&Ho&_&Hd&Hc&Hf&Hi&Hb); [|done].
  unfold remote. rewrite Ho, Hc.
  destruct (oracle w _ _) as [msg|]; [done|]. rewrite Hf.
  destruct (sql.query _ _ _) as [rs|]; [|done].
  intros [= <- <-]. simpl. unfold same_stores. simpl. rewrite ?Hc, ?Hf.
  split_and!; try done. by exists rs.
Qed.

End relational.

(** ** What the document adapter does *)

Lemma get_container_same_stores : keeps same_stores cosmos_client.get_container.
Proof.
  unfold cosmos_client.get_container. solve_keeps.
  by apply same_stores_remote.
Qed.

Lemma get_asset_doc_outcome i w doc w' :
  cosmos_client.get_asset_doc i w = (Ok doc, w') →
  within (only Documents) w w' ∧ same_stores w w' ∧ doc = items w !! i.
Proof.
  intros E.
  assert (within (only Documents) w w') as Hw.
  { pose proof (keeps_get_asset_doc (only Documents) i eq_refl w) as K.
    by rewrite E in K. }
  split; [done|].
  revert E. unfold cosmos_client.get_asset_doc. unfold bind at 1.
  pose proof (get_container_same_stores w) as Q.
  destruct (cosmos_client.get_container w) as [[[]|e] w0]; simpl in Q; [|done].
  destruct Q as (Hf&Hi&Hb).
  unfold bind, attempt, remote.
  destruct (oracle w0 _ _) as [msg|]; [done|]. rewrite Hi.
  destruct (items w !! i) as [d|]; intros [= <- <-]; by unfold same_stores.
Qed.

(** ** The request gate (4.1) *)

Section gate.
Context `{Platform}.

Lemma create_denied req w :
  gate_allows (environ w !! "API_KEY") (headers req !! "x-api-key") = false →
  assets_create.main req w
  = (Ok unauthorized,
     with_logs (logs w ++ [(WARNING, "Unauthorized access attempt")]) w).
Proof.
  intros Hg. unfold assets_create.main. unfold bind at 1. unfold attempt at 1.
  by rewrite require_api_key_run, Hg.
Qed.

Lemma get_denied req w :
  gate_allows (environ w !! "API_KEY") (headers req !! "x-api-key") = false →
  assets_get.main req w
  = (Ok unauthorized,
     with_logs (logs w ++ [(WARNING, "Unauthorized access attempt")]) w).
Proof.
  intros Hg. unfold assets_get.main. unfold bind at 1. unfold attempt at 1.
  by rewrite require_api_key_run, Hg.
Qed.

Lemma list_denied req w :
  gate_allows (environ w !! "API_KEY") (headers req !! "x-api-key") = false →
  assets_list.main req w
  = (Ok unauthorized,
     with_logs (logs w ++ [(WARNING, "Unauthorized access attempt to list assets")]) w).
Proof.
  intros Hg. unfold assets_list.main. unfold bind at 1. unfold attempt at 1.
  by rewrite require_api_key_run, Hg.
Qed.

Lemma update_denied req w :
  gate_allows (environ w !! "API_KEY") (headers req !! "x-api-key") = false →
  assets_update.main req w
  = (Ok unauthorized,
     with_logs (logs w ++ [(WARNING, "Unauthorized access attempt")]) w).
Proof.
  intros Hg. unfold assets_update.main. unfold bind at 1. unfold attempt at 1.
  by rewrite require_api_key_run, Hg.
Qed.

Lemma delete_denied req w :
  gate_allows (environ w !! "API_KEY") (headers req !! "x-api-key") = false →
  assets_delete.main req w
  = (Ok unauthorized,
     with_logs (logs w ++ [(WARNING, "Unauthorized access attempt")]) w).
Proof.
  intros Hg. unfold assets_delete.main. unfold bind at 1. unfold attempt at 1.
  by rewrite require_api_key_run, Hg.
Qed.

(** C8.  The gate lets a request through exactly when no expected key is
    configured or the supplied [x-api-key] is the configured value; in
    every other case each of the five handlers answers 401 and calls no
    service and changes no store. *)
Theorem request_gate (req : HttpRequest) (w : World) :
  let configured := environ w !! "API_KEY" in
  let supplied := headers req !! "x-api-key" in
  auth.validate_api_key supplied w = (Ok (gate_allows configured supplied), w)
  ∧ (gate_allows configured supplied = false →
     ∀ handler,
       handler ∈ [assets_create.main; assets_get.main; assets_list.main;
                  assets_update.main; assets_delete.main] →
       ∃ w', handler req w = (Ok unauthorized, w')
             ∧ status_code unauthorized = 401 ∧ untouched w w').
Proof.
  intros configured supplied. split; [apply validate_api_key_run|].
  intros Hg handler Hin.
  repeat (apply elem_of_cons in Hin as [->|Hin]);
    [ rewrite create_denied | rewrite get_denied | rewrite list_denied
    | rewrite update_denied | rewrite delete_denied | by apply elem_of_nil in Hin ];
    try done; by eexists.
Qed.

End gate.

(** ** Create: validation (4.2) *)

Section create_validation.
Context `{Platform}.

Lemma all_falsy (d : gmap string value) k v :
  k ∈ ["fileName"; "fileType"; "fileSize"] →
  d !! k = Some v → truthy v = false →
  all [dict_get d "fileName"; dict_get d "fileType"; dict_get d "fileSize"] = false.
Proof.
  intros Hk Hd Hv. unfold all, dict_get. simpl.
  repeat (apply elem_of_cons in Hk as [->|Hk]); try (by apply elem_of_nil in Hk);
    rewrite Hd; simpl; rewrite Hv; simpl; rewrite ?andb_false_r; done.
Qed.

(** C10.  When the gate lets the request through and its body is a JSON
    object in which one of fileName, fileType, fileSize is present with a
    falsy value (0, the empty string, ...), the create handler answers 400
    as for a missing field, and no service is called. *)
Theorem create_rejects_falsy_field req w d k v :
  authenticated req w →
  json_body req = Some (VDict d) →
  k ∈ ["fileName"; "fileType"; "fileSize"] →
  d !! k = Some v → truthy v = false →
  ∃ w', assets_create.main req w = (Ok missing_fields, w')
        ∧ status_code missing_fields = 400 ∧ untouched w w'.
Proof.
  intros Ha Hb Hk Hd Hv. unfold assets_create.main.
  unfold bind at 1. unfold attempt at 1. rewrite (require_authenticated _ _ Ha).
  unfold bind at 1. unfold attempt at 1. unfold get_json. rewrite Hb.
  unfold ret at 1. unfold method_get.
  unfold bind at 1. unfold ret at 1.
  unfold bind at 1. unfold ret at 1.
  unfold bind at 1. unfold ret at 1.
  rewrite (all_falsy d k v Hk Hd Hv). cbn [negb].
  eexists. split; [reflexivity|]. done.
Qed.

(** Whatever makes [int] raise a ValueError or a TypeError is answered
    with 400 before any service is called. *)
Lemma create_rejects_unparsable_size req w d e :
  authenticated req w →
  json_body req = Some (VDict d) →
  int (dict_get d "fileSize") = Raise e →
  (e = TypeError ∨ ∃ msg, e = ValueError msg) →
  ∃ resp w', assets_create.main req w = (Ok resp, w')
             ∧ status_code resp = 400 ∧ untouched w w'.
Proof.
  intros Ha Hb Hi He. unfold assets_create.main.
  unfold bind at 1. unfold attempt at 1. rewrite (require_authenticated _ _ Ha).
  unfold bind at 1. unfold attempt at 1. unfold get_json. rewrite Hb.
  unfold ret at 1. unfold method_get.
  unfold bind at 1. unfold ret at 1.
  unfold bind at 1. unfold ret at 1.
  unfold bind at 1. unfold ret at 1.
  destruct (negb (all _)).
  - by eexists _, _.
  - unfold bind at 1. unfold attempt at 1. unfold of_result. rewrite Hi.
    destruct He as [->|[msg ->]]; by eexists _, _.
Qed.

(** C7 (where the code departs from it).  A fileSize that is an infinite
    float passes the required-field check, [int] raises OverflowError, and
    the handler has no clause for it: the exception leaves [main], no 400
    is produced.  Nothing has been called by then. *)
Theorem create_infinite_size_escapes req w d negative :
  authenticated req w →
  json_body req = Some (VDict d) →
  truthy (dict_get d "fileName") = true →
  truthy (dict_get d "fileType") = true →
  d !! "fileSize" = Some (VFloat (FInf negative)) →
  int (dict_get d "fileSize") = Raise OverflowError
  ∧ assets_create.main req w = (Raise OverflowError, w).
Proof.
  intros Ha Hb Hn Ht Hs.
  assert (dict_get d "fileSize" = VFloat (FInf negative)) as Hsz
    by (unfold dict_get; by rewrite Hs).
  split; [by rewrite Hsz|].
  unfold assets_create.main.
  unfold bind at 1. unfold attempt at 1. rewrite (require_authenticated _ _ Ha).
  unfold bind at 1. unfold attempt at 1. unfold get_json. rewrite Hb.
  unfold ret at 1. unfold method_get.
  unfold bind at 1. unfold ret at 1.
  unfold bind at 1. unfold ret at 1.
  unfold bind at 1. unfold ret at 1.
  unfold all. cbn [forallb]. rewrite Hn, Ht, Hsz. cbn [truthy andb negb].
  reflexivity.
Qed.

End create_validation.

(** ** Dictionaries *)

Lemma dict_truthy_empty (d : gmap string value) :
  dict_truthy d = false ↔ d = ∅.
Proof.
  unfold dict_truthy. rewrite negb_false_iff, bool_decide_eq_true.
  apply map_size_empty_iff.
Qed.

Lemma dict_or_empty (o : option (gmap string value)) :
  dict_or o ∅ = default ∅ o.
Proof.
  destruct o as [x|]; simpl; [|done].
  destruct (dict_truthy x) eqn:E; [done|]. by apply dict_truthy_empty in E.
Qed.

Lemma dict_update_empty (d e : gmap string value) :
  dict_update d e = ∅ → d = ∅ ∧ e = ∅.
Proof.
  unfold dict_update. intros E. split; [|by apply map_positive_l in E].
  apply map_eq. intros k. rewrite lookup_empty.
  assert ((e ∪ d) !! k = None) as Hk by (by rewrite E, lookup_empty).
  by apply lookup_union_None in Hk as [_ ?].
Qed.

Lemma dict_truthy_by_id i : dict_truthy (by_id i) = true.
Proof.
  unfold dict_truthy, by_id. rewrite map_size_singleton. done.
Qed.

Lemma dict_or_by_id i d : dict_or (Some (by_id i)) d = by_id i.
Proof. unfold dict_or. by rewrite dict_truthy_by_id. Qed.


Lemma dict_update_keeps (d e : gmap string value) k :
  e !! k = None → dict_update d e !! k = d !! k.
Proof. intros E. unfold dict_update. by apply lookup_union_r. Qed.


(** ** Get (4.3) *)

Section get.
Context `{Platform}.


End get.

(** ** List (4.4) *)

#[export] Instance newest_first_trans : Transitive sql.newest_first.
Proof. unfold sql.newest_first. intros a b c. lia. Qed.

#[export] Instance newest_first_total : Total sql.newest_first.
Proof. unfold sql.newest_first. intros a b. lia. Qed.

Section list.
Context `{Platform}.


End list.

(** ** Get on overlapping fields *)

(** C3 (where the code departs from it).  The sample asset "a1" has
    status "mirror" in the document store and "pending" in the table; the
    get handler answers with the relational value. *)
Theorem get_overlap_returns_relational_value :
  ∃ result w',
    assets_get.main (H:=sample_platform)
      (sample_request (Some "s3cret") (Some "a1") None) (sample_world never_fails)
    = (Ok (ok_json (VDict result)), w')
    ∧ (items (sample_world never_fails) !! "a1" ≫= (.!! "status"))
      = Some (VStr "mirror")
    ∧ (sql.r_status <$> head (filter (λ r, sql.r_id r = "a1")
                              (file_metadata (sample_world never_fails))))
      = Some (VStr "pending")
    ∧ result !! "status" = Some (VStr "pending")
    ∧ result !! "status" ≠ Some (VStr "mirror").
Proof.
  eexists _, _. split; [vm_compute; reflexivity|].
  split; [by vm_compute|]. split; [by vm_compute|].
  split; [by vm_compute|]. by vm_compute.
Qed.

(** ** Delete (4.6) *)

Ltac keeps_adapter :=
  first
    [ apply keeps_list_blobs; done | apply keeps_delete_blob; done
    | apply keeps_create_blob_client | apply keeps_get_storage_container
    | apply keeps_create_sas_token | apply keeps_build_blob_url
    | apply keeps_upsert_asset_doc; done | apply keeps_get_asset_doc; done
    | apply keeps_delete_asset_doc; done
    | apply keeps_fetch_all_records; done | apply keeps_execute_update; done ].

Ltac solve_footprint := repeat first [ keeps_adapter | keeps_step ]; try done.

(** Name the next phase of a handler and its footprint. *)
Ltac phase R r w' E K :=
  unfold bind at 1;
  match goal with
  | |- context [attempt ?m ?w] =>
      assert (keeps R (attempt m)) as K by solve_footprint;
      specialize (K w);
      destruct (attempt m w) as [r w'] eqn:E; simpl in K
  end.

Lemma attempt_is_ok {A} (m : M A) w r w' : attempt m w = (r, w') → ∃ a, r = Ok a.
Proof. unfold attempt. destruct (m w). intros [= <- <-]. by eexists. Qed.

(** Projections of an updated world *)
Ltac wsimpl :=
  cbn [environ oracle calls logs _CONTAINER _db_engine file_metadata items
       blobs clock db_clock draws with_calls with_logs with_CONTAINER
       with_db_engine with_file_metadata with_items with_blobs with_draws
       fst snd] in *.

Lemma note_run {A} (r : result A) lvl (f : exn → string) w :
  ∃ l, (match r with Ok _ => ret tt | Raise e => log lvl (f e) end) w
       = (Ok tt, with_logs l w).
Proof.
  destruct r; [exists (logs w); by destruct w | by eexists].
Qed.

Lemma filter_all {A} (P : A → Prop) `{!∀ x, Decision (P x)} (l : list A) :
  Forall P l → filter P l = l.
Proof.
  induction 1 as [|x l Hx _ IH]; [done|].
  rewrite filter_cons_True by done. by rewrite IH.
Qed.

Lemma exec_delete i now t :
  sql.exec sql.DELETE_file_metadata (dict_or (Some (by_id i)) ∅) now t
  = Some (filter (λ r, sql.r_id r ≠ i) t).
Proof.
  rewrite dict_or_by_id. unfold sql.exec, sql.param_str, by_id.
  by rewrite lookup_singleton_eq.
Qed.

Lemma not_in_foreign (allowed : service → bool) l op o :
  Forall (λ c : Op * outcome, allowed (service_of c.1) = true) l →
  allowed (service_of op) = false → (op, o) ∉ l.
Proof.
  intros Hall Hop Hin. rewrite Forall_forall in Hall.
  specialize (Hall _ Hin). simpl in Hall. congruence.
Qed.

Section delete.
Context `{Platform}.

(** C4.  For a request that passes the gate and carries an id, the delete
    handler always answers: 200 with [{deleted: true, id}] exactly when the
    relational DELETE succeeded, whatever happened to the blobs and to the
    document; otherwise 500, and then the document store was neither called
    nor changed.  With services that answer, the answer is 200 whether or
    not any record of the id exists, and the table loses only the rows of
    that id. *)
Theorem delete_reports_relational_outcome req w i :
  authenticated req w →
  route_params req !! "id" = Some i → i ≠ "" →
  ∃ resp w',
    assets_delete.main req w = (Ok resp, w')
    ∧ (resp = deleted_response i
       ↔ (SqlExecute sql.DELETE_file_metadata (by_id i), Succeeded) ∈ new_calls w w')
    ∧ (resp = deleted_response i ∧ status_code resp = 200
       ∨ resp = delete_failed ∧ status_code resp = 500
         ∧ Forall (λ c, service_of c.1 ≠ Documents) (new_calls w w')
         ∧ items w' = items w)
    ∧ (healthy w → is_Some (_db_engine w) →
       resp = deleted_response i
       ∧ file_metadata w' = filter (λ r, sql.r_id r ≠ i) (file_metadata w)
       ∧ ((∀ r, r ∈ file_metadata w → sql.r_id r ≠ i) →
          file_metadata w' = file_metadata w)).
Proof.
  intros Ha Hid Hne. unfold assets_delete.main.
  unfold bind at 1. unfold attempt at 1. rewrite (require_authenticated _ _ Ha).
  rewrite Hid. cbn [str_truthy default from_option id].
  destruct (String.eqb i "") eqn:Ei; [by apply String.eqb_eq in Ei|]. cbn [negb].
  (* the blobs *)
  phase (within (only Blobs)) r1 w1 E1 K1.
  destruct (attempt_is_ok _ _ _ _ E1) as [swept ->]. clear E1.
  destruct K1 as (_&Ho1&_&Hd1&(lb&Hc1&Hlb)&_&Hs1&Hi1&_).
  destruct (Hs1 eq_refl) as [Hf1 He1]. destruct (Hi1 eq_refl) as [Hit1 _].
  clear Hs1 Hi1.
  unfold bind at 1.
  destruct (note_run swept ERROR
              (λ e, "Failed to delete blobs from storage: " +:+ exn_str e) w1)
    as [l1 ->].
  (* the relational row *)
  unfold bind at 1. unfold attempt at 1. unfold bind at 1. fold (by_id i).
  destruct (sql_client.execute_update _ _ (with_logs l1 w1)) as [r2 w2] eqn:E2.
  pose proof (execute_update_outcome _ _ _ _ _ E2) as (_&Hit2&_&Hcase).
  rewrite dict_or_by_id in Hcase. wsimpl.
  assert (healthy w → is_Some (_db_engine w) →
          r2 = Ok tt
          ∧ file_metadata w2 = filter (λ r, sql.r_id r ≠ i) (file_metadata w))
    as Hhealthy.
  { intros Hh [e He].
    destruct (execute_update_healthy sql.DELETE_file_metadata (Some (by_id i))
                (with_logs l1 w1) e
                (filter (λ r, sql.r_id r ≠ i) (file_metadata w))) as (w2'&E2'&Hf2).
    - wsimpl. congruence.
    - wsimpl. rewrite Ho1. apply Hh.
    - wsimpl. rewrite Hd1, Hf1. apply exec_delete.
    - rewrite E2 in E2'. by injection E2' as -> ->. }
  destruct Hcase as [(->&Hc2&Hx)|(e&->&Hf2&Hc2)].
  - (* deleted: the document *)
    unfold log at 1. cbn [new_calls].
    phase (within (only Documents)) r3 w3 E3 K3.
    destruct (attempt_is_ok _ _ _ _ E3) as [mirrored ->]. clear E3.
    destruct K3 as (_&_&_&_&(lc&Hc3&Hlc)&_&Hs3&_&_).
    destruct (Hs3 eq_refl) as [Hf3 _]. clear Hs3. simpl in Hc3, Hf3.
    unfold bind at 1.
    destruct (note_run mirrored WARNING
                (λ e, "Failed to delete from Cosmos DB: " +:+ exn_str e) w3)
      as [l3 ->].
    eexists _, _. split; [reflexivity|].
    assert (new_calls w (with_logs
              (logs (with_logs l3 w3) ++ [(INFO, "Successfully deleted asset " +:+ i)])
              (with_logs l3 w3))
            = lb ++ [(SqlExecute sql.DELETE_file_metadata (by_id i), Succeeded)] ++ lc)%list
      as ->.
    { apply new_calls_app. simpl. rewrite Hc3, Hc2, Hc1. by rewrite <- !(assoc_L (++)). }
    split_and!.
    + split; [|done]. intros _. apply elem_of_app. right. apply elem_of_app. left.
      by apply list_elem_of_singleton.
    + by left.
    + intros Hh He. destruct (Hhealthy Hh He) as [_ Hf2]. simpl.
      split; [done|]. rewrite Hf3, Hf2. split; [done|].
      intros Hno. apply filter_all. by apply Forall_forall.
  - (* not deleted *)
    eexists _, _. split; [reflexivity|]. simpl.
    assert (∃ lf, new_calls w w2 = (lb ++ lf)%list
                  ∧ Forall (λ c : Op * outcome, c.2 ≠ Succeeded
                                  ∧ service_of c.1 = Relational) lf)
      as (lf&Hn&Hlf).
    { destruct Hc2 as [Hc2|Hc2].
      - exists []. split; [|done]. apply new_calls_app.
        by rewrite Hc2, Hc1, app_nil_r.
      - eexists [_]. split.
        + apply new_calls_app. rewrite Hc2, Hc1. by rewrite <- (assoc_L (++)).
        + by apply Forall_singleton. }
    unfold new_calls in *. simpl. rewrite Hn.
    split_and!.
    + split; [done|]. intros Hin. exfalso.
      apply elem_of_app in Hin as [Hin|Hin].
      * by apply (not_in_foreign (only Blobs) lb _ _ Hlb) in Hin.
      * rewrite Forall_forall in Hlf. by destruct (Hlf _ Hin).
    + right. split_and!; try done.
      * apply Forall_app. split.
        -- eapply Forall_impl; [exact Hlb|]. intros [op o]. simpl.
           unfold only. intros Hb%bool_decide_eq_true. congruence.
        -- eapply Forall_impl; [exact Hlf|]. intros [op o] [_ Hr]. simpl in *.
           congruence.
      * congruence.
    + intros Hh He. by destruct (Hhealthy Hh He).
Qed.

End delete.

(** ** Create: the two writes (4.2) *)





Section create.
Context `{Platform}.


End create.

(** ** Update: the allow-list (4.5) *)

Section update_filter.
Context `{Platform}.

Lemma accepted_idemp d : accepted (accepted d) = accepted d.
Proof.
  unfold accepted. apply map_eq. intros k.
  destruct (filter _ d !! k) as [v|] eqn:E.
  - apply map_lookup_filter_Some. split; [done|].
    by apply map_lookup_filter_Some in E as [_ ?].
  - apply map_lookup_filter_None. left. done.
Qed.

Lemma accepted_none d :
  (∀ k, k ∈ assets_update.allowed_fields → d !! k = None) → accepted d = ∅.
Proof.
  intros Hno. unfold accepted. apply map_empty. intros k.
  apply map_lookup_filter_None.
  destruct (d !! k) as [v|] eqn:E; [|by left]. right.
  intros v' Hv' Hin. simpl in Hin. rewrite (Hno _ Hin) in E. done.
Qed.

Lemma truthy_dict_false d : truthy (VDict d) = false → d = ∅.
Proof. apply dict_truthy_empty. Qed.

Lemma update_ignores_unknown_keys req w d :
  json_body req = Some (VDict d) →
  assets_update.main req w = assets_update.main (with_json (accepted d) req) w.
Proof.
  intros Hb. destruct req as [h r b]. cbn [json_body] in Hb. subst b.
  unfold with_json. cbn [headers route_params].
  unfold assets_update.main. cbn [headers route_params].
  unfold get_json. cbn [json_body].
  cbv beta iota zeta delta [bind attempt ret method_items].
  destruct (truthy (VDict d)) eqn:E1; destruct (truthy (VDict (accepted d))) eqn:E2;
    cbv beta iota.
  - change (filter (λ kv : string * value, kv.1 ∈ assets_update.allowed_fields)
              (accepted d)) with (accepted (accepted d)).
    rewrite accepted_idemp. reflexivity.
  - apply truthy_dict_false in E2.
    change (filter (λ kv : string * value, kv.1 ∈ assets_update.allowed_fields) d)
      with (accepted d).
    rewrite E2, map_filter_empty. reflexivity.
  - apply truthy_dict_false in E1. subst d. unfold accepted in E2.
    rewrite map_filter_empty in E2. discriminate E2.
  - reflexivity.
Qed.

(** C5.  For a request that passes the gate with a JSON object as body:
    when the object has no key of the allow-list the update handler answers
    400 and calls no service; and in every case the handler does exactly
    what it does on the body cut down to the allow-listed keys, so a key
    outside the list reaches neither store. *)
Theorem update_drops_unknown_keys req w d :
  authenticated req w →
  json_body req = Some (VDict d) →
  ((∀ k, k ∈ assets_update.allowed_fields → d !! k = None) →
     ∃ resp w', assets_update.main req w = (Ok resp, w')
                ∧ status_code resp = 400 ∧ untouched w w')
  ∧ assets_update.main req w = assets_update.main (with_json (accepted d) req) w
  ∧ (∀ k, k ∉ assets_update.allowed_fields → accepted d !! k = None)
  ∧ (∀ k, k ∈ assets_update.allowed_fields → accepted d !! k = d !! k).
Proof.
  intros Ha Hb. split_and!.
  - intros Hno. apply accepted_none in Hno.
    unfold assets_update.main.
    unfold bind at 1. unfold attempt at 1. rewrite (require_authenticated _ _ Ha).
    destruct (negb (str_truthy _)); [by eexists _, _|].
    unfold bind at 1. unfold attempt at 1. unfold get_json. rewrite Hb.
    unfold bind at 1. unfold ret at 1. unfold ret at 1.
    assert (∀ v, (v = VDict d ∨ v = VDict ∅) →
                 method_items v w = (Ok (match v with VDict x => x | _ => ∅ end), w)
                 ∧ accepted (match v with VDict x => x | _ => ∅ end) = ∅) as Hv.
    { intros v [->| ->]; (split; [reflexivity|]); [done|].
      unfold accepted. apply map_filter_empty. }
    destruct (Hv (if truthy (VDict d) then VDict d else VDict ∅)) as [Hm Hacc];
      [destruct (truthy _); [by left|by right]|].
    unfold bind at 1. rewrite Hm. unfold accepted in Hacc. rewrite Hacc.
    replace (dict_truthy ∅) with false by (symmetry; by apply dict_truthy_empty).
    cbn [negb]. by eexists _, _.
  - by apply update_ignores_unknown_keys.
  - intros k Hk. unfold accepted. apply map_lookup_filter_None. right.
    intros v _. done.
  - intros k Hk. unfold accepted. destruct (d !! k) as [v|] eqn:E.
    + by apply map_lookup_filter_Some.
    + apply map_lookup_filter_None. by left.
Qed.

End update_filter.

(** ** Update: the relational statement (4.5) *)

Lemma pick_here sets params c old v :
  params !! c = Some v →
  pick ((c, c) :: sets) params c old = pick sets params c v.
Proof.
  intros Hv. unfold pick. rewrite Hv.
  rewrite decide_True by (by left). simpl. by destruct (decide _).
Qed.

Lemma pick_skip sets params c x old :
  x ≠ c → pick ((c, c) :: sets) params x old = pick sets params x old.
Proof.
  intros Hx. unfold pick.
  destruct (decide ((x, x) ∈ sets)) as [Hin|Hin].
  - rewrite decide_True; [done|]. by right.
  - rewrite decide_False; [done|].
    intros [E|E]%elem_of_cons; [congruence|done].
Qed.

Lemma apply_sets_pick sets params r :
  Forall (λ cp : string * string,
            cp.2 = cp.1 ∧ cp.1 ∈ settable ∧ is_Some (params !! cp.1)) sets →
  sql.apply_sets sets params r
  = Some (sql.mkRow (sql.r_id r) (sql.r_user_id r)
            (pick sets params "file_name" (sql.r_file_name r))
            (pick sets params "file_type" (sql.r_file_type r))
            (pick sets params "file_size" (sql.r_file_size r))
            (pick sets params "blob_url" (sql.r_blob_url r))
            (pick sets params "status" (sql.r_status r))
            (sql.r_created_at r)).
Proof.
  intros Hall. revert r. induction Hall as [|[c p] sets (Hp&Hc&[v Hv]) _ IH];
    intros r.
  - by destruct r.
  - simpl in Hp, Hc, Hv. subst p. cbn [sql.apply_sets]. rewrite Hv.
    unfold settable in Hc.
    repeat (apply elem_of_cons in Hc as [->|Hc]); [..|by apply elem_of_nil in Hc];
      cbn [sql.set_column String.eqb Ascii.eqb Bool.eqb]; rewrite IH;
      cbn [sql.r_id sql.r_user_id sql.r_file_name sql.r_file_type sql.r_file_size
           sql.r_blob_url sql.r_status sql.r_created_at];
      rewrite (pick_here _ _ _ _ _ Hv), !pick_skip by done; reflexivity.
Qed.

Lemma update_where_fmap i sets params (g : sql.Row → sql.Row) t :
  (∀ r, sql.apply_sets sets params r = Some (g r)) →
  sql.update_where i sets params t
  = Some ((λ r, if String.eqb (sql.r_id r) i then g r else r) <$> t).
Proof.
  intros Hg. induction t as [|r t IH]; [done|].
  cbn [sql.update_where]. rewrite IH, Hg. cbn [fmap list_fmap].
  by destruct (String.eqb _ _).
Qed.

Lemma field_mapping_other k :
  k ≠ "fileName" → k ≠ "fileType" → k ≠ "fileSize" → k ≠ "blobUrl" →
  assets_update.field_mapping !! k = None.
Proof.
  intros. unfold assets_update.field_mapping.
  rewrite !lookup_insert_ne by done. by rewrite lookup_singleton_ne.
Qed.

Lemma built_settable_mono (sets : list (string * string)) (params : gmap string value) c v :
  Forall (λ cp : string * string,
            cp.2 = cp.1 ∧ cp.1 ∈ settable ∧ is_Some (params !! cp.1)) sets →
  c ∈ settable →
  Forall (λ cp : string * string,
            cp.2 = cp.1 ∧ cp.1 ∈ settable ∧ is_Some (<[c:=v]> params !! cp.1))
    (sets ++ [(c, c)]).
Proof.
  intros Hall Hc. apply Forall_app. split.
  - eapply Forall_impl; [exact Hall|]. intros [c' p'] (?&?&Hs). split_and!; try done.
    simpl in *. destruct (decide (c = c')) as [->|Hne].
    + rewrite lookup_insert_eq. by eexists.
    + by rewrite lookup_insert_ne.
  - apply Forall_singleton. split_and!; try done. simpl.
    rewrite lookup_insert_eq. by eexists.
Qed.

Lemma built_step i k v acc m :
  m !! k = None → built i acc m →
  built i (assets_update.add_field k v acc) (<[k:=v]> m).
Proof.
  intros Hk (Hid&Hsets&Hcols). destruct acc as [sets params]. simpl in *.
  unfold built, field_columns in *. rewrite !Forall_cons, Forall_nil in Hcols.
  simpl in Hcols.
  destruct Hcols as ((Hn&Hn')&(Ht&Ht')&(Hz&Hz')&(Hu&Hu')&(Hs&Hs')&_).
  unfold assets_update.add_field.
  destruct (decide (k = "fileName")) as [->|N1];
  [|destruct (decide (k = "fileType")) as [->|N2];
  [|destruct (decide (k = "fileSize")) as [->|N3];
  [|destruct (decide (k = "blobUrl")) as [->|N4];
  [|destruct (decide (k = "status")) as [->|N5]]]]].
  1-4: (change (assets_update.field_mapping !! _) with (Some "file_name")
        || change (assets_update.field_mapping !! _) with (Some "file_type")
        || change (assets_update.field_mapping !! _) with (Some "file_size")
        || change (assets_update.field_mapping !! _) with (Some "blob_url"));
       cbn [fst snd]; split_and!;
       [ by rewrite lookup_insert_ne
       | apply built_settable_mono; [done|set_solver]
       | rewrite !Forall_cons, Forall_nil; cbn [fst snd];
         rewrite ?lookup_insert_eq, ?lookup_insert_ne by done;
         rewrite ?Hk; rewrite !elem_of_app, !list_elem_of_singleton;
         split_and!; try done;
         first [ split; [by eauto|intros _; by right]
               | rewrite <- ?Hn', <- ?Ht', <- ?Hz', <- ?Hu', <- ?Hs';
                 split; [intros [?|[=]]; done|by left] ] ].
  - change (assets_update.field_mapping !! "status") with (@None string).
    cbn [String.eqb Ascii.eqb Bool.eqb fst snd]. split_and!.
    + by rewrite lookup_insert_ne.
    + apply built_settable_mono; [done|set_solver].
    + rewrite !Forall_cons, Forall_nil; cbn [fst snd].
      rewrite ?lookup_insert_eq, ?lookup_insert_ne by done.
      rewrite ?Hk. rewrite !elem_of_app, !list_elem_of_singleton.
      split_and!; try done;
        first [ split; [by eauto|intros _; by right]
              | rewrite <- ?Hn', <- ?Ht', <- ?Hz', <- ?Hu', <- ?Hs';
                split; [intros [?|[=]]; done|by left] ].
  - rewrite field_mapping_other by done.
    destruct (String.eqb k "status") eqn:E; [by apply String.eqb_eq in E|].
    cbn [fst snd]. split_and!; try done.
    rewrite !Forall_cons, Forall_nil; cbn [fst snd].
    rewrite !lookup_insert_ne by done. done.
Qed.

Lemma build_update_built i fields :
  built i (assets_update.build_update i fields) fields.
Proof.
  unfold assets_update.build_update.
  apply (map_fold_weak_ind (built i)).
  - unfold built, field_columns. cbn [fst snd]. split_and!.
    + apply lookup_singleton_eq.
    + apply Forall_nil_2.
    + rewrite !Forall_cons, Forall_nil. cbn [fst snd].
      rewrite !lookup_singleton_ne, !lookup_empty by done.
      split_and!; try done; (split; [by intros ?%elem_of_nil|by intros [? [=]]]).
  - intros k v m r Hk Hr. by apply built_step.
Qed.

Lemma pick_built i sets params m k c old :
  built i (sets, params) m → (k, c) ∈ field_columns →
  pick sets params c old = default old (m !! k).
Proof.
  intros (_&_&Hcols) Hin. rewrite Forall_forall in Hcols.
  destruct (Hcols _ Hin) as [Hv Hiff]. simpl in Hv, Hiff.
  unfold pick. destruct (decide _) as [Hs|Hs].
  - by rewrite Hv.
  - destruct (m !! k) as [v|] eqn:E; [|done].
    exfalso. apply Hs, Hiff. by eexists.
Qed.

Lemma exec_update_patch i sets params m now t :
  built i (sets, params) m →
  sql.exec (sql.UPDATE_file_metadata sets) params now t = Some (patch_table i m t).
Proof.
  intros Hb. pose proof Hb as (Hid&Hsets&_). simpl in Hid, Hsets.
  unfold sql.exec, sql.param_str. rewrite Hid.
  rewrite (update_where_fmap i sets params (patch_row m)); [done|].
  intros r. rewrite (apply_sets_pick _ _ _ Hsets). unfold patch_row.
  rewrite (pick_built i sets params m "fileName") by (done || set_solver).
  rewrite (pick_built i sets params m "fileType") by (done || set_solver).
  rewrite (pick_built i sets params m "fileSize") by (done || set_solver).
  rewrite (pick_built i sets params m "blobUrl") by (done || set_solver).
  rewrite (pick_built i sets params m "status") by (done || set_solver).
  done.
Qed.

Lemma built_sets_accepted i sets params m :
  built i (sets, params) m →
  Forall (λ cp : string * string,
            cp.2 = cp.1
            ∧ ∃ k, (k, cp.1) ∈ field_columns ∧ is_Some (m !! k)) sets.
Proof.
  intros (_&Hsets&Hcols). simpl in *. rewrite Forall_forall in Hsets, Hcols |- *.
  intros [c p] Hin. destruct (Hsets _ Hin) as (Hp&Hc&_). simpl in *. subst p.
  split; [done|].
  assert (∃ k, (k, c) ∈ field_columns) as [k Hk].
  { unfold settable in Hc.
    repeat (apply elem_of_cons in Hc as [->|Hc]);
      [ exists "fileName" | exists "fileType" | exists "fileSize"
      | exists "blobUrl" | exists "status" | by apply elem_of_nil in Hc ];
      unfold field_columns; set_solver. }
  exists k. split; [done|]. destruct (Hcols _ Hk) as [_ Hiff]. by apply Hiff.
Qed.

Lemma patch_table_frame i m t :
  Forall2 (λ r r', sql.r_id r' = sql.r_id r
                   ∧ sql.r_created_at r' = sql.r_created_at r
                   ∧ sql.r_user_id r' = sql.r_user_id r
                   ∧ (sql.r_id r ≠ i → r' = r)
                   ∧ ((∀ k, k ≠ "status" → m !! k = None) →
                      r' = sql.mkRow (sql.r_id r) (sql.r_user_id r)
                             (sql.r_file_name r) (sql.r_file_type r)
                             (sql.r_file_size r) (sql.r_blob_url r)
                             (sql.r_status r') (sql.r_created_at r)))
    t (patch_table i m t).
Proof.
  unfold patch_table. induction t as [|r t IH]; [by constructor|].
  cbn [fmap list_fmap]. constructor; [|exact IH].
  destruct (String.eqb (sql.r_id r) i) eqn:E.
  - apply String.eqb_eq in E. unfold patch_row. simpl. split_and!; try done.
    intros Hst.
    by rewrite (Hst "fileName"), (Hst "fileType"), (Hst "fileSize"),
      (Hst "blobUrl") by done.
  - split_and!; try done. intros _. by destruct r.
Qed.

Lemma quiet_same_stores {A} (m : M A) : keeps quiet m → keeps same_stores m.
Proof. intros K w. by destruct (K w) as (_&_&_&_&_&?). Qed.

Section update.
Context `{Platform}.

Lemma get_asset_doc_same_stores i : keeps same_stores (cosmos_client.get_asset_doc i).
Proof.
  unfold cosmos_client.get_asset_doc.
  frame_apply keeps_bind; [apply get_container_same_stores|]. intros _.
  frame_apply keeps_bind.
  - frame_apply keeps_attempt. apply same_stores_remote. intros w.
    by destruct (items w !! i).
  - intros r. solve_keeps.
Qed.

Lemma fetch_all_records_same_stores q p :
  keeps same_stores (sql_client.fetch_all_records q p).
Proof.
  unfold sql_client.fetch_all_records.
  frame_apply keeps_bind;
    [apply quiet_same_stores, get_database_engine_quiet|]. intros _.
  apply same_stores_remote. intros w. by destruct (sql.query _ _ _).
Qed.

Lemma dict_or_params (params : gmap string value) i :
  params !! "id" = Some (VStr i) → dict_or (Some params) ∅ = params.
Proof.
  intros Hid. unfold dict_or. destruct (dict_truthy params) eqn:E; [done|].
  apply dict_truthy_empty in E. by rewrite E in Hid.
Qed.

(** C6.  After an update that was answered with 200, the statement the
    handler built sets only columns mapped from accepted fields, the table
    is the result of that statement, and that result is: in the rows of the
    asset each mapped column has the submitted value and every other column
    its former value, the other rows are as they were.  So [id],
    [created_at] and [user_id] never change, and a body that carries only
    [status] changes only the status column. *)
Theorem update_sets_only_accepted_columns req w i d resp w' :
  route_params req !! "id" = Some i →
  json_body req = Some (VDict d) →
  assets_update.main req w = (Ok resp, w') →
  status_code resp = 200 →
  ∃ sets params,
    assets_update.build_update i (accepted d) = (sets, params)
    ∧ Forall (λ cp : string * string,
                cp.2 = cp.1
                ∧ ∃ k, (k, cp.1) ∈ field_columns ∧ is_Some (accepted d !! k)) sets
    ∧ sql.exec (sql.UPDATE_file_metadata sets) params (db_clock w) (file_metadata w)
      = Some (file_metadata w')
    ∧ file_metadata w' = patch_table i (accepted d) (file_metadata w)
    ∧ Forall2 (λ r r', sql.r_id r' = sql.r_id r
                       ∧ sql.r_created_at r' = sql.r_created_at r
                       ∧ sql.r_user_id r' = sql.r_user_id r
                       ∧ (sql.r_id r ≠ i → r' = r)
                       ∧ ((∀ k, k ≠ "status" → accepted d !! k = None) →
                          r' = sql.mkRow (sql.r_id r) (sql.r_user_id r)
                                 (sql.r_file_name r) (sql.r_file_type r)
                                 (sql.r_file_size r) (sql.r_blob_url r)
                                 (sql.r_status r') (sql.r_created_at r)))
        (file_metadata w) (file_metadata w').
Proof.
  intros Hid Hb Hrun Hst.
  rewrite (update_ignores_unknown_keys _ _ _ Hb) in Hrun.
  pose proof (build_update_built i (accepted d)) as Hbuilt.
  destruct (assets_update.build_update i (accepted d)) as [sets params] eqn:Eb.
  exists sets, params. split; [done|].
  split; [by apply (built_sets_accepted i sets params)|].
  pose proof (exec_update_patch i sets params (accepted d) (db_clock w)
                (file_metadata w) Hbuilt) as Hexec.
  cut (file_metadata w' = patch_table i (accepted d) (file_metadata w)).
  { intros ->. split_and!; [done|done|apply patch_table_frame]. }
  revert Hrun. unfold assets_update.main, with_json.
  cbn [headers route_params json_body].
  unfold bind at 1. unfold attempt at 1. rewrite require_api_key_run.
  destruct (gate_allows _ _);
    [|intros [= <- <-]; discriminate Hst].
  rewrite Hid. cbn [str_truthy default from_option id].
  destruct (negb (negb (String.eqb i "")));
    [intros [= <- <-]; discriminate Hst|].
  unfold bind at 1. unfold attempt at 1. unfold get_json. cbn [json_body].
  unfold bind at 1. unfold ret at 1. unfold ret at 1.
  destruct (truthy (VDict (accepted d))) eqn:Et;
    unfold bind at 1; unfold method_items, ret at 1.
  2: { rewrite map_filter_empty.
       replace (dict_truthy ∅) with false by (symmetry; by apply dict_truthy_empty).
       intros [= <- <-]. discriminate Hst. }
  change (filter (λ kv : string * value, kv.1 ∈ assets_update.allowed_fields)
            (accepted d)) with (accepted (accepted d)).
  rewrite accepted_idemp.
  destruct (negb (dict_truthy (accepted d)));
    [intros [= <- <-]; discriminate Hst|].
  (* the document *)
  phase (within (only Documents)) r1 w1 E1 K1.
  destruct (attempt_is_ok _ _ _ _ E1) as [mirrored ->]. clear E1.
  destruct K1 as (_&_&_&Hd1&_&_&Hs1&_&_).
  destruct (Hs1 eq_refl) as [Hf1 _]. clear Hs1.
  unfold bind at 1.
  destruct (note_run mirrored WARNING
              (λ e, "Failed to update Cosmos DB: " +:+ exn_str e) w1)
    as [l1 ->].
  (* the relational row *)
  unfold bind at 1. unfold attempt at 1. rewrite Eb.
  assert (∀ w2,
    file_metadata w2 = patch_table i (accepted d) (file_metadata w) →
    (let* reread := attempt
         (let* cosmos_doc := cosmos_client.get_asset_doc i in
          let* sql_results := sql_client.fetch_all_records sql.SELECT_by_id
                                (Some {[ "id" := VStr i ]}) in
          if negb (dict_truthy
                     match sql_results with
                     | [] => dict_or cosmos_doc ∅
                     | row :: _ => dict_update (dict_or cosmos_doc ∅) row
                     end)
          then ret (assets_update.echo i (accepted d))
          else ret match sql_results with
                   | [] => dict_or cosmos_doc ∅
                   | row :: _ => dict_update (dict_or cosmos_doc ∅) row
                   end) in
     let* updated_doc := match reread with
                         | Ok d0 => ret d0
                         | Raise e =>
                             let* _ := log WARNING ("Failed to fetch updated record: "
                                                    +:+ exn_str e) in
                             ret (assets_update.echo i (accepted d))
                         end in
     let* _ := log INFO ("Updated asset " +:+ i +:+ " with fields: "
                 +:+ py_str (VList (VStr <$> (map_to_list (accepted d)).*1))) in
     ret (mkResponse (Json (VDict updated_doc)) 200 "application/json")) w2
    = (Ok resp, w') →
    file_metadata w' = patch_table i (accepted d) (file_metadata w)) as Hrest.
  { clear. intros w2 Hf2.
    unfold bind at 1.
    match goal with
    | |- context [attempt ?m w2] =>
        assert (keeps same_stores (attempt m)) as K
          by (repeat first [ apply get_asset_doc_same_stores
                           | apply fetch_all_records_same_stores
                           | keeps_step ]; done);
        specialize (K w2); destruct (attempt m w2) as [r3 w3] eqn:E3; simpl in K
    end.
    destruct (attempt_is_ok _ _ _ _ E3) as [reread ->]. clear E3.
    destruct K as (Hf3&_&_).
    destruct reread as [d0|e]; intros [= _ <-]; cbn [file_metadata with_logs];
      congruence. }
  destruct sets as [|s sets].
  - (* nothing to set *)
    unfold log at 1. cbv beta iota. apply Hrest.
    cbn [file_metadata with_logs]. rewrite Hf1.
    unfold sql.exec, sql.param_str in Hexec.
    destruct Hbuilt as (Hpid&_&_). cbn [snd] in Hpid. rewrite Hpid in Hexec.
    cbn [sql.update_where] in Hexec.
    clear -Hexec. revert Hexec. generalize (patch_table i (accepted d) (file_metadata w)).
    intros t. generalize (file_metadata w). intros t0. revert t.
    induction t0 as [|r t0 IH]; intros t; cbn [sql.update_where sql.apply_sets].
    + by intros [= <-].
    + destruct (sql.update_where i [] params t0) as [u|] eqn:Eu; [|done].
      rewrite (IH u eq_refl). by destruct (String.eqb _ _); intros [= <-].
  - (* the UPDATE statement *)
    destruct (sql_client.execute_update _ _ _) as [updated w2] eqn:E2.
    pose proof (execute_update_outcome _ _ _ _ _ E2) as (_&_&_&Hcase).
    destruct Hbuilt as (Hpid&_&_). cbn [snd] in Hpid.
    rewrite (dict_or_params params i Hpid) in Hcase.
    cbn [db_clock file_metadata calls with_logs] in Hcase.
    rewrite Hd1, Hf1, Hexec in Hcase.
    destruct Hcase as [(->&_&Hx)|(e&->&_&_)].
    + cbv beta iota. apply Hrest. by injection Hx as <-.
    + intros [= <- <-]. discriminate Hst.
Qed.

End update.

(** ** The theorems at the sample data *)

Lemma request_gate_witness :
  gate_allows (environ healthy_world !! "API_KEY")
    (headers (sample_request (Some "guess") (Some "a1") None) !! "x-api-key") = false
  ∧ ∃ w', assets_get.main (H:=sample_platform)
            (sample_request (Some "guess") (Some "a1") None) healthy_world
          = (Ok unauthorized, w')
          ∧ status_code unauthorized = 401 ∧ untouched healthy_world w'.
Proof.
  split; [vm_compute; reflexivity|].
  apply (proj2 (@request_gate sample_platform
                  (sample_request (Some "guess") (Some "a1") None) healthy_world)).
  - vm_compute. reflexivity.
  - apply list_elem_of_further, list_elem_of_here.
Defined.

Lemma create_rejects_falsy_field_witness :
  authenticated (sample_create (VInt 0)) healthy_world
  ∧ json_body (sample_create (VInt 0)) = Some (VDict (create_body (VInt 0)))
  ∧ create_body (VInt 0) !! "fileSize" = Some (VInt 0)
  ∧ truthy (VInt 0) = false
  ∧ ∃ w', assets_create.main (H:=sample_platform) (sample_create (VInt 0)) healthy_world
          = (Ok missing_fields, w')
          ∧ status_code missing_fields = 400 ∧ untouched healthy_world w'.
Proof.
  split; [vm_compute; reflexivity|]. split; [reflexivity|].
  split; [vm_compute; reflexivity|]. split; [reflexivity|].
  apply (@create_rejects_falsy_field sample_platform (sample_create (VInt 0))
           healthy_world (create_body (VInt 0)) "fileSize" (VInt 0)).
  - vm_compute. reflexivity.
  - reflexivity.
  - apply list_elem_of_further, list_elem_of_further, list_elem_of_here.
  - vm_compute. reflexivity.
  - reflexivity.
Defined.

Lemma create_infinite_size_escapes_witness :
  authenticated (sample_create (VFloat (FInf false))) healthy_world
  ∧ int (dict_get (create_body (VFloat (FInf false))) "fileSize") = Raise OverflowError
  ∧ assets_create.main (H:=sample_platform) (sample_create (VFloat (FInf false)))
      healthy_world
    = (Raise OverflowError, healthy_world).
Proof.
  split; [vm_compute; reflexivity|].
  apply (@create_infinite_size_escapes sample_platform
           (sample_create (VFloat (FInf false))) healthy_world
           (create_body (VFloat (FInf false))) false).
  - vm_compute. reflexivity.
  - reflexivity.
  - vm_compute. reflexivity.
  - vm_compute. reflexivity.
  - vm_compute. reflexivity.
Defined.




Lemma delete_reports_relational_outcome_witness :
  authenticated (sample_by_id "a1") healthy_world
  ∧ ∃ resp w',
      assets_delete.main (sample_by_id "a1") healthy_world
      = (Ok resp, w')
      ∧ (resp = deleted_response "a1"
         ↔ (SqlExecute sql.DELETE_file_metadata (by_id "a1"), Succeeded)
           ∈ new_calls healthy_world w').
Proof.
  assert (authenticated (sample_by_id "a1") healthy_world) as Ha
    by (vm_compute; reflexivity).
  split; [exact Ha|].
  destruct (delete_reports_relational_outcome
              (sample_by_id "a1") healthy_world "a1" Ha)
    as (resp&w'&Hrun&Hiff&_).
  - vm_compute. reflexivity.
  - discriminate.
  - exists resp, w'. split; [exact Hrun|exact Hiff].
Defined.

Lemma update_drops_unknown_keys_witness :
  authenticated (sample_update unknown_body) healthy_world
  ∧ (∀ k, k ∈ assets_update.allowed_fields → unknown_body !! k = None)
  ∧ ∃ resp w',
      assets_update.main (H:=sample_platform) (sample_update unknown_body)
        healthy_world = (Ok resp, w')
      ∧ status_code resp = 400 ∧ untouched healthy_world w'.
Proof.
  assert (authenticated (sample_update unknown_body) healthy_world) as Ha
    by (vm_compute; reflexivity).
  assert (∀ k, k ∈ assets_update.allowed_fields → unknown_body !! k = None) as Hno.
  { intros k Hk. unfold assets_update.allowed_fields in Hk.
    repeat (apply elem_of_cons in Hk as [->|Hk]);
      [vm_compute; reflexivity ..|by apply elem_of_nil in Hk]. }
  split; [exact Ha|]. split; [exact Hno|].
  destruct (@update_drops_unknown_keys sample_platform (sample_update unknown_body)
              healthy_world unknown_body Ha) as (Hreject&_).
  - reflexivity.
  - exact (Hreject Hno).
Defined.

Lemma update_sets_only_accepted_columns_witness :
  let w := healthy_world in
  let run := assets_update.main (H:=sample_platform) (sample_update update_body) w in
  run = (Ok (response_of run), run.2)
  ∧ status_code (response_of run) = 200
  ∧ file_metadata run.2 = patch_table "a1" (accepted update_body) (file_metadata w)
  ∧ file_metadata run.2
    = [sample_row "a1" "done" 5; sample_row "a2" "done" 9; sample_row "a3" "pending" 7].
Proof.
  intros w run.
  assert (run = (Ok (response_of run), run.2)) as Hrun by (vm_compute; reflexivity).
  assert (status_code (response_of run) = 200) as Hst by (vm_compute; reflexivity).
  split; [exact Hrun|]. split; [exact Hst|].
  destruct (@update_sets_only_accepted_columns sample_platform
              (sample_update update_body) w "a1" update_body
              (response_of run) run.2) as (sets&params&_&_&_&Htable&_).
  - vm_compute. reflexivity.
  - reflexivity.
  - exact Hrun.
  - exact Hst.
  - split; [exact Htable|]. vm_compute. reflexivity.
Defined.

(** * Further properties *)

(** ** What the handlers answer, whatever the services do *)

Lemma returns_ret {A} (P : A → Prop) a : P a → returns P (ret a).
Proof. intros Ha w a' w' [= <- _]. exact Ha. Qed.

Lemma returns_raise {A} (P : A → Prop) e : returns P (raise e).
Proof. intros w a w' [=]. Qed.

Lemma returns_bind {A B} (P : B → Prop) (m : M A) (f : A → M B) :
  (∀ a, returns P (f a)) → returns P (bind m f).
Proof.
  intros Hf w b w'. unfold bind. destruct (m w) as [[a|e] w1]; [|done].
  apply Hf.
Qed.

Lemma returns_bind_with {A B} (Q : A → Prop) (P : B → Prop) (m : M A) (f : A → M B) :
  returns Q m → (∀ a, Q a → returns P (f a)) → returns P (bind m f).
Proof.
  intros Hm Hf w b w'. unfold bind. destruct (m w) as [[a|e] w1] eqn:E; [|done].
  apply Hf. by eapply Hm.
Qed.

Lemma returns_attempt {A} (P : A → Prop) (m : M A) :
  returns P m → returns (λ r, ∀ a, r = Ok a → P a) (attempt m).
Proof.
  intros Hm w r w'. unfold attempt. destruct (m w) as [r0 w0] eqn:E.
  intros [= <- <-] a ->. by eapply Hm.
Qed.

Ltac returns_step :=
  first
    [ apply returns_raise
    | apply returns_bind; intros ?
    | match goal with
      | |- returns _ (match ?x with _ => _ end) => destruct x
      end ].

Ltac in_codes := cbn [body status_code mimetype]; split; [set_solver|reflexivity].

Section responses.
Context `{Platform}.

(** X1.  Whatever the request and whatever the services do, a response that a
    handler returns carries JSON with its success code and the JSON media
    type, or text with one of its error codes and the text media type. *)
Theorem handlers_answer_in_their_codes req :
  returns (shaped [201] [400; 401; 500]) (assets_create.main req)
  ∧ returns (shaped [200] [400; 401; 404; 500]) (assets_get.main req)
  ∧ returns (shaped [200] [401; 500]) (assets_list.main req)
  ∧ returns (shaped [200] [400; 401; 500]) (assets_update.main req)
  ∧ returns (shaped [200] [400; 401; 500]) (assets_delete.main req).
Proof.
  split_and!.
  - unfold assets_create.main.
    repeat returns_step; apply returns_ret; unfold shaped; in_codes.
  - unfold assets_get.main.
    apply returns_bind. intros [[]|e];
      [|repeat returns_step; apply returns_ret; unfold shaped; in_codes].
    returns_step; [repeat returns_step; apply returns_ret; unfold shaped; in_codes|].
    apply (returns_bind_with
             (λ r, ∀ a, r = Ok a →
                match a with inl resp => resp = not_found | inr _ => True end)).
    + apply returns_attempt. repeat returns_step; by apply returns_ret.
    + intros [[resp|result]|e] Hr.
      * rewrite (Hr _ eq_refl). apply returns_ret. unfold shaped, not_found. in_codes.
      * repeat returns_step; apply returns_ret; unfold shaped; in_codes.
      * repeat returns_step; apply returns_ret; unfold shaped; in_codes.
  - unfold assets_list.main.
    repeat returns_step; apply returns_ret; unfold shaped; in_codes.
  - unfold assets_update.main.
    repeat returns_step; apply returns_ret; unfold shaped; in_codes.
  - unfold assets_delete.main.
    repeat returns_step; apply returns_ret; unfold shaped; in_codes.
Qed.

End responses.

(** ** What the handlers never touch *)

#[export] Instance reads_only_frame : Frame reads_only.
Proof.
  split.
  - intros w. split; [apply frame_refl|]. exists []. by rewrite app_nil_r.
  - intros a b c [S1 (l1&E1&F1)] [S2 (l2&E2&F2)]. split.
    + exact (frame_trans a b c S1 S2).
    + exists (l1 ++ l2)%list. rewrite E2, E1, (assoc_L (++)). split; [done|].
      by apply Forall_app.
  - intros w e. split; [apply frame_logs|]. exists []. by rewrite app_nil_r.
  - intros w n. split; [apply frame_draws|]. exists []. by rewrite app_nil_r.
Qed.



Section footprints.
Context `{Platform}.





(** X3.  Whatever the request and whatever the services do: the create, get and
    update handlers neither call the blob service nor change the blob
    container, and the list handler calls and changes nothing but the
    relational store. *)
Theorem handlers_stay_in_their_services req :
  keeps (within no_blobs) (assets_create.main req)
  ∧ keeps (within no_blobs) (assets_get.main req)
  ∧ keeps (within no_blobs) (assets_update.main req)
  ∧ keeps (within (only Relational)) (assets_list.main req).
Proof.
  split_and!.
  - unfold assets_create.main, get_json, method_get. solve_footprint.
  - unfold assets_get.main. solve_footprint.
  - unfold assets_update.main, get_json, method_items. solve_footprint.
  - unfold assets_list.main. solve_footprint.
Qed.

End footprints.

(** ** Requests that are turned away before any service is called *)

Section early_answers.
Context `{Platform}.

(** X4.  A request that passes the gate but whose route carries no id, or an
    empty one, is answered with 400 by the get, update and delete handlers,
    before any service is called. *)
Theorem handlers_require_an_id req w handler :
  authenticated req w →
  str_truthy (route_params req !! "id") = false →
  handler ∈ [assets_get.main; assets_update.main; assets_delete.main] →
  ∃ w', handler req w = (Ok id_required, w')
        ∧ status_code id_required = 400 ∧ untouched w w'.
Proof.
  intros Ha Hid Hin.
  repeat (apply elem_of_cons in Hin as [->|Hin]); [..|by apply elem_of_nil in Hin].
  - unfold assets_get.main. unfold bind at 1. unfold attempt at 1.
    rewrite (require_authenticated _ _ Ha), Hid. cbn [negb].
    eexists. split; [reflexivity|]. done.
  - unfold assets_update.main. unfold bind at 1. unfold attempt at 1.
    rewrite (require_authenticated _ _ Ha), Hid. cbn [negb].
    eexists. split; [reflexivity|]. done.
  - unfold assets_delete.main. unfold bind at 1. unfold attempt at 1.
    rewrite (require_authenticated _ _ Ha), Hid. cbn [negb].
    eexists. split; [reflexivity|]. done.
Qed.

(** X5.  A request that passes the gate with a body that is not JSON is answered
    with 400 by the create handler and, when the route carries an id, by the
    update handler, before any service is called. *)
Theorem handlers_reject_invalid_json req w :
  authenticated req w →
  json_body req = None →
  status_code invalid_json = 400
  ∧ (∃ w', assets_create.main req w = (Ok invalid_json, w') ∧ untouched w w')
  ∧ (str_truthy (route_params req !! "id") = true →
     ∃ w', assets_update.main req w = (Ok invalid_json, w') ∧ untouched w w').
Proof.
  intros Ha Hb. split; [done|]. split.
  - unfold assets_create.main. unfold bind at 1. unfold attempt at 1.
    rewrite (require_authenticated _ _ Ha).
    unfold bind at 1. unfold attempt at 1. unfold get_json. rewrite Hb.
    eexists. split; [reflexivity|]. done.
  - intros Hid. unfold assets_update.main. unfold bind at 1. unfold attempt at 1.
    rewrite (require_authenticated _ _ Ha), Hid. cbn [negb].
    unfold bind at 1. unfold attempt at 1. unfold get_json. rewrite Hb.
    eexists. split; [reflexivity|]. done.
Qed.

(** X6.  A JSON body that is not an object (a number, a string, an array,
    null, ...) has no [get] method: the create handler lets the
    AttributeError leave [main], and the world is as it was. *)
Theorem create_body_must_be_an_object req w v :
  authenticated req w →
  json_body req = Some v →
  (∀ d, v ≠ VDict d) →
  assets_create.main req w = (Raise AttributeError, w).
Proof.
  intros Ha Hb Hv. unfold assets_create.main. unfold bind at 1. unfold attempt at 1.
  rewrite (require_authenticated _ _ Ha).
  unfold bind at 1. unfold attempt at 1. unfold get_json. rewrite Hb.
  unfold ret at 1. unfold bind at 1.
  destruct v; try reflexivity. by destruct (Hv d).
Qed.

(** X7.  The update handler reads its body as [get_json() or {}]: a falsy JSON
    body of any type (null, 0, false, the empty string, array or object)
    counts as the empty object and is answered with 400; a truthy body that
    is not an object has no [items] method and the AttributeError leaves
    [main].  No service is called in either case. *)
Theorem update_body_must_be_an_object req w v :
  authenticated req w →
  str_truthy (route_params req !! "id") = true →
  json_body req = Some v →
  (truthy v = false →
     ∃ w', assets_update.main req w = (Ok no_valid_fields, w')
           ∧ status_code no_valid_fields = 400 ∧ untouched w w')
  ∧ (truthy v = true → (∀ d, v ≠ VDict d) →
     assets_update.main req w = (Raise AttributeError, w)).
Proof.
  intros Ha Hid Hb. split.
  - intros Hv. unfold assets_update.main. unfold bind at 1. unfold attempt at 1.
    rewrite (require_authenticated _ _ Ha), Hid. cbn [negb].
    unfold bind at 1. unfold attempt at 1. unfold get_json. rewrite Hb.
    unfold bind at 1. unfold ret at 1. unfold ret at 1. rewrite Hv.
    unfold bind at 1. unfold method_items, ret at 1.
    rewrite map_filter_empty.
    replace (dict_truthy ∅) with false by (symmetry; by apply dict_truthy_empty).
    cbn [negb]. eexists. split; [reflexivity|]. done.
  - intros Hv Hd. unfold assets_update.main. unfold bind at 1. unfold attempt at 1.
    rewrite (require_authenticated _ _ Ha), Hid. cbn [negb].
    unfold bind at 1. unfold attempt at 1. unfold get_json. rewrite Hb.
    unfold bind at 1. unfold ret at 1. unfold ret at 1. rewrite Hv.
    unfold bind at 1.
    destruct v; try reflexivity. by destruct (Hd d).
Qed.

End early_answers.

(** ** Create without storage settings *)

Section create_settings.
Context `{Platform}.


End create_settings.

(** ** The adapters when the stores are reachable and answer *)

Lemma documents_serving_same w w' :
  environ w' = environ w → oracle w' = oracle w →
  documents_serving w → documents_serving w'.
Proof.
  intros He Ho (Hc&Hh). unfold documents_serving, answers, cosmos_configured in *.
  rewrite He, Ho. done.
Qed.

Lemma relational_serving_same w w' :
  environ w' = environ w → oracle w' = oracle w →
  relational_serving w → relational_serving w'.
Proof.
  intros He Ho (Hc&Hh). unfold relational_serving, answers, sql_configured in *.
  rewrite He, Ho. done.
Qed.

Lemma serving_same w w' :
  environ w' = environ w → oracle w' = oracle w → serving w → serving w'.
Proof.
  intros He Ho [Hd Hr]. split.
  - by apply (documents_serving_same w).
  - by apply (relational_serving_same w).
Qed.

Lemma serving_within allowed w w' : within allowed w w' → serving w → serving w'.
Proof. intros (He&Ho&_). by apply serving_same. Qed.

Lemma documents_serving_within allowed w w' :
  within allowed w w' → documents_serving w → documents_serving w'.
Proof. intros (He&Ho&_). by apply documents_serving_same. Qed.

Lemma healthy_serving w :
  healthy w → cosmos_configured w = true → sql_configured w = true → serving w.
Proof. intros Hh Hc Hs. split; (split; [done|]); intros n op _; apply Hh. Qed.

Lemma authenticated_within allowed req w w' :
  within allowed w w' → authenticated req w → authenticated req w'.
Proof.
  intros (He&_) Ha. apply authenticated_allows in Ha. apply authenticated_allows.
  by rewrite He.
Qed.

Lemma run_keeps {A} (R : relation World) (m : M A) w r w' :
  keeps R m → m w = (r, w') → R w w'.
Proof. intros K E. specialize (K w). by rewrite E in K. Qed.

Lemma get_container_serving w :
  documents_serving w →
  ∃ w', cosmos_client.get_container w = (Ok tt, w')
        ∧ within (only Documents) w w' ∧ items w' = items w.
Proof.
  intros (Hc&Hh).
  assert (∃ w', cosmos_client.get_container w = (Ok tt, w')) as [w' E].
  { unfold cosmos_client.get_container. unfold bind at 1.
    destruct (_CONTAINER w); [by eexists|].
    unfold bind at 1. unfold attempt at 1. unfold bind at 1. unfold getenv at 1.
    unfold bind at 1. unfold getenv at 1.
    unfold cosmos_configured in Hc. apply andb_true_iff in Hc as [-> ->].
    cbn [negb orb].
    unfold bind at 1. unfold getenv_default at 1.
    unfold bind at 1. unfold getenv_default at 1.
    unfold bind at 1. unfold remote. rewrite Hh by done. by eexists. }
  exists w'. split; [done|]. split.
  - exact (run_keeps _ _ _ _ _ (keeps_get_container (only Documents) eq_refl) E).
  - by destruct (run_keeps _ _ _ _ _ get_container_same_stores E) as (_&?&_).
Qed.

Lemma get_asset_doc_serving i w :
  documents_serving w →
  ∃ w', cosmos_client.get_asset_doc i w = (Ok (items w !! i), w')
        ∧ within (only Documents) w w' ∧ items w' = items w.
Proof.
  intros Hs. destruct (get_container_serving w Hs) as (w0&E0&K0&I0).
  pose proof (documents_serving_within _ _ _ K0 Hs) as (_&Hh0).
  assert (∃ w', cosmos_client.get_asset_doc i w = (Ok (items w !! i), w')) as [w' E].
  { unfold cosmos_client.get_asset_doc. unfold bind at 1. rewrite E0.
    unfold bind at 1. unfold attempt at 1. unfold remote. rewrite Hh0 by done. rewrite I0.
    destruct (items w !! i); by eexists. }
  exists w'. split; [done|]. split.
  - exact (run_keeps _ _ _ _ _ (keeps_get_asset_doc (only Documents) i eq_refl) E).
  - by destruct (get_asset_doc_outcome _ _ _ _ E) as (_&(_&?&_)&_).
Qed.

Lemma upsert_asset_doc_serving doc i w :
  documents_serving w → doc !! "id" = Some (VStr i) →
  ∃ w', cosmos_client.upsert_asset_doc doc w = (Ok doc, w')
        ∧ within (only Documents) w w' ∧ items w' = <[i := doc]> (items w).
Proof.
  intros Hs Hid. destruct (get_container_serving w Hs) as (w0&E0&K0&I0).
  pose proof (documents_serving_within _ _ _ K0 Hs) as (_&Hh0).
  assert (∃ w', cosmos_client.upsert_asset_doc doc w = (Ok doc, w')
                ∧ items w' = <[i := doc]> (items w)) as (w'&E&Hi).
  { unfold cosmos_client.upsert_asset_doc. unfold bind at 1. rewrite E0.
    unfold remote. rewrite Hh0 by done. rewrite Hid. eexists. split; [reflexivity|].
    cbn [items with_calls with_items]. by rewrite ?I0. }
  exists w'. split; [done|]. split; [|done].
  exact (run_keeps _ _ _ _ _ (keeps_upsert_asset_doc (only Documents) doc eq_refl) E).
Qed.

Lemma delete_asset_doc_serving i w :
  documents_serving w →
  ∃ w', cosmos_client.delete_asset_doc i w = (Ok tt, w')
        ∧ within (only Documents) w w' ∧ items w' = delete i (items w).
Proof.
  intros Hs. destruct (get_container_serving w Hs) as (w0&E0&K0&I0).
  pose proof (documents_serving_within _ _ _ K0 Hs) as (_&Hh0).
  assert (∃ w', cosmos_client.delete_asset_doc i w = (Ok tt, w')
                ∧ items w' = delete i (items w)) as (w'&E&Hi).
  { unfold cosmos_client.delete_asset_doc. unfold bind at 1. rewrite E0.
    unfold bind at 1. unfold attempt at 1. unfold remote. rewrite Hh0 by done. rewrite I0.
    destruct (items w !! i) as [d|] eqn:Ed.
    - eexists. split; [reflexivity|]. cbn [items with_calls with_items].
      by rewrite ?I0.
    - eexists. split; [reflexivity|]. cbn [items with_calls].
      rewrite I0. symmetry. by apply delete_id. }
  exists w'. split; [done|]. split; [|done].
  exact (run_keeps _ _ _ _ _ (keeps_delete_asset_doc (only Documents) i eq_refl) E).
Qed.

Section relational_adapters.
Context `{Platform}.

Lemma get_database_engine_serving w :
  relational_serving w →
  ∃ e w', sql_client.get_database_engine w = (Ok e, w') ∧ quiet w w'.
Proof.
  intros (Hc&_).
  assert (∃ e w', sql_client.get_database_engine w = (Ok e, w')) as (e&w'&E).
  { unfold sql_client.get_database_engine. unfold bind at 1.
    destruct (_db_engine w); [by eexists _, _|].
    unfold bind at 1. unfold attempt at 1.
    unfold sql_client._construct_connection_string.
    unfold bind at 1. unfold getenv at 1. unfold bind at 1. unfold getenv at 1.
    unfold bind at 1. unfold getenv at 1. unfold bind at 1. unfold getenv at 1.
    unfold bind at 1. unfold getenv_default at 1.
    unfold bind at 1. unfold getenv_default at 1.
    unfold sql_configured in Hc. rewrite Hc. cbn [negb].
    by eexists _, _. }
  exists e, w'. split; [done|].
  exact (run_keeps _ _ _ _ _ get_database_engine_quiet E).
Qed.

Lemma fetch_all_records_serving q p w rs :
  relational_serving w →
  sql.query q (dict_or p ∅) (file_metadata w) = Some rs →
  ∃ w', sql_client.fetch_all_records q p w = (Ok (sql.row_dict <$> rs), w')
        ∧ within (only Relational) w w' ∧ file_metadata w' = file_metadata w.
Proof.
  intros Hs Hq. destruct (get_database_engine_serving w Hs) as (e&w0&E0&Q0).
  destruct Q0 as (_&Ho&_&_&Hc&Hf&_&_). destruct Hs as (_&Hh).
  assert (∃ w', sql_client.fetch_all_records q p w = (Ok (sql.row_dict <$> rs), w'))
    as [w' E].
  { unfold sql_client.fetch_all_records. unfold bind at 1. rewrite E0.
    unfold remote. rewrite Ho, Hh by done. rewrite Hf, Hq. by eexists. }
  exists w'. split; [done|].
  destruct (fetch_all_records_outcome _ _ _ _ _ E) as (K&(?&_)&_). done.
Qed.

Lemma execute_update_serving q p w t :
  relational_serving w →
  sql.exec q (dict_or p ∅) (db_clock w) (file_metadata w) = Some t →
  ∃ w', sql_client.execute_update q p w = (Ok tt, w')
        ∧ within (only Relational) w w' ∧ file_metadata w' = t.
Proof.
  intros Hs Hx. destruct (get_database_engine_serving w Hs) as (e&w0&E0&Q0).
  destruct Q0 as (_&Ho&_&Hd&Hc&Hf&_&_). destruct Hs as (_&Hh).
  assert (∃ w', sql_client.execute_update q p w = (Ok tt, w')
                ∧ file_metadata w' = t) as (w'&E&Ht).
  { unfold sql_client.execute_update. unfold bind at 1. rewrite E0.
    unfold remote. rewrite Ho, Hh by done. rewrite Hd, Hf, Hx. by eexists. }
  exists w'. split; [done|]. split; [|done].
  by destruct (execute_update_outcome _ _ _ _ _ E) as (K&_).
Qed.

End relational_adapters.

(** ** The handlers when the stores are reachable and answer *)

Lemma query_by_id i t :
  sql.query sql.SELECT_by_id (dict_or (Some (by_id i)) ∅) t
  = Some (filter (λ r, sql.r_id r = i) t).
Proof.
  rewrite dict_or_by_id. unfold sql.query, sql.param_str, by_id.
  by rewrite lookup_singleton_eq.
Qed.

Section serving_handlers.
Context `{Platform}.

Lemma get_serving req w i :
  authenticated req w →
  route_params req !! "id" = Some i → i ≠ "" →
  serving w →
  ∃ w', assets_get.main req w = (Ok (get_response i w), w').
Proof.
  intros Ha Hid Hne Hs. unfold assets_get.main.
  unfold bind at 1. unfold attempt at 1. rewrite (require_authenticated _ _ Ha).
  rewrite Hid. cbn [str_truthy default from_option id].
  destruct (String.eqb i "") eqn:Ei; [by apply String.eqb_eq in Ei|]. cbn [negb].
  unfold bind at 1. unfold attempt at 1. unfold bind at 1. fold (by_id i).
  destruct (get_asset_doc_serving i w (proj1 Hs)) as (w1&E1&K1&I1). rewrite E1.
  pose proof (serving_within _ _ _ K1 Hs) as Hs1.
  destruct K1 as (_&_&_&_&_&_&Hf1&_). destruct (Hf1 eq_refl) as [Hf1' _].
  destruct (fetch_all_records_serving sql.SELECT_by_id (Some (by_id i)) w1
              (filter (λ r, sql.r_id r = i) (file_metadata w)) (proj2 Hs1))
    as (w2&E2&K2&F2); [rewrite Hf1'; apply query_by_id|].
  unfold bind at 1. rewrite E2.
  unfold get_response, merged_record. rewrite dict_or_empty.
  destruct (filter _ (file_metadata w)) as [|r rest];
    cbn [fmap list_fmap head default].
  - unfold dict_update. rewrite (left_id_L ∅ (∪)).
    destruct (dict_truthy _); by eexists.
  - destruct (dict_truthy _); by eexists.
Qed.




End serving_handlers.

Section serving_delete.
Context `{Platform}.

Lemma delete_serving req w i :
  authenticated req w →
  route_params req !! "id" = Some i → i ≠ "" →
  serving w →
  ∃ w', assets_delete.main req w = (Ok (deleted_response i), w')
        ∧ file_metadata w' = filter (λ r, sql.r_id r ≠ i) (file_metadata w)
        ∧ items w' = delete i (items w)
        ∧ environ w' = environ w ∧ oracle w' = oracle w.
Proof.
  intros Ha Hid Hne Hs. unfold assets_delete.main.
  unfold bind at 1. unfold attempt at 1. rewrite (require_authenticated _ _ Ha).
  rewrite Hid. cbn [str_truthy default from_option id].
  destruct (String.eqb i "") eqn:Ei; [by apply String.eqb_eq in Ei|]. cbn [negb].
  (* the blobs *)
  phase (within (only Blobs)) r1 w1 E1 K1.
  destruct (attempt_is_ok _ _ _ _ E1) as [swept ->]. clear E1.
  destruct K1 as (He1&Ho1&_&Hd1&_&_&Hs1&Hi1&_).
  destruct (Hs1 eq_refl) as [Hf1 _]. destruct (Hi1 eq_refl) as [Hit1 _].
  clear Hs1 Hi1.
  unfold bind at 1.
  destruct (note_run swept ERROR
              (λ e, "Failed to delete blobs from storage: " +:+ exn_str e) w1)
    as [l1 ->].
  (* the relational rows *)
  unfold bind at 1. unfold attempt at 1. unfold bind at 1. fold (by_id i).
  assert (serving (with_logs l1 w1)) as Hs2 by (by apply (serving_same w)).
  destruct (execute_update_serving sql.DELETE_file_metadata (Some (by_id i))
              (with_logs l1 w1) (filter (λ r, sql.r_id r ≠ i) (file_metadata w)) (proj2 Hs2))
    as (w2&E2&K2&F2).
  { cbn [db_clock file_metadata with_logs]. rewrite Hf1. apply exec_delete. }
  rewrite E2. unfold log at 1.
  match goal with
  | |- context [with_logs ?l w2] => set (w2' := with_logs l w2)
  end.
  assert (within (only Relational) (with_logs l1 w1) w2') as K2'.
  { eapply (frame_trans (R:=within (only Relational))); [exact K2|].
    apply (frame_logs (R:=within (only Relational))). }
  pose proof (serving_within _ _ _ K2' Hs2) as Hs3.
  destruct K2' as (He2&Ho2&_&_&_&_&_&Hi2&_). destruct (Hi2 eq_refl) as [Hit2 _].
  (* the document *)
  unfold bind at 1. unfold attempt at 1. unfold bind at 1.
  destruct (delete_asset_doc_serving i w2' (proj1 Hs3)) as (w3&E3&K3&I3). rewrite E3.
  destruct K3 as (He3&Ho3&_&_&_&_&Hf3&_&_). destruct (Hf3 eq_refl) as [Hf3' _].
  unfold log at 1. unfold bind at 1. unfold ret at 1. unfold bind at 1.
  unfold log at 1. unfold ret.
  eexists. split; [reflexivity|].
  clear E2 E3 Hs2 Hs3. unfold w2' in *. wsimpl.
  split_and!; congruence.
Qed.

End serving_delete.

(** ** Update when the stores are reachable and answer *)

Lemma accepted_allowed d k : is_Some (accepted d !! k) → k ∈ assets_update.allowed_fields.
Proof.
  intros [v Hv]. unfold accepted in Hv.
  by apply map_lookup_filter_Some in Hv as [_ ?].
Qed.

Lemma accepted_no_id d : accepted d !! "id" = None.
Proof.
  destruct (accepted d !! "id") eqn:E; [|done].
  assert ("id" ∈ assets_update.allowed_fields) as Hin by (apply (accepted_allowed d); by eexists).
  unfold assets_update.allowed_fields in Hin.
  repeat (apply elem_of_cons in Hin as [Hin|Hin]; [discriminate Hin|]).
  by apply elem_of_nil in Hin.
Qed.

Lemma built_sets_nonempty i sets params m :
  built i (sets, params) m → m ≠ ∅ →
  (∀ k, is_Some (m !! k) → k ∈ assets_update.allowed_fields) →
  sets ≠ [].
Proof.
  intros (_&_&Hcols) Hne Hall ->. cbn [fst snd] in Hcols.
  apply map_choose in Hne as (k&v&Hk).
  assert (∃ c, (k, c) ∈ field_columns) as [c Hc].
  { specialize (Hall k (ex_intro _ v Hk)). unfold assets_update.allowed_fields in Hall.
    repeat (apply elem_of_cons in Hall as [->|Hall]);
      [ exists "file_name" | exists "file_type" | exists "file_size"
      | exists "blob_url" | exists "status" | by apply elem_of_nil in Hall ];
      unfold field_columns.
    - apply list_elem_of_here.
    - apply list_elem_of_further, list_elem_of_here.
    - do 2 apply list_elem_of_further. apply list_elem_of_here.
    - do 3 apply list_elem_of_further. apply list_elem_of_here.
    - do 4 apply list_elem_of_further. apply list_elem_of_here. }
  rewrite Forall_forall in Hcols. destruct (Hcols _ Hc) as [_ Hiff].
  cbn [fst snd] in Hiff. assert ((c, c) ∈ []) as Hin by (apply Hiff; by eexists).
  by apply elem_of_nil in Hin.
Qed.

Lemma updated_document_id i fields w :
  fields !! "id" = None →
  (∀ x, items w !! i = Some x → x ≠ ∅ → x !! "id" = Some (VStr i)) →
  updated_document i fields w !! "id" = Some (VStr i).
Proof.
  intros Hf Hx. unfold updated_document. rewrite dict_update_keeps by done.
  unfold dict_or. destruct (items w !! i) as [x|] eqn:E.
  - destruct (dict_truthy x) eqn:Et.
    + apply Hx; [done|]. intros ->.
      assert (dict_truthy (∅ : gmap string value) = false) as Hz
        by (by apply dict_truthy_empty).
      congruence.
    + apply lookup_singleton_eq.
  - apply lookup_singleton_eq.
Qed.

Lemma merged_with_id (o : option (gmap string value)) (e : gmap string value) v :
  default ∅ o !! "id" = Some v → dict_truthy (dict_update (default ∅ o) e) = true.
Proof.
  intros Hid. destruct (dict_truthy _) eqn:E; [done|].
  apply dict_truthy_empty in E. apply dict_update_empty in E as [E _].
  by rewrite E in Hid.
Qed.

Section serving_update.
Context `{Platform}.

Lemma update_serving req w i d :
  authenticated req w →
  route_params req !! "id" = Some i → i ≠ "" →
  json_body req = Some (VDict d) →
  accepted d ≠ ∅ →
  (∀ x, items w !! i = Some x → x ≠ ∅ → x !! "id" = Some (VStr i)) →
  serving w →
  ∃ w', assets_update.main req w = (Ok (ok_json (VDict (merged_record i w'))), w')
        ∧ dict_truthy (merged_record i w') = true
        ∧ items w' = <[i := updated_document i (accepted d) w]> (items w)
        ∧ file_metadata w' = patch_table i (accepted d) (file_metadata w)
        ∧ blobs w' = blobs w
        ∧ environ w' = environ w ∧ oracle w' = oracle w.
Proof.
  intros Ha Hid Hne Hb Hacc Hkeyed Hs.
  rewrite (update_ignores_unknown_keys _ _ _ Hb).
  pose proof (build_update_built i (accepted d)) as Hbuilt.
  destruct (assets_update.build_update i (accepted d)) as [sets params] eqn:Eb.
  pose proof (built_sets_nonempty _ _ _ _ Hbuilt Hacc (accepted_allowed d)) as Hsets.
  pose proof (exec_update_patch i sets params (accepted d)) as Hexec.
  specialize (Hexec (db_clock w) (file_metadata w) Hbuilt).
  destruct Hbuilt as (Hpid&_&_). cbn [snd] in Hpid.
  assert (dict_truthy (accepted d) = true) as Ht.
  { destruct (dict_truthy _) eqn:E; [done|]. by apply dict_truthy_empty in E. }
  unfold assets_update.main, with_json. cbn [headers route_params json_body].
  unfold bind at 1. unfold attempt at 1. rewrite (require_authenticated _ _ Ha).
  rewrite Hid. cbn [str_truthy default from_option id].
  destruct (String.eqb i "") eqn:Ei; [by apply String.eqb_eq in Ei|]. cbn [negb].
  unfold bind at 1. unfold attempt at 1. unfold get_json. cbn [json_body].
  unfold bind at 1. unfold ret at 1. unfold ret at 1.
  change (truthy (VDict (accepted d))) with (dict_truthy (accepted d)). rewrite Ht.
  unfold bind at 1. unfold method_items, ret at 1.
  change (filter (λ kv : string * value, kv.1 ∈ assets_update.allowed_fields)
            (accepted d)) with (accepted (accepted d)).
  rewrite accepted_idemp, Ht. cbn [negb].
  (* the document *)
  unfold bind at 1. unfold attempt at 1. unfold bind at 1.
  destruct (get_asset_doc_serving i w (proj1 Hs)) as (w1&E1&K1&I1). rewrite E1.
  pose proof (serving_within _ _ _ K1 Hs) as Hs1.
  fold (updated_document i (accepted d) w).
  destruct (upsert_asset_doc_serving (updated_document i (accepted d) w) i w1 (proj1 Hs1))
    as (w2&E2&K2&I2); [by apply updated_document_id, Hkeyed; apply accepted_no_id|].
  rewrite E2. unfold bind at 1. unfold ret at 1.
  pose proof (frame_trans _ _ _ K1 K2) as K12. clear K1 K2 E1 E2.
  pose proof (serving_within _ _ _ K12 Hs) as Hs2.
  destruct K12 as (He2&Ho2&_&Hd2&_&_&Hf2&_&Hb2).
  destruct (Hf2 eq_refl) as [Hf2' _]. specialize (Hb2 eq_refl). clear Hf2.
  (* the relational rows *)
  unfold bind at 1. unfold attempt at 1. rewrite Eb.
  destruct sets as [|s sets]; [done|].
  destruct (execute_update_serving (sql.UPDATE_file_metadata (s :: sets))
              (Some params) w2 (patch_table i (accepted d) (file_metadata w)) (proj2 Hs2))
    as (w3&E3&K3&F3).
  { rewrite (dict_or_params params i Hpid), Hd2, Hf2'. exact Hexec. }
  rewrite E3.
  pose proof (serving_within _ _ _ K3 Hs2) as Hs3.
  destruct K3 as (He3&Ho3&_&_&_&_&_&Hi3&Hb3).
  destruct (Hi3 eq_refl) as [Hi3' _]. specialize (Hb3 eq_refl). clear Hi3.
  (* reading the record back *)
  unfold bind at 1. unfold attempt at 1. unfold bind at 1.
  destruct (get_asset_doc_serving i w3 (proj1 Hs3)) as (w4&E4&K4&I4). rewrite E4.
  pose proof (serving_within _ _ _ K4 Hs3) as Hs4.
  destruct K4 as (He4&Ho4&_&_&_&_&Hf4&_&Hb4).
  destruct (Hf4 eq_refl) as [Hf4' _]. specialize (Hb4 eq_refl). clear Hf4.
  fold (by_id i).
  destruct (fetch_all_records_serving sql.SELECT_by_id (Some (by_id i)) w4
              (filter (λ r, sql.r_id r = i) (file_metadata w4)) (proj2 Hs4))
    as (w5&E5&K5&F5); [apply query_by_id|].
  unfold bind at 1. rewrite E5.
  destruct K5 as (He5&Ho5&_&_&_&_&_&Hi5&Hb5).
  destruct (Hi5 eq_refl) as [Hi5' _]. specialize (Hb5 eq_refl). clear Hi5.
  assert (items w3 !! i = Some (updated_document i (accepted d) w)) as Hdoc.
  { rewrite Hi3', I2. apply lookup_insert_eq. }
  set (result := match sql.row_dict <$> filter (λ r, sql.r_id r = i) (file_metadata w4) with
                 | [] => dict_or (items w3 !! i) ∅
                 | row :: _ => dict_update (dict_or (items w3 !! i) ∅) row
                 end).
  assert (result = merged_record i w5) as Hres.
  { unfold result, merged_record. rewrite dict_or_empty, F5, Hi5', I4.
    destruct (filter _ (file_metadata w4)) as [|r rest];
      cbn [fmap list_fmap head default]; [|done].
    unfold dict_update. by rewrite (left_id_L ∅ (∪)). }
  assert (dict_truthy (merged_record i w5) = true) as Htr.
  { unfold merged_record. apply (merged_with_id _ _ (VStr i)).
    rewrite Hi5', I4, Hdoc. cbn [default].
    by apply updated_document_id, Hkeyed; apply accepted_no_id. }
  rewrite Hres, Htr. cbn [negb]. unfold ret at 1.
  unfold bind at 1. unfold ret at 1. unfold bind at 1. unfold log at 1. unfold ret.
  match goal with
  | |- ∃ w', (_, ?wf) = _ ∧ _ => exists wf
  end.
  change (merged_record i (with_logs _ w5)) with (merged_record i w5).
  split; [reflexivity|].
  cbn [file_metadata items blobs environ oracle with_logs].
  split; [exact Htr|].
  split_and!; congruence.
Qed.

End serving_update.

(** ** One request after another *)

Lemma filter_none {A} (P : A → Prop) `{!∀ x, Decision (P x)} (l : list A) :
  Forall (λ x, ¬ P x) l → filter P l = [].
Proof.
  induction 1 as [|x l Hx _ IH]; [done|].
  by rewrite filter_cons_False.
Qed.

Lemma patch_table_other i m t :
  Forall (λ r, sql.r_id r ≠ i) t → patch_table i m t = t.
Proof.
  unfold patch_table. induction 1 as [|r t Hr _ IH]; [done|].
  cbn [fmap list_fmap]. rewrite IH.
  destruct (String.eqb (sql.r_id r) i) eqn:E; [by apply String.eqb_eq in E|done].
Qed.

Section sequences.
Context `{Platform}.



(** X10.  With both stores reachable and answering, a delete request that
    passes the gate is answered with 200, and a get for the same id is then
    answered with 404: neither a row nor a document of that id is left. *)
Theorem delete_then_get_not_found req w i req' :
  authenticated req w →
  route_params req !! "id" = Some i → i ≠ "" →
  serving w →
  headers req' = headers req → route_params req' !! "id" = Some i →
  ∃ w1 w2,
    assets_delete.main req w = (Ok (deleted_response i), w1)
    ∧ Forall (λ r, sql.r_id r ≠ i) (file_metadata w1)
    ∧ items w1 !! i = None
    ∧ assets_get.main req' w1 = (Ok not_found, w2).
Proof.
  intros Ha Hid Hne Hs Hh Hid'.
  destruct (delete_serving req w i Ha Hid Hne Hs) as (w1&E1&F1&I1&He1&Ho1).
  assert (authenticated req' w1) as Ha1.
  { apply authenticated_allows. rewrite He1, Hh. by apply authenticated_allows. }
  destruct (get_serving req' w1 i Ha1 Hid' Hne (serving_same _ _ He1 Ho1 Hs))
    as (w2&E2).
  assert (Forall (λ r, sql.r_id r ≠ i) (file_metadata w1)) as Hgone.
  { rewrite F1. apply Forall_forall. intros r Hr.
    by apply list_elem_of_filter in Hr as [? _]. }
  exists w1, w2. split; [exact E1|]. split; [exact Hgone|].
  split; [rewrite I1; apply lookup_delete_eq|].
  rewrite E2. f_equal.
  assert (merged_record i w1 = ∅) as Hm.
  { unfold merged_record. rewrite I1, lookup_delete_eq.
    rewrite (filter_none (λ r, sql.r_id r = i)).
    - cbn [fmap list_fmap head default]. unfold dict_update.
      by rewrite (left_id_L ∅ (∪)).
    - eapply Forall_impl; [exact Hgone|]. intros r Hr. done. }
  unfold get_response. rewrite Hm.
  replace (dict_truthy ∅) with false by (symmetry; by apply dict_truthy_empty).
  reflexivity.
Qed.

(** X11.  With both stores reachable and answering, the record an update
    answers with is the record a get for the same id is answered with
    right after it; the document store then holds the stored document (or
    [{id}]) with the accepted fields laid over it, and the table the rows of
    the asset with the accepted columns replaced. *)
Theorem update_then_get req w i d req' :
  authenticated req w →
  route_params req !! "id" = Some i → i ≠ "" →
  json_body req = Some (VDict d) →
  accepted d ≠ ∅ →
  (∀ x, items w !! i = Some x → x ≠ ∅ → x !! "id" = Some (VStr i)) →
  serving w →
  headers req' = headers req → route_params req' !! "id" = Some i →
  ∃ resp w1 w2,
    assets_update.main req w = (Ok resp, w1)
    ∧ status_code resp = 200
    ∧ items w1 !! i = Some (updated_document i (accepted d) w)
    ∧ file_metadata w1 = patch_table i (accepted d) (file_metadata w)
    ∧ assets_get.main req' w1 = (Ok resp, w2).
Proof.
  intros Ha Hid Hne Hb Hacc Hkeyed Hs Hh Hid'.
  destruct (update_serving req w i d Ha Hid Hne Hb Hacc Hkeyed Hs)
    as (w1&E1&Ht&I1&F1&_&He1&Ho1).
  assert (authenticated req' w1) as Ha1.
  { apply authenticated_allows. rewrite He1, Hh. by apply authenticated_allows. }
  destruct (get_serving req' w1 i Ha1 Hid' Hne (serving_same _ _ He1 Ho1 Hs))
    as (w2&E2).
  exists (ok_json (VDict (merged_record i w1))), w1, w2.
  split; [exact E1|]. split; [reflexivity|].
  split; [rewrite I1; apply lookup_insert_eq|]. split; [exact F1|].
  rewrite E2. unfold get_response. by rewrite Ht.
Qed.

(** X12.  An update for an id that neither store knows is not answered with
    404: with both stores reachable and answering it is answered with 200
    and [{id, accepted fields}], a document of that id is created in the
    document store, and the table is as it was. *)
Theorem update_of_unknown_id_creates_document req w i d :
  authenticated req w →
  route_params req !! "id" = Some i → i ≠ "" →
  json_body req = Some (VDict d) →
  accepted d ≠ ∅ →
  items w !! i = None →
  Forall (λ r, sql.r_id r ≠ i) (file_metadata w) →
  serving w →
  ∃ w', assets_update.main req w
        = (Ok (ok_json (VDict (assets_update.echo i (accepted d)))), w')
        ∧ items w' = <[i := assets_update.echo i (accepted d)]> (items w)
        ∧ file_metadata w' = file_metadata w.
Proof.
  intros Ha Hid Hne Hb Hacc Hnone Hrows Hs.
  destruct (update_serving req w i d Ha Hid Hne Hb Hacc) as (w1&E1&_&I1&F1&_);
    [by rewrite Hnone|exact Hs|].
  assert (updated_document i (accepted d) w = assets_update.echo i (accepted d)) as Hdoc.
  { unfold updated_document, assets_update.echo. by rewrite Hnone. }
  pose proof (patch_table_other i (accepted d) _ Hrows) as Hsame.
  rewrite Hdoc in I1. rewrite Hsame in F1.
  exists w1. split; [|by split]. rewrite E1. do 4 f_equal.
  unfold merged_record. rewrite I1, lookup_insert_eq, F1.
  rewrite (filter_none (λ r, sql.r_id r = i)).
  - cbn [fmap list_fmap head default]. unfold dict_update at 1.
    by rewrite (left_id_L ∅ (∪)).
  - eapply Forall_impl; [exact Hrows|]. intros r Hr. done.
Qed.

End sequences.

(** ** The statement an update builds *)

(** X13.  The branch of the update handler for an empty SET list is never
    taken: the allow-list holds only fields that have a column, so for
    every body that passes the allow-list check the statement sets at least
    one column, and the parameters bind the id of the route. *)
Theorem update_always_sets_a_column i d :
  accepted d ≠ ∅ →
  (assets_update.build_update i (accepted d)).1 ≠ []
  ∧ (assets_update.build_update i (accepted d)).2 !! "id" = Some (VStr i).
Proof.
  intros Hacc. pose proof (build_update_built i (accepted d)) as Hbuilt.
  destruct (assets_update.build_update i (accepted d)) as [sets params].
  split.
  - exact (built_sets_nonempty _ _ _ _ Hbuilt Hacc (accepted_allowed d)).
  - by destruct Hbuilt as (?&_).
Qed.

(** ** When the relational store fails after the document store was written *)

Lemma execute_update_failing q p w :
  failing Relational w →
  ∃ e w', sql_client.execute_update q p w = (Raise e, w')
          ∧ within (only Relational) w w' ∧ file_metadata w' = file_metadata w.
Proof.
  intros Hdown.
  assert (∃ e w', sql_client.execute_update q p w = (Raise e, w')) as (e&w'&E).
  { unfold sql_client.execute_update. unfold bind at 1.
    pose proof (get_database_engine_quiet w) as Q.
    destruct (sql_client.get_database_engine w) as [[x|x] w0]; simpl in Q;
      [|by eexists _, _].
    destruct Q as (_&Ho&_&_&_&_). unfold remote. rewrite Ho.
    destruct (Hdown (List.length (calls w0)) (SqlExecute q (dict_or p ∅)) eq_refl)
      as [msg ->].
    by eexists _, _. }
  exists e, w'. split; [done|].
  destruct (execute_update_outcome _ _ _ _ _ E) as (K&_&_&[(?&_)|(e'&_&Hf&_)]);
    [done|]. by split.
Qed.

Section not_rolled_back.
Context `{Platform}.

(** X14.  The update handler writes the document before the row and does not
    take the document back: when the document store answers and the
    relational store fails, the request is answered with 500, the table is
    as it was, and the document store already holds the updated document. *)
Theorem update_failure_keeps_the_document_change req w i d :
  authenticated req w →
  route_params req !! "id" = Some i → i ≠ "" →
  json_body req = Some (VDict d) →
  accepted d ≠ ∅ →
  (∀ x, items w !! i = Some x → x ≠ ∅ → x !! "id" = Some (VStr i)) →
  documents_serving w → failing Relational w →
  ∃ w', assets_update.main req w = (Ok update_failed, w')
        ∧ status_code update_failed = 500
        ∧ file_metadata w' = file_metadata w
        ∧ items w' = <[i := updated_document i (accepted d) w]> (items w).
Proof.
  intros Ha Hid Hne Hb Hacc Hkeyed Hs Hdown.
  rewrite (update_ignores_unknown_keys _ _ _ Hb).
  pose proof (build_update_built i (accepted d)) as Hbuilt.
  destruct (assets_update.build_update i (accepted d)) as [sets params] eqn:Eb.
  pose proof (built_sets_nonempty _ _ _ _ Hbuilt Hacc (accepted_allowed d)) as Hsets.
  assert (dict_truthy (accepted d) = true) as Ht.
  { destruct (dict_truthy _) eqn:E; [done|]. by apply dict_truthy_empty in E. }
  unfold assets_update.main, with_json. cbn [headers route_params json_body].
  unfold bind at 1. unfold attempt at 1. rewrite (require_authenticated _ _ Ha).
  rewrite Hid. cbn [str_truthy default from_option id].
  destruct (String.eqb i "") eqn:Ei; [by apply String.eqb_eq in Ei|]. cbn [negb].
  unfold bind at 1. unfold attempt at 1. unfold get_json. cbn [json_body].
  unfold bind at 1. unfold ret at 1. unfold ret at 1.
  change (truthy (VDict (accepted d))) with (dict_truthy (accepted d)). rewrite Ht.
  unfold bind at 1. unfold method_items, ret at 1.
  change (filter (λ kv : string * value, kv.1 ∈ assets_update.allowed_fields)
            (accepted d)) with (accepted (accepted d)).
  rewrite accepted_idemp, Ht. cbn [negb].
  (* the document *)
  unfold bind at 1. unfold attempt at 1. unfold bind at 1.
  destruct (get_asset_doc_serving i w Hs) as (w1&E1&K1&I1). rewrite E1.
  pose proof (documents_serving_within _ _ _ K1 Hs) as Hs1.
  fold (updated_document i (accepted d) w).
  destruct (upsert_asset_doc_serving (updated_document i (accepted d) w) i w1 Hs1)
    as (w2&E2&K2&I2); [by apply updated_document_id, Hkeyed; apply accepted_no_id|].
  rewrite E2. unfold bind at 1. unfold ret at 1.
  pose proof (frame_trans _ _ _ K1 K2) as K12. clear K1 K2 E1 E2.
  destruct K12 as (He2&Ho2&_&_&_&_&Hf2&_&_).
  destruct (Hf2 eq_refl) as [Hf2' _]. clear Hf2.
  (* the relational rows *)
  unfold bind at 1. unfold attempt at 1. rewrite Eb.
  destruct sets as [|s sets]; [done|].
  destruct (execute_update_failing (sql.UPDATE_file_metadata (s :: sets))
              (Some params) w2) as (e&w3&E3&K3&F3).
  { intros n op Hop. rewrite Ho2. by apply Hdown. }
  rewrite E3. destruct K3 as (_&_&_&_&_&_&_&Hi3&_).
  destruct (Hi3 eq_refl) as [Hi3' _].
  unfold bind at 1. unfold log at 1. unfold ret.
  eexists. split; [reflexivity|].
  cbn [file_metadata items with_logs]. split; [done|]. split; congruence.
Qed.


(** ** Reads that fail *)

(** X16.  The two reads of the get handler share one [try]: when the document
    read raises, or the document read returns and the query raises, the
    request is answered with 500 whatever the other store holds.  The list
    handler answers 500 when its query raises.  The stores are as they
    were. *)
Theorem reads_that_fail_are_answered_with_500 req w :
  authenticated req w →
  status_code internal_error = 500
  ∧ (∀ e w1,
       sql_client.fetch_all_records sql.SELECT_all_desc None w = (Raise e, w1) →
       ∃ w', assets_list.main req w = (Ok internal_error, w') ∧ same_stores w w')
  ∧ (∀ i, route_params req !! "id" = Some i → i ≠ "" →
       (∀ e w1,
          cosmos_client.get_asset_doc i w = (Raise e, w1) →
          ∃ w', assets_get.main req w = (Ok internal_error, w') ∧ same_stores w w')
       ∧ (∀ doc w1 e w2,
            cosmos_client.get_asset_doc i w = (Ok doc, w1) →
            sql_client.fetch_all_records sql.SELECT_by_id (Some (by_id i)) w1
            = (Raise e, w2) →
            ∃ w', assets_get.main req w = (Ok internal_error, w')
                  ∧ same_stores w w')).
Proof.
  intros Ha. split; [done|]. split; [|intros i Hid Hne; split].
  - intros e w1 E. unfold assets_list.main.
    unfold bind at 1. unfold attempt at 1. rewrite (require_authenticated _ _ Ha).
    unfold bind at 1. unfold attempt at 1. rewrite E.
    unfold bind at 1. unfold log at 1. unfold ret.
    eexists. split; [reflexivity|].
    exact (run_keeps _ _ _ _ _ (fetch_all_records_same_stores _ _) E).
  - intros e w1 E. unfold assets_get.main.
    unfold bind at 1. unfold attempt at 1. rewrite (require_authenticated _ _ Ha).
    rewrite Hid. cbn [str_truthy default from_option id].
    destruct (String.eqb i "") eqn:Ei; [by apply String.eqb_eq in Ei|]. cbn [negb].
    unfold bind at 1. unfold attempt at 1. unfold bind at 1. rewrite E.
    unfold bind at 1. unfold log at 1. unfold ret.
    eexists. split; [reflexivity|].
    exact (run_keeps _ _ _ _ _ (get_asset_doc_same_stores i) E).
  - intros doc w1 e w2 E1 E2. unfold assets_get.main.
    unfold bind at 1. unfold attempt at 1. rewrite (require_authenticated _ _ Ha).
    rewrite Hid. cbn [str_truthy default from_option id].
    destruct (String.eqb i "") eqn:Ei; [by apply String.eqb_eq in Ei|]. cbn [negb].
    unfold bind at 1. unfold attempt at 1. unfold bind at 1. rewrite E1.
    unfold bind at 1. fold (by_id i). rewrite E2.
    unfold bind at 1. unfold log at 1. unfold ret.
    eexists. split; [reflexivity|].
    pose proof (run_keeps _ _ _ _ _ (get_asset_doc_same_stores i) E1) as S1.
    pose proof (run_keeps _ _ _ _ _ (fetch_all_records_same_stores _ _) E2) as S2.
    exact (frame_trans (R:=same_stores) _ _ _ S1 S2).
Qed.

End not_rolled_back.

(** ** Delete: the blobs *)

Lemma removes_refl c p w : removes c p w w.
Proof. split; [done|]. intros b Hb Hn. done. Qed.

Lemma removes_trans c p w1 w2 w3 :
  removes c p w1 w2 → removes c p w2 w3 → removes c p w1 w3.
Proof.
  intros [A1 B1] [A2 B2]. split; [by auto|].
  intros b Hb Hn. destruct (decide (b ∈ blobs w2)) as [H2|H2]; [by apply B2|by apply B1].
Qed.

Lemma removes_same c p w w' : blobs w' = blobs w → removes c p w w'.
Proof. intros E. unfold removes. rewrite E. split; [done|]. intros b Hb Hn. done. Qed.

Lemma removes_same_blobs c p w w1 w2 :
  blobs w2 = blobs w1 → removes c p w w1 → removes c p w w2.
Proof. intros E. unfold removes. by rewrite E. Qed.

Lemma delete_blob_blobs c n w :
  let w' := (storage.delete_blob c n w).2 in
  blobs w' = blobs w ∨ blobs w' = filter (λ b, b ≠ (c, n)) (blobs w).
Proof.
  unfold storage.delete_blob, remote. destruct (oracle w _ _); [by left|].
  case_bool_decide; [by right|by left].
Qed.

Lemma delete_one_removes c p n w :
  String.prefix p n = true → removes c p w (delete_one c n w).2.
Proof.
  intros Hp. unfold delete_one, bind, attempt.
  pose proof (delete_blob_blobs c n w) as Hb.
  destruct (storage.delete_blob c n w) as [[[]|e] w1]; cbn [snd] in *.
  all: unfold log; cbn [snd];
    destruct Hb as [Hb|Hb]; [by apply removes_same|].
  all: unfold removes; cbn [blobs with_logs]; rewrite Hb; split;
    [ intros b Hin; by apply list_elem_of_filter in Hin as [_ ?]
    | intros b Hin Hn; destruct (decide (b = (c, n))) as [->|Hne]; [done|];
      destruct Hn; by apply list_elem_of_filter ].
Qed.

Lemma for_each_removes c p names w :
  Forall (λ n, String.prefix p n = true) names →
  removes c p w (for_each names (delete_one c) w).2.
Proof.
  intros Hall. revert w. induction Hall as [|n names Hn _ IH]; intros w.
  - apply removes_refl.
  - cbn [for_each]. unfold bind at 1.
    pose proof (delete_one_removes c p n w Hn) as R1.
    destruct (delete_one c n w) as [[[]|e] w1]; cbn [snd] in *; [|done].
    eapply removes_trans; [exact R1|apply IH].
Qed.

Lemma sweep_removes i w :
  removes (storage_container w) (i +:+ "/") w (sweep i w).2.
Proof.
  unfold sweep. unfold bind at 1. unfold storage.create_blob_client.
  unfold bind at 1. unfold getenv at 1.
  destruct (negb (str_truthy _)); [apply removes_refl|]. unfold ret at 1.
  unfold bind at 1. unfold storage.get_storage_container, getenv_default at 1.
  fold (storage_container w).
  unfold bind at 1. unfold storage.list_blobs, remote.
  destruct (oracle w _ _); [by apply removes_same|].
  match goal with
  | |- removes _ _ _ (for_each ?l _ ?w1).2 =>
      apply (removes_trans _ _ w w1); [by apply removes_same|];
      change (storage_container w) with (storage_container w1);
      apply for_each_removes
  end.
  apply Forall_fmap, Forall_forall. intros b Hb.
  by apply list_elem_of_filter in Hb as [[_ ?] _].
Qed.

(** The rest of the handler leaves the blobs alone. *)
Lemma delete_blobs_after_sweep req w i :
  authenticated req w →
  route_params req !! "id" = Some i → i ≠ "" →
  blobs (assets_delete.main req w).2 = blobs (sweep i w).2.
Proof.
  intros Ha Hid Hne. unfold assets_delete.main.
  unfold bind at 1. unfold attempt at 1. rewrite (require_authenticated _ _ Ha).
  rewrite Hid. cbn [str_truthy default from_option id].
  destruct (String.eqb i "") eqn:Ei; [by apply String.eqb_eq in Ei|]. cbn [negb].
  unfold bind at 1.
  match goal with
  | |- context [attempt ?m w] => change m with (sweep i)
  end.
  unfold attempt at 1. destruct (sweep i w) as [swept w1]. cbn [snd].
  match goal with
  | |- blobs (?m w1).2 = _ =>
      assert (keeps (within no_blobs) m) as K by solve_footprint;
      specialize (K w1); destruct (m w1) as [r w']; cbn [snd] in *
  end.
  destruct K as (_&_&_&_&_&_&_&_&Hb). by apply Hb.
Qed.

(** X17.  Whatever the request and whatever the services do, the delete handler
    never adds a blob and never removes one that is not in the configured
    container under the name prefix [id/] of the route. *)
Theorem delete_removes_only_the_assets_blobs req w :
  let i := default "" (route_params req !! "id") in
  let w' := (assets_delete.main req w).2 in
  (∀ b, b ∈ blobs w' → b ∈ blobs w)
  ∧ (∀ b, b ∈ blobs w → b ∉ blobs w' →
          b.1 = storage_container w ∧ String.prefix (i +:+ "/") b.2 = true).
Proof.
  intros i w'. change (removes (storage_container w) (i +:+ "/") w w').
  unfold w'. clear w'.
  destruct (gate_allows (environ w !! "API_KEY") (headers req !! "x-api-key")) eqn:Hg.
  - apply authenticated_allows in Hg.
    destruct (str_truthy (route_params req !! "id")) eqn:Hid.
    + destruct (route_params req !! "id") as [j|] eqn:Ej; [|done].
      assert (j ≠ "") as Hne.
      { intros ->. done. }
      apply removes_same_blobs with (w1 := (sweep j w).2).
      * by apply delete_blobs_after_sweep.
      * apply sweep_removes.
    + apply removes_same. unfold assets_delete.main.
      unfold bind at 1. unfold attempt at 1. rewrite (require_authenticated _ _ Hg).
      by rewrite Hid.
  - apply removes_same. by rewrite delete_denied.
Qed.






(** ** The two clients are made once *)


(** X20.  [get_container] returns at once when the container is cached, and
    opens it with a single call otherwise; after a success the container is
    cached and the next call makes no call.  Without the endpoint or the key
    in the environment it raises the ValueError before any call, and a
    failure of any kind is logged, raised again and leaves nothing cached. *)
Theorem get_container_is_opened_once w r w' :
  cosmos_client.get_container w = (r, w') →
  (_CONTAINER w = true → r = Ok tt ∧ w' = w)
  ∧ (r = Ok tt → _CONTAINER w' = true ∧ cosmos_client.get_container w' = (Ok tt, w'))
  ∧ (_CONTAINER w = false → cosmos_configured w = false →
       r = Raise (ValueError "COSMOS_ENDPOINT and COSMOS_KEY must be set")
       ∧ calls w' = calls w)
  ∧ (∀ e, r = Raise e →
       _CONTAINER w' = false
       ∧ ∃ l, logs w' = (logs w ++ [(ERROR, "Failed to initialize Cosmos DB container: "
                                            +:+ exn_str e)])%list
              ∧ calls w' = (calls w ++ l)%list ∧ (List.length l ≤ 1)%nat)
  ∧ (∃ l, calls w' = (calls w ++ l)%list ∧ (List.length l ≤ 1)%nat
          ∧ Forall (λ c, ∃ db container, c.1 = CosmosOpen db container) l).
Proof.
  unfold cosmos_client.get_container. unfold bind at 1.
  destruct (_CONTAINER w) eqn:Ec.
  - intros [= <- <-]. split_and!; try done.
    + intros _. split; [done|]. unfold bind. by rewrite Ec.
    + exists []. rewrite app_nil_r. split; [done|]. split; [simpl; lia|done].
  - unfold bind at 1. unfold attempt at 1. unfold bind at 1. unfold getenv at 1.
    unfold bind at 1. unfold getenv at 1.
    fold (cosmos_configured w). rewrite <- negb_andb.
    fold (cosmos_configured w). destruct (cosmos_configured w) eqn:Eg; cbn [negb].
    + unfold bind at 1. unfold getenv_default at 1.
      unfold bind at 1. unfold getenv_default at 1.
      unfold bind at 1. unfold remote.
      destruct (oracle w _ _) as [msg|].
      * intros [= <- <-]. split_and!; try done.
        -- intros e [= <-]. split; [done|]. eexists [_]. split; [reflexivity|].
           split; [reflexivity|]. simpl. lia.
        -- eexists [_]. split; [reflexivity|]. split; [simpl; lia|].
           apply Forall_singleton. by eexists _, _.
      * intros [= <- <-]. split_and!; try done.
        eexists [_]. split; [reflexivity|]. split; [simpl; lia|].
           apply Forall_singleton. by eexists _, _.
    + intros [= <- <-]. split_and!; try done.
      * intros e [= <-]. split; [done|]. exists []. split; [reflexivity|].
        split; [by rewrite app_nil_r|simpl; lia].
      * exists []. rewrite app_nil_r. split; [done|]. split; [simpl; lia|done].
Qed.

(** ** A document that is not there *)

(** X21.  Of the errors of the document store only not-found is caught: with
    the container at hand and no document of the id, [get_asset_doc] returns
    [None] and [delete_asset_doc] returns normally when the call is
    answered, and the store is as it was; an error the service raises
    instead leaves both functions as it is. *)
Theorem missing_document_is_not_an_error i w :
  _CONTAINER w = true → items w !! i = None →
  (oracle w (List.length (calls w)) (CosmosRead i) = None →
     ∃ w', cosmos_client.get_asset_doc i w = (Ok None, w') ∧ items w' = items w)
  ∧ (oracle w (List.length (calls w)) (CosmosDelete i) = None →
     ∃ w', cosmos_client.delete_asset_doc i w = (Ok tt, w') ∧ items w' = items w)
  ∧ (∀ msg, oracle w (List.length (calls w)) (CosmosRead i) = Some msg →
     ∃ w', cosmos_client.get_asset_doc i w = (Raise (ServiceError msg), w'))
  ∧ (∀ msg, oracle w (List.length (calls w)) (CosmosDelete i) = Some msg →
     ∃ w', cosmos_client.delete_asset_doc i w = (Raise (ServiceError msg), w')).
Proof.
  intros Hc Hi.
  assert (cosmos_client.get_container w = (Ok tt, w)) as Hg.
  { unfold cosmos_client.get_container, bind. by rewrite Hc. }
  split_and!.
  - intros Ho. unfold cosmos_client.get_asset_doc. unfold bind at 1. rewrite Hg.
    unfold bind at 1. unfold attempt at 1. unfold remote. rewrite Ho, Hi.
    by eexists.
  - intros Ho. unfold cosmos_client.delete_asset_doc. unfold bind at 1. rewrite Hg.
    unfold bind at 1. unfold attempt at 1. unfold remote. rewrite Ho, Hi.
    by eexists.
  - intros msg Ho. unfold cosmos_client.get_asset_doc. unfold bind at 1. rewrite Hg.
    unfold bind at 1. unfold attempt at 1. unfold remote. rewrite Ho.
    by eexists.
  - intros msg Ho. unfold cosmos_client.delete_asset_doc. unfold bind at 1. rewrite Hg.
    unfold bind at 1. unfold attempt at 1. unfold remote. rewrite Ho.
    by eexists.
Qed.

(** ** Parsing the storage connection string *)

Lemma split_plain sep x : sep ∉ x → storage.split sep x = [x].
Proof.
  induction x as [|c x IH]; intros Hn; [done|].
  cbn [storage.split]. apply not_elem_of_cons in Hn as [Hc Hx].
  destruct (Ascii.eqb c sep) eqn:E; [apply Ascii.eqb_eq in E; congruence|].
  by rewrite (IH Hx).
Qed.

Lemma split_cons sep x rest :
  sep ∉ x → storage.split sep (x ++ sep :: rest)%list = x :: storage.split sep rest.
Proof.
  induction x as [|c x IH]; intros Hn.
  - cbn [app storage.split]. by rewrite Ascii.eqb_refl.
  - cbn [app storage.split]. apply not_elem_of_cons in Hn as [Hc Hx].
    destruct (Ascii.eqb c sep) eqn:E; [apply Ascii.eqb_eq in E; congruence|].
    by rewrite (IH Hx).
Qed.

Lemma split_join sep xs :
  xs ≠ [] → Forall (λ x, sep ∉ x) xs → storage.split sep (join sep xs) = xs.
Proof.
  intros Hne Hall. induction Hall as [|x xs Hx Hxs IH]; [done|].
  destruct xs as [|y xs].
  - cbn [join]. by apply split_plain.
  - change (join sep (x :: y :: xs)) with (x ++ sep :: join sep (y :: xs))%list.
    rewrite split_cons by done. by rewrite IH.
Qed.

Lemma split_once_plain sep x : sep ∉ x → storage.split_once sep x = None.
Proof.
  induction x as [|c x IH]; intros Hn; [done|].
  cbn [storage.split_once]. apply not_elem_of_cons in Hn as [Hc Hx].
  destruct (Ascii.eqb c sep) eqn:E; [apply Ascii.eqb_eq in E; congruence|].
  by rewrite (IH Hx).
Qed.

Lemma split_once_setting sep k v :
  sep ∉ k → storage.split_once sep (k ++ sep :: v)%list = Some (k, v).
Proof.
  induction k as [|c k IH]; intros Hn.
  - cbn [app storage.split_once]. by rewrite Ascii.eqb_refl.
  - cbn [app storage.split_once]. apply not_elem_of_cons in Hn as [Hc Hk].
    destruct (Ascii.eqb c sep) eqn:E; [apply Ascii.eqb_eq in E; congruence|].
    by rewrite (IH Hk).
Qed.

(** The guard for the empty string changes nothing: without it the loop
    runs over the one empty segment and adds nothing. *)
Lemma parse_connection_string_loop conn_str :
  storage._parse_connection_string conn_str
  = foldl (λ parts item,
             match storage.split_once "=" item with
             | Some (key, value) =>
                 <[string_of_list_ascii (strip key) :=
                     string_of_list_ascii (strip value)]> parts
             | None => parts
             end)
          ∅ (storage.split ";" (list_ascii_of_string conn_str)).
Proof.
  unfold storage._parse_connection_string.
  destruct (String.eqb conn_str "") eqn:E; [|done].
  apply String.eqb_eq in E. by subst.
Qed.

(** X22.  The parser reads back what was written: of a connection string made
    of segments joined with [;] it returns the settings, each key and value
    stripped of surrounding white space, a later setting replacing an
    earlier one of the same key; a segment without [=] is skipped, and a
    value may itself hold [=]. *)
Theorem parse_connection_string_reads_the_settings l :
  Forall plain_segment l →
  storage._parse_connection_string (connection_text l) = settings_of l.
Proof.
  intros Hall. rewrite parse_connection_string_loop. unfold connection_text.
  rewrite list_ascii_of_string_of_list_ascii.
  destruct l as [|s l]; [done|].
  rewrite split_join.
  - unfold settings_of. generalize (∅ : gmap string string).
    induction Hall as [|s' l' Hs _ IH]; intros acc; [done|].
    cbn [fmap list_fmap foldl]. rewrite <- IH. f_equal.
    destruct s' as [k v|t]; cbn [segment_text].
    + destruct Hs as (_&Hk&_). by rewrite split_once_setting.
    + destruct Hs as (_&Ht). by rewrite split_once_plain.
  - done.
  - apply Forall_fmap. eapply Forall_impl; [exact Hall|].
    intros [k v|t]; cbn [plain_segment segment_text compose].
    + intros (Hk&_&Hv) [Hin|Hin]%elem_of_app; [done|].
      apply elem_of_cons in Hin as [Hin|Hin]; [discriminate Hin|done].
    + by intros [? _].
Qed.

(** ** The further theorems at the sample data *)

Lemma sample_serving fails :
  (∀ n op, fails n op = None) → serving (sample_world fails).
Proof.
  intros Hf. apply healthy_serving; [exact Hf|vm_compute; reflexivity ..].
Qed.

Lemma handlers_require_an_id_witness :
  authenticated (sample_no_id None) healthy_world
  ∧ str_truthy (route_params (sample_no_id None) !! "id") = false
  ∧ ∃ w', assets_delete.main (sample_no_id None) healthy_world = (Ok id_required, w')
          ∧ status_code id_required = 400 ∧ untouched healthy_world w'.
Proof.
  split; [vm_compute; reflexivity|]. split; [vm_compute; reflexivity|].
  apply (@handlers_require_an_id sample_platform (sample_no_id None) healthy_world).
  - vm_compute. reflexivity.
  - vm_compute. reflexivity.
  - do 2 apply list_elem_of_further. apply list_elem_of_here.
Defined.

Lemma handlers_reject_invalid_json_witness :
  authenticated (sample_by_id "a1") healthy_world
  ∧ json_body (sample_by_id "a1") = None
  ∧ ∃ w', assets_create.main (H:=sample_platform) (sample_by_id "a1") healthy_world
          = (Ok invalid_json, w')
          ∧ untouched healthy_world w'.
Proof.
  split; [vm_compute; reflexivity|]. split; [reflexivity|].
  destruct (@handlers_reject_invalid_json sample_platform (sample_by_id "a1")
              healthy_world) as (_&Hcreate&_).
  - vm_compute. reflexivity.
  - reflexivity.
  - exact Hcreate.
Defined.

Lemma create_body_must_be_an_object_witness :
  authenticated sample_array healthy_world
  ∧ assets_create.main (H:=sample_platform) sample_array healthy_world
    = (Raise AttributeError, healthy_world).
Proof.
  split; [vm_compute; reflexivity|].
  apply (@create_body_must_be_an_object sample_platform sample_array healthy_world
           (VList [VInt 1])).
  - vm_compute. reflexivity.
  - reflexivity.
  - discriminate.
Defined.

Lemma update_body_must_be_an_object_witness :
  authenticated sample_null healthy_world
  ∧ truthy VNone = false
  ∧ ∃ w', assets_update.main (H:=sample_platform) sample_null healthy_world
          = (Ok no_valid_fields, w')
          ∧ status_code no_valid_fields = 400 ∧ untouched healthy_world w'.
Proof.
  split; [vm_compute; reflexivity|]. split; [reflexivity|].
  destruct (@update_body_must_be_an_object sample_platform sample_null healthy_world
              VNone) as (Hfalsy&_).
  - vm_compute. reflexivity.
  - vm_compute. reflexivity.
  - reflexivity.
  - apply Hfalsy. reflexivity.
Defined.



Lemma sample_keyed x :
  items healthy_world !! "a1" = Some x → x ≠ ∅ → x !! "id" = Some (VStr "a1").
Proof.
  intros Hx _.
  assert (items healthy_world !! "a1" ≫= (.!! "id") = Some (VStr "a1")) as Hid
    by (vm_compute; reflexivity).
  rewrite Hx in Hid. exact Hid.
Qed.

Lemma delete_then_get_not_found_witness :
  let w := healthy_world in
  authenticated (sample_by_id "a1") w
  ∧ serving w
  ∧ ∃ w1 w2,
      assets_delete.main (sample_by_id "a1") w = (Ok (deleted_response "a1"), w1)
      ∧ assets_get.main (H:=sample_platform) (sample_by_id "a1") w1
        = (Ok not_found, w2).
Proof.
  intros w.
  assert (authenticated (sample_by_id "a1") w) as Ha by (vm_compute; reflexivity).
  assert (serving w) as Hs by (by apply sample_serving).
  split; [exact Ha|]. split; [exact Hs|].
  destruct (@delete_then_get_not_found sample_platform (sample_by_id "a1") w "a1"
              (sample_by_id "a1") Ha) as (w1&w2&E1&_&_&E2).
  - vm_compute. reflexivity.
  - discriminate.
  - exact Hs.
  - reflexivity.
  - vm_compute. reflexivity.
  - exists w1, w2. split; [exact E1|exact E2].
Defined.

Lemma sample_accepted : accepted update_body ≠ ∅.
Proof.
  intros E.
  assert (accepted update_body !! "status" = None) as Hn
    by (rewrite E; apply lookup_empty).
  vm_compute in Hn. discriminate Hn.
Qed.

Lemma update_then_get_witness :
  let w := healthy_world in
  authenticated (sample_update update_body) w
  ∧ accepted update_body ≠ ∅
  ∧ serving w
  ∧ ∃ resp w1 w2,
      assets_update.main (H:=sample_platform) (sample_update update_body) w
      = (Ok resp, w1)
      ∧ status_code resp = 200
      ∧ assets_get.main (H:=sample_platform) (sample_by_id "a1") w1 = (Ok resp, w2).
Proof.
  intros w.
  assert (authenticated (sample_update update_body) w) as Ha
    by (vm_compute; reflexivity).
  assert (serving w) as Hs by (by apply sample_serving).
  split; [exact Ha|]. split; [exact sample_accepted|]. split; [exact Hs|].
  destruct (@update_then_get sample_platform (sample_update update_body) w "a1"
              update_body (sample_by_id "a1") Ha) as (resp&w1&w2&E1&Hst&_&_&E2).
  - vm_compute. reflexivity.
  - discriminate.
  - reflexivity.
  - exact sample_accepted.
  - exact sample_keyed.
  - exact Hs.
  - reflexivity.
  - vm_compute. reflexivity.
  - exists resp, w1, w2. split; [exact E1|]. split; [exact Hst|exact E2].
Defined.

Lemma update_of_unknown_id_creates_document_witness :
  let w := healthy_world in
  authenticated sample_unknown w
  ∧ items w !! "zz" = None
  ∧ Forall (λ r, sql.r_id r ≠ "zz") (file_metadata w)
  ∧ assets_update.echo "zz" (accepted update_body)
    = {[ "id" := VStr "zz"; "status" := VStr "done" ]}
  ∧ ∃ w', assets_update.main (H:=sample_platform) sample_unknown w
          = (Ok (ok_json (VDict (assets_update.echo "zz" (accepted update_body)))), w')
          ∧ items w' = <["zz" := assets_update.echo "zz" (accepted update_body)]> (items w)
          ∧ file_metadata w' = file_metadata w.
Proof.
  intros w.
  assert (authenticated sample_unknown w) as Ha by (vm_compute; reflexivity).
  assert (items w !! "zz" = None) as Hnone by (vm_compute; reflexivity).
  assert (Forall (λ r, sql.r_id r ≠ "zz") (file_metadata w)) as Hrows
    by (repeat constructor; discriminate).
  split; [exact Ha|]. split; [exact Hnone|]. split; [exact Hrows|].
  split; [vm_compute; reflexivity|].
  apply (@update_of_unknown_id_creates_document sample_platform sample_unknown w "zz"
           update_body Ha).
  - vm_compute. reflexivity.
  - discriminate.
  - reflexivity.
  - exact sample_accepted.
  - exact Hnone.
  - exact Hrows.
  - by apply sample_serving.
Defined.

Lemma update_always_sets_a_column_witness :
  accepted update_body ≠ ∅
  ∧ (assets_update.build_update "a1" (accepted update_body)).1 ≠ []
  ∧ assets_update.build_update "a1" (accepted update_body)
    = ([("status", "status")], {[ "id" := VStr "a1"; "status" := VStr "done" ]}).
Proof.
  split; [exact sample_accepted|]. split.
  - exact (proj1 (update_always_sets_a_column "a1" update_body sample_accepted)).
  - vm_compute. reflexivity.
Defined.

Lemma sample_documents_serving :
  documents_serving (sample_world relational_down).
Proof.
  split; [vm_compute; reflexivity|].
  intros n op Hop. destruct op; try discriminate Hop; reflexivity.
Qed.

Lemma sample_relational_failing : failing Relational (sample_world relational_down).
Proof.
  intros n op Hop. destruct op; try discriminate Hop; by eexists.
Qed.

Lemma update_failure_keeps_the_document_change_witness :
  let w := sample_world relational_down in
  authenticated (sample_update update_body) w
  ∧ documents_serving w ∧ failing Relational w
  ∧ ∃ w', assets_update.main (H:=sample_platform) (sample_update update_body) w
          = (Ok update_failed, w')
          ∧ file_metadata w' = file_metadata w
          ∧ items w' = <["a1" := updated_document "a1" (accepted update_body) w]> (items w).
Proof.
  intros w.
  assert (authenticated (sample_update update_body) w) as Ha
    by (vm_compute; reflexivity).
  split; [exact Ha|]. split; [exact sample_documents_serving|].
  split; [exact sample_relational_failing|].
  destruct (@update_failure_keeps_the_document_change sample_platform
              (sample_update update_body) w "a1" update_body Ha)
    as (w'&E&_&Hf&Hi).
  - vm_compute. reflexivity.
  - discriminate.
  - reflexivity.
  - exact sample_accepted.
  - exact sample_keyed.
  - exact sample_documents_serving.
  - exact sample_relational_failing.
  - exists w'. split; [exact E|]. split; [exact Hf|exact Hi].
Defined.


Lemma reads_that_fail_are_answered_with_500_witness :
  let w := sample_world relational_down in
  authenticated sample_list w
  ∧ (∃ e w1, sql_client.fetch_all_records (H:=sample_platform) sql.SELECT_all_desc
               None w = (Raise e, w1))
  ∧ ∃ w', assets_list.main (H:=sample_platform) sample_list w = (Ok internal_error, w')
          ∧ same_stores w w'.
Proof.
  intros w.
  assert (authenticated sample_list w) as Ha by (vm_compute; reflexivity).
  assert (∃ e w1, sql_client.fetch_all_records (H:=sample_platform)
                    sql.SELECT_all_desc None w = (Raise e, w1)) as (e&w1&E)
    by (eexists _, _; vm_compute; reflexivity).
  split; [exact Ha|]. split; [by exists e, w1|].
  destruct (@reads_that_fail_are_answered_with_500 sample_platform sample_list w Ha)
    as (_&Hlist&_).
  exact (Hlist e w1 E).
Defined.



Lemma get_container_is_opened_once_witness :
  let w := healthy_world in
  let run := cosmos_client.get_container w in
  run = (Ok tt, run.2)
  ∧ _CONTAINER run.2 = true
  ∧ cosmos_client.get_container run.2 = (Ok tt, run.2).
Proof.
  intros w run.
  assert (run = (Ok tt, run.2)) as E by (vm_compute; reflexivity).
  split; [exact E|].
  destruct (get_container_is_opened_once w _ _ E) as (_&Hok&_).
  exact (Hok eq_refl).
Defined.

Lemma missing_document_is_not_an_error_witness :
  let w := with_CONTAINER true healthy_world in
  _CONTAINER w = true ∧ items w !! "zz" = None
  ∧ (∃ w', cosmos_client.get_asset_doc "zz" w = (Ok None, w') ∧ items w' = items w)
  ∧ (∃ w', cosmos_client.delete_asset_doc "zz" w = (Ok tt, w') ∧ items w' = items w).
Proof.
  intros w.
  assert (items w !! "zz" = None) as Hi by (vm_compute; reflexivity).
  split; [reflexivity|]. split; [exact Hi|].
  destruct (missing_document_is_not_an_error "zz" w eq_refl Hi) as (Hget&Hdel&_).
  split; [apply Hget|apply Hdel]; reflexivity.
Defined.

Lemma parse_connection_string_reads_the_settings_witness :
  Forall plain_segment sample_segments
  ∧ connection_text sample_segments
    = "AccountName=acct; ; AccountKey = k3y== ;AccountName=other;"
  ∧ settings_of sample_segments
    = {[ "AccountName" := "other"; "AccountKey" := "k3y==" ]}
  ∧ storage._parse_connection_string (connection_text sample_segments)
    = settings_of sample_segments.
Proof.
  assert (Forall plain_segment sample_segments) as Hall.
  { unfold sample_segments.
    repeat (apply Forall_cons; split;
            [cbn [plain_segment]; split_and!; apply (bool_decide_unpack _);
             vm_compute; exact I|]).
    apply Forall_nil_2. }
  split; [exact Hall|]. split; [vm_compute; reflexivity|].
  split; [vm_compute; reflexivity|].
  exact (parse_connection_string_reads_the_settings sample_segments Hall).
Defined.
